(** * refiner_api: batch dispatch, retry and reassembly

    A shallow embedding of [src/refiner_api/classes.py] and
    [src/refiner_api/main.py].

    Python objects are modelled by records, exceptions by the [exn] type and
    the [result] monad, the network by an oracle giving the outcome of each
    HTTP call, and [time.sleep] / the log manager by a trace of events.
    pandas tables are modelled column-major, with the behaviour of the few
    pandas operations the code relies on written out next to each
    definition. *)

From Stdlib Require Import List String Ascii ZArith Arith Bool Lia DecimalString.
Import ListNotations.
Open Scope string_scope.

(* ================================================================= *)
(** * Part I: definitions *)
(* ================================================================= *)

(** ** Python string operations used by the code *)

Module Py.

(** [s.split(sep)[0]] for a one-character separator: the text before the
    first occurrence of [sep], all of [s] when there is none. *)
Fixpoint split_head (sep : ascii) (s : string) : string :=
  match s with
  | EmptyString => EmptyString
  | String c r =>
      if Ascii.eqb c sep then EmptyString else String c (split_head sep r)
  end.

(** [s[k:]] for [0 <= k]. *)
Fixpoint drop (k : nat) (s : string) : string :=
  match k, s with
  | 0, _ => s
  | S _, EmptyString => EmptyString
  | S k', String _ r => drop k' r
  end.

(** [s[-n:]]: the last [n] characters, all of [s] when it is shorter;
    [s[-0:]] is [s[0:]], the whole string. *)
Definition last_chars (n : nat) (s : string) : string :=
  match n with
  | 0 => s
  | S _ => drop (String.length s - n) s
  end.

(** [c in s]. *)
Fixpoint has_char (c : ascii) (s : string) : bool :=
  match s with
  | EmptyString => false
  | String d r => Ascii.eqb d c || has_char c r
  end.

(** [c * n] for a one-character string. *)
Fixpoint replicate (n : nat) (c : ascii) : string :=
  match n with
  | 0 => EmptyString
  | S n' => String c (replicate n' c)
  end.

(** [sep.join(l)]. *)
Definition join (sep : string) (l : list string) : string :=
  String.concat sep l.

(** [l[a:b]] on a list, for [0 <= a <= b]. *)
Definition slice {A : Type} (a b : nat) (l : list A) : list A :=
  firstn (b - a) (skipn a l).

End Py.

(** ** Exceptions and results *)

(** A pandas table: the row labels and the columns in order, each column a
    name with one cell per row.  In [call_api] every cell is a string
    ([.fillna('').astype(str)]); [pd.concat] produces missing cells. *)
Record Frame (C : Type) : Type := mkFrame {
  df_index : list Z;
  df_columns : list (string * list C)
}.
Arguments mkFrame {C} _ _.
Arguments df_index {C} _.
Arguments df_columns {C} _.

Definition DataFrame : Type := Frame string.

(** Values that the code puts in log entries and exception arguments. *)
Inductive pyval : Type :=
| VStr (s : string)
| VInt (z : Z)
| VBytes (b : string)
| VFrame (df : DataFrame)
| VLap.                      (* a [StopWatch] reading *)

(** [ApiSetupError.description]: the text is kept as the pieces it is built
    from, since [str] of a table or of a bytes object is not modelled. *)
Inductive description_t : Type :=
| Formatted (template : string) (a1 a2 : pyval) (* template.format(a1, a2) *)
| Joined (lines : list string).                 (* '\n'.join(lines) *)

Inductive exn : Type :=
| ApiSetupError (error : string) (description : description_t)
| ConnectionError
| KeyError (key : string)
| ValueError (msg : string)
| TypeError (msg : string)
| IndexError (msg : string)
| AttributeError (msg : string)
| OtherError (name : string).

Inductive result (A : Type) : Type :=
| Ok (a : A)
| Raise (e : exn).
Arguments Ok {A} _.
Arguments Raise {A} _.

Definition bind {A B : Type} (r : result A) (k : A -> result B) : result B :=
  match r with
  | Ok a => k a
  | Raise e => Raise e
  end.

Notation "x <- c ;; k" := (bind c (fun x => k))
  (at level 61, c at next level, right associativity).

(** What the program does besides computing: HTTP requests, sleeps and log
    entries, in the order in which one thread performs them. *)
Inductive event : Type :=
| EvGet (url : string)
| EvPost (server_id : nat) (url : string) (data : string)
| EvSleep (seconds : Z)
| EvLogStart (reset_log : bool)
| EvLog (entry : list pyval).

(** ** pandas operations *)

Module Pandas.

Section FrameOps.
Context {C : Type}.

Definition empty : Frame C := mkFrame [] [].           (* pd.DataFrame() *)

Definition nrows (df : Frame C) : nat := List.length (df_index df). (* shape[0] *)
Definition ncols (df : Frame C) : nat := List.length (df_columns df). (* shape[1] *)

Fixpoint lookup (name : string) (cols : list (string * list C))
  : option (list C) :=
  match cols with
  | [] => None
  | (n, vs) :: rest => if String.eqb n name then Some vs else lookup name rest
  end.

(** [df[name]]: [KeyError] when there is no such column. *)
Definition get_col (name : string) (df : Frame C) : result (list C) :=
  match lookup name (df_columns df) with
  | Some vs => Ok vs
  | None => Raise (KeyError name)
  end.

Fixpoint replace_col (name : string) (vs : list C)
  (cols : list (string * list C)) : list (string * list C) :=
  match cols with
  | [] => [(name, vs)]
  | (n, old) :: rest =>
      if String.eqb n name then (n, vs) :: rest
      else (n, old) :: replace_col name vs rest
  end.

(** [df[name] = values]: an existing column is overwritten in place, a new
    one is added after the others. *)
Definition set_col (name : string) (vs : list C) (df : Frame C) : Frame C :=
  mkFrame (df_index df) (replace_col name vs (df_columns df)).

(** [df[name] = scalar]: the scalar is broadcast over the rows the table
    has; on a table without rows the column is created empty. *)
Definition set_col_scalar (name : string) (v : C) (df : Frame C) : Frame C :=
  set_col name (repeat v (nrows df)) df.

(** [df.index = labels]: pandas refuses labels whose number differs from
    the number of rows ("Length mismatch: Expected axis has ... elements"),
    except on a table that has no columns. *)
Definition set_index (labels : list Z) (df : Frame C) : result (Frame C) :=
  if Nat.eqb (ncols df) 0 || Nat.eqb (List.length labels) (nrows df)
  then Ok (mkFrame labels (df_columns df))
  else Raise (ValueError "Length mismatch").

(** [df.iloc[a:b]]. *)
Definition iloc (a b : nat) (df : Frame C) : Frame C :=
  mkFrame (Py.slice a b (df_index df))
          (map (fun c => (fst c, Py.slice a b (snd c))) (df_columns df)).

End FrameOps.

(** [df[name] = df[name].apply(f)]. *)
Definition apply_col (name : string) (f : string -> string) (df : DataFrame)
  : result DataFrame :=
  vs <- get_col name df ;;
  Ok (set_col name (map f vs) df).

(** The column names of the tables of a list, each once, in order of first
    appearance. *)
Fixpoint union_names (seen : list string) (names : list string)
  : list string :=
  match names with
  | [] => []
  | n :: rest =>
      if existsb (String.eqb n) seen then union_names seen rest
      else n :: union_names (n :: seen) rest
  end.

Definition concat_column (objs : list DataFrame) (name : string)
  : string * list (option string) :=
  (name,
   flat_map (fun df => match lookup name (df_columns df) with
                       | Some vs => map Some vs
                       | None => repeat None (nrows df)
                       end) objs).

(** [pd.concat(objs, ignore_index=False)]: the rows of the tables one
    after the other, each keeping its label; a cell of a column that a
    table lacks is missing ([None]).  An empty list is refused with
    [ValueError("No objects to concatenate")]. *)
Definition concat (objs : list DataFrame) : result (Frame (option string)) :=
  match objs with
  | [] => Raise (ValueError "No objects to concatenate")
  | _ :: _ =>
      Ok (mkFrame
            (flat_map df_index objs)
            (map (concat_column objs)
                 (union_names []
                    (flat_map (fun df => map fst (df_columns df)) objs))))
  end.

End Pandas.

(** ** [ApiSetupError] *)

Module Errors.

Definition nl : string := String (ascii_of_nat 10) EmptyString.
Definition dq : string := String (ascii_of_nat 34) EmptyString.

(** [ApiSetupError.err_dict]: name and description template of each key. *)
Definition err_dict (key : string) : option (string * string) :=
  if String.eqb key "api_down" then
    Some ("API Service Not Running",
          "The API Initialisation call failed" ++ nl
          ++ "The API {} returned the error {}")
  else if String.eqb key "api_key" then
    Some ("API Response Error",
          "Missing data fields: " ++ dq ++ "{}" ++ dq ++ nl ++ "{}")
  else if String.eqb key "fld_drop" then
    Some ("Blob Error",
          "Field delete: " ++ dq ++ "{}" ++ dq ++ " does not exist in {}")
  else if String.eqb key "job_id" then
    Some ("Job ID Error",
          "The folder for Job ID: " ++ dq ++ "{}" ++ dq ++ " does not exist.{}")
  else if String.eqb key "sp_log" then
    Some ("SharePoint Logging Error", "{} {}")
  else None.

Fixpoint all_str (l : list pyval) : option (list string) :=
  match l with
  | [] => Some []
  | VStr s :: rest => option_map (cons s) (all_str rest)
  | _ :: _ => None
  end.

(** [ApiSetupError(err_vars)] for a list [err_vars]: the exception that the
    [raise] statement ends up raising.  With three elements the first one
    selects a template, filled with the other two; otherwise the first
    element is the error name and the rest is joined into the description.
    A constructor that fails raises its own exception instead. *)
Definition ApiSetupError_init (err_vars : list pyval) : exn :=
  match err_vars with
  | [k; a1; a2] =>
      match k with
      | VFrame _ => TypeError "unhashable type"
      | VStr key =>
          match err_dict key with
          | Some (name, template) => ApiSetupError name (Formatted template a1 a2)
          | None => AttributeError "error"
          end
      | _ => AttributeError "error"
      end
  | [] => IndexError "pop from empty list"
  | first :: rest =>
      match first, all_str rest with
      | VStr e, Some lines => ApiSetupError e (Joined lines)
      | _, _ => TypeError "sequence item: expected str instance"
      end
  end.

End Errors.

(** ** [ApiServer]: one endpoint and its startup verification *)

Module Server.

Import Errors.

Record ApiServer : Type := mkApiServer {
  name : string;
  root : string;
  uri_stem : string;
  multi_thread_mode : bool;
  init_result : string;
  online : bool
}.

(** Class attributes of [ApiServer]. *)
Definition check_str : string :=
  "address1=AFD%20Software%20Ltd,Lezayre,Ramsey,Isle%20of%20Man,IM7%202DZ".
Definition sleep_timer : Z := 1.            (* seconds before a retry *)
Definition sleep_timer_increment : Z := 3.  (* added after each failure *)

(** A JSON scalar as [response.json()] gives it. *)
Inductive jval : Type :=
| JNone
| JInt (z : Z)
| JStr (s : string).

Definition truthy (v : jval) : bool :=
  match v with
  | JNone => false
  | JInt z => negb (Z.eqb z 0)
  | JStr s => negb (String.eqb s "")
  end.

Definition str_of_Z (z : Z) : string :=
  DecimalString.NilZero.string_of_int (Z.to_int z).

Definition py_str (v : jval) : string :=
  match v with
  | JNone => "None"
  | JInt z => str_of_Z z
  | JStr s => s
  end.

(** What the verification request ([requests.get] followed by
    [response.json()]) comes back with. *)
Inductive get_outcome : Type :=
| GetConnectTimeout
| GetConnectionError
| GetJSONDecodeError
| GetJson (ResultCode Result : jval)   (* [in_dict.get] of the two keys *)
| GetOtherError (exception : string).

(** [s.replace(old, new)] for a non-empty [old]: occurrences are replaced
    from the left, without overlap. *)
Fixpoint replace_from (old new s : string) (skip : nat) : string :=
  match s with
  | EmptyString => EmptyString
  | String c r =>
      match skip with
      | S k => replace_from old new r k
      | 0 =>
          if String.prefix old s
          then new ++ replace_from old new r (String.length old - 1)
          else String c (replace_from old new r 0)
      end
  end.

Definition replace (old new s : string) : string := replace_from old new s 0.

(** The [result] dictionary of [check_api]. *)
Definition result_table (name NA : string) (key : string) : option string :=
  if String.eqb key "200" then Some "Working"
  else if String.eqb key "-1" then
    Some "Test Lookup Address Failed - Check service manually"
  else if String.eqb key "-7" then
    Some (name ++ " Authentication Error - Check licence (serial) and password")
  else if String.eqb key "H1" then
    Some (name ++ " Not Responding - Check the host IP address")
  else if String.eqb key "H2" then
    Some (name ++ " Not Responding - Check the host port number")
  else if String.eqb key "S1" then
    Some ("You have setup the " ++ name
          ++ " API for XML responses. We can currently only handle JSON. " ++ nl
          ++ "Ensure that " ++ dq ++ "frmt='json'" ++ dq
          ++ " is included in your ApiServer instantiation.")
  else if String.eqb key "NA" then Some NA
  else None.

Definition NA_message (name : string) : string :=
  name ++ " Returned Unexpected Result ([urc])- Check service manually".

Definition is_key (name key : string) : bool :=
  match result_table name "" key with Some _ => true | None => false end.

Definition table_get (name NA key : string) : result string :=
  match result_table name NA key with
  | Some v => Ok v
  | None => Raise (KeyError key)
  end.

(** [ApiServer.check_api]: the message for the result code of the test
    lookup.  A code that is not in the table is reported under ['NA'], which
    needs it to be a string ([str.replace]). *)
Definition check_api (name : string) (response : get_outcome) : result string :=
  match response with
  | GetConnectTimeout => table_get name (NA_message name) "H1"
  | GetConnectionError => table_get name (NA_message name) "H2"
  | GetJSONDecodeError => table_get name (NA_message name) "S1"
  | GetOtherError e => Raise (OtherError e)
  | GetJson rc r =>
      let result_code := if truthy rc then rc else r in
      if is_key name (py_str result_code)
      then table_get name (NA_message name) (py_str result_code)
      else
        match result_code with
        | JStr code =>
            table_get name (replace "[urc]" code (NA_message name)) "NA"
        | _ => Raise (TypeError "replace() argument 2 must be str")
        end
  end.

(** One element of [api_server_info]. *)
Record server_info : Type := mkInfo {
  si_name : string;
  si_host : string;
  si_licence : string;
  si_password : string
}.

(** [root.format(host, licence, password)] for the template of [get_apis],
    ['http://{}/v1/refiner/GBR/clean?serial={}&password={}']. *)
Definition root_format (host licence password : string) : string :=
  "http://" ++ host ++ "/v1/refiner/GBR/clean?serial=" ++ licence
  ++ "&password=" ++ password.

Definition default_fields : list string :=
  ["UDPRN"; "UPRN"; "Organisation"; "Property"; "Street"; "Locality"; "Town";
   "PostalCounty"; "Postcode"].

(** [self.uri_stem], from the root, the format and the requested fields
    (the default ones when none are given). *)
Definition make_uri_stem (root frmt : string)
  (refiner_fields : option (list string)) : string :=
  let fields := match refiner_fields with
                | None | Some [] => default_fields
                | Some fs => fs
                end in
  Py.join "&" [root; "format=" ++ frmt; "fields=" ++ Py.join "@" fields].

(** The URL of [self.call()], the request of the start-up verification. *)
Definition call_url (uri_stem : string) : string :=
  Py.join "&" [uri_stem; check_str].

Section Construction.

(** The network during start-up: the outcome of a GET of a URL. *)
Variable http_get : string -> get_outcome.

(** [self.check_api(self.root)] for the server described by [si]. *)
Definition startup_check (si : server_info)
  (refiner_fields : option (list string)) (frmt : string) : result string :=
  check_api (si_name si)
    (http_get
       (call_url
          (make_uri_stem
             (root_format (si_host si) (si_licence si) (si_password si))
             frmt refiner_fields))).

(** [ApiServer.__init__] with a [LogManager] as [api_log].  The constructor
    raises when the verification does not say ['Working']; the log entry is
    written only after that test. *)
Definition ApiServer_init (name host licence password : string)
  (multi_thread_mode : bool) (refiner_fields : option (list string))
  (frmt : string) : result ApiServer * list event :=
  let root := root_format host licence password in
  let uri_stem := make_uri_stem root frmt refiner_fields in
  let url := call_url uri_stem in
  match startup_check (mkInfo name host licence password) refiner_fields frmt with
  | Raise e => (Raise e, [EvGet url])
  | Ok init_result =>
      if negb (String.eqb init_result "Working")
      then (Raise (ApiSetupError_init [VStr "API Settings Error"; VStr init_result]),
            [EvGet url])
      else
        (Ok (mkApiServer name root uri_stem multi_thread_mode init_result true),
         [EvGet url;
          EvLog [VStr "API Server initialised"; VStr name;
                 VStr ("Running in "
                       ++ (if multi_thread_mode then "Multi" else "Single")
                       ++ "-threaded Mode")]])
  end.

(** The loop of [get_apis] (and of [Config.set_apis], which is the same
    code): an exception of a constructor leaves the loop and the function. *)
Fixpoint get_apis_loop (multi_threaded_mode : bool)
  (refiner_request_fields : option (list string))
  (infos : list server_info) (api_servers : list ApiServer)
  : result (list ApiServer) * list event :=
  match infos with
  | [] => (Ok api_servers, [])
  | si :: rest =>
      match ApiServer_init (si_name si) (si_host si) (si_licence si)
              (si_password si) multi_threaded_mode refiner_request_fields
              "json" with
      | (Raise e, ev) => (Raise e, ev)
      | (Ok api_server, ev) =>
          let api_servers' :=
            if online api_server then (api_servers ++ [api_server])%list
            else api_servers in
          let (r, ev') := get_apis_loop multi_threaded_mode
                            refiner_request_fields rest api_servers' in
          (r, (ev ++ ev')%list)
      end
  end.

Definition get_apis (api_server_info : list server_info)
  (refiner_request_fields : option (list string))
  : result (list ApiServer) * list event :=
  let multi_threaded_mode := Nat.ltb 1 (List.length api_server_info) in
  get_apis_loop multi_threaded_mode refiner_request_fields api_server_info [].

End Construction.

End Server.

(** ** [ApiCall]: one batch sent to one endpoint *)

Module Call.

Import Errors Server.

(** An element of [api_data]: the request lines joined with newlines, and
    the row labels of the slice. *)
Definition batch_data : Type := (string * list Z)%type.

Record ApiCall : Type := mkApiCall {
  api_servers : list ApiServer;
  api_server_id : nat;
  out_fields : list string;
  data : string;              (* the request body, [api_str.encode('utf-8')] *)
  first_row : string;
  index : option (list Z)     (* [None] is Python's [None] *)
}.

(** [ApiCall(api_servers, api_server_id, refiner_fields, batch_data)] for a
    [batch_data] that is a list of a payload and row labels. *)
Definition ApiCall_init (api_servers : list ApiServer) (api_server_id : nat)
  (refiner_fields : list string) (batch : batch_data) : ApiCall :=
  mkApiCall api_servers api_server_id refiner_fields (fst batch)
            (Py.split_head (ascii_of_nat 10) (fst batch)) (Some (snd batch)).

(** [get_server()], with [switch=False]: the endpoint does not change. *)
Definition get_server (self : ApiCall) : result ApiServer :=
  match nth_error (api_servers self) (api_server_id self) with
  | Some s => Ok s
  | None => Raise (IndexError "list index out of range")
  end.

(** What the POST of a batch, followed by the parse of the response
    ([pd.read_json(...).fillna('').astype(str)]), comes back with. *)
Inductive post_outcome : Type :=
| PostConnectionError                    (* requests.exceptions.ConnectionError *)
| PostOtherError (exception : string)    (* any other exception *)
| PostXMLSyntaxError (r_out : string)    (* the parse raises XMLSyntaxError *)
| PostTable (r_out : string) (table : DataFrame).

(** The three lambdas of the normalisation. *)
Definition norm_UDPRN (r : string) : string :=
  Py.last_chars 8 ("00000000" ++ Py.split_head "." r).
Definition norm_UPRN (r : string) : string :=
  Py.last_chars 12 ("000000000000" ++ Py.split_head "." r).
Definition norm_Closeness (r : string) : string :=
  Py.split_head "." r.

(** The body of the [try] after the parse.  The table is updated in place,
    so a [KeyError] finds it as the updates before it left it. *)
Inductive try_outcome : Type :=
| Done (batch : DataFrame)
| KeyErrorAt (batch : DataFrame).

Definition normalise (batch : DataFrame) : try_outcome :=
  match Pandas.apply_col "UDPRN" norm_UDPRN batch with
  | Raise _ => KeyErrorAt batch
  | Ok b1 =>
      match Pandas.apply_col "UPRN" norm_UPRN b1 with
      | Raise _ => KeyErrorAt b1
      | Ok b2 =>
          match Pandas.apply_col "Closeness" norm_Closeness b2 with
          | Raise _ => KeyErrorAt b2
          | Ok b3 => Done b3
          end
      end
  end.

Definition blank_fields (out_fields : list string) (batch : DataFrame)
  : DataFrame :=
  fold_left (fun b f => Pandas.set_col_scalar f "" b) out_fields batch.

Definition sentinel (out_fields : list string) (batch : DataFrame)
  : DataFrame :=
  Pandas.set_col_scalar "Closeness" "0"
    (Pandas.set_col_scalar "UPRN" "000000000000"
       (Pandas.set_col_scalar "UDPRN" "00000000"
          (blank_fields out_fields batch))).

Definition fill (out_fields : list string) (batch : DataFrame) : try_outcome :=
  if Nat.ltb 2 (Pandas.ncols batch) then normalise batch
  else Done (sentinel out_fields batch).

(** [ApiCall.call_api()] given what the network answers: the table it
    returns or the exception it raises, and the events of the call. *)
Definition call_api (self : ApiCall) (net : post_outcome)
  : result DataFrame * list event :=
  match get_server self with
  | Raise e => (Raise e, [])
  | Ok api_server =>
      let post := EvPost (api_server_id self) (uri_stem api_server) (data self) in
      let finish (batch : DataFrame) (ev : list event) :=
        match fill (out_fields self) batch with
        | KeyErrorAt b =>
            (Raise (ApiSetupError_init [VStr "api_key"; VFrame b; VBytes (data self)]),
             ev)
        | Done b =>
            match index self with
            | None => (Ok b, ev)
            | Some labels => (Pandas.set_index labels b, ev)
            end
        end in
      match net with
      | PostConnectionError => (Raise ConnectionError, [post])
      | PostOtherError e => (Raise (OtherError e), [post])
      | PostXMLSyntaxError r_out =>
          finish Pandas.empty
                 [post; EvLog [VStr (name api_server); VBytes (data self); VStr r_out]]
      | PostTable _ table => finish table [post]
      end
  end.

End Call.

(** ** [check_batch]: the retry loop *)

Module Retry.

Import Server Call.

(** The local variables of [check_batch]. *)
Record locals : Type := mkLocals {
  retry_count : nat;
  calls_failed : nat;
  sleep_timer : Z;
  result_df : DataFrame
}.

(** The [while retry_count < 10] loop; [net k] is what the network answers
    to the [k]-th call of this sequence, [attempt] counts the calls made so
    far.  [call_api] always returns a table, so the [isinstance] test
    succeeds whenever it returns.  [None] stands for a loop still running
    when the fuel is used up. *)
Fixpoint check_batch_loop (fuel : nat) (api : ApiCall)
  (net : nat -> post_outcome) (attempt : nat) (st : locals)
  : option (result DataFrame * list event) :=
  match fuel with
  | 0 => None
  | S fuel' =>
      if Nat.ltb (retry_count st) 10 then
        let retry_count' := S (retry_count st) in
        match call_api api (net attempt) with
        | (Ok result, ev) =>
            option_map (fun r => (fst r, (ev ++ snd r)%list))
              (check_batch_loop fuel' api net (S attempt)
                 (mkLocals 10 (calls_failed st) (sleep_timer st) result))
        | (Raise ConnectionError, ev) =>
            option_map
              (fun r =>
                 (fst r,
                  (ev ++ [EvLog [VStr "Call Failed - ConnectionError";
                                 VInt (Z.of_nat retry_count')];
                          EvSleep (sleep_timer st)] ++ snd r)%list))
              (check_batch_loop fuel' api net (S attempt)
                 (mkLocals retry_count' (S (calls_failed st))
                           (sleep_timer st + Server.sleep_timer_increment)
                           (result_df st)))
        | (Raise e, ev) => Some (Raise e, ev)
        end
      else Some (Ok (result_df st), [])
  end.

(** [check_batch(api)].  Ten iterations and the final test are all the loop
    can take, since every iteration increases [retry_count]. *)
Definition check_batch (api : ApiCall) (net : nat -> post_outcome)
  : option (result DataFrame * list event) :=
  match nth_error (api_servers api) (api_server_id api) with
  | None => Some (Raise (IndexError "list index out of range"), [])
  | Some _ =>
      check_batch_loop 11 api net 0
        (mkLocals 0 0 Server.sleep_timer Pandas.empty)
  end.

(** Observations on a trace. *)
Definition slept (tr : list event) : Z :=
  fold_right (fun e acc => match e with EvSleep s => (s + acc)%Z | _ => acc end)
             0%Z tr.

(** The requests of a trace: the endpoint (its position in the pool and
    its URL) of each POST, in order. *)
Definition posts (tr : list event) : list (nat * string) :=
  flat_map (fun e => match e with EvPost sid url _ => [(sid, url)] | _ => [] end)
           tr.

(** [sum_upto k f] is the sum of [f 0], ..., [f (k-1)]. *)
Fixpoint sum_upto (k : nat) (f : nat -> Z) : Z :=
  match k with
  | 0 => 0%Z
  | S k' => (sum_upto k' f + f k')%Z
  end.

End Retry.

(** ** [check_chunk] / [check_df]: planning, dispatch and reassembly

    [check_addresses.check_chunk] and [check_data_frame.check_df] are the
    same code, as are their inner [process_chunk] and [process_data]; one
    model serves both. *)

Module Pipeline.

Import Server Call Retry.

(** *** Planning *)

(** The [while first_row < last_row] loop.  [None] stands for a loop still
    running when the fuel is used up. *)
Fixpoint plan_loop (fuel : nat) (in_df : DataFrame) (api_batch_size : nat)
  (first_row last_row : nat) (api_data : list batch_data) (batch_count : nat)
  : option (result (list batch_data * nat)) :=
  match fuel with
  | 0 => None
  | S fuel' =>
      if Nat.ltb first_row last_row then
        let batch_end := first_row + api_batch_size in
        let df_slice := Pandas.iloc first_row batch_end in_df in
        match Pandas.get_col "api" df_slice with
        | Raise e => Some (Raise e)
        | Ok lines =>
            plan_loop fuel' in_df api_batch_size
              (first_row + api_batch_size) last_row
              (api_data ++ [(Py.join Errors.nl lines, df_index df_slice)])%list
              (S batch_count)
        end
      else Some (Ok (api_data, batch_count))
  end.

(** The planning part of [check_df]: with a positive batch size the loop
    ends within [shape[0]] iterations and one more test. *)
Definition plan (in_df : DataFrame) (api_batch_size : nat)
  : option (result (list batch_data * nat)) :=
  plan_loop (S (Pandas.nrows in_df)) in_df api_batch_size
            0 (Pandas.nrows in_df) [] 0.

(** *** Dispatch *)

Definition MAX_THREADS : nat := 30.

(** The inner loop [while s_id < len(api_servers) and len(batch_list) > 0]:
    the calls it appends and the batches it leaves. *)
Fixpoint assign_inner (api_servers : list ApiServer)
  (refiner_fields : list string) (s_id : nat) (batch_list : list batch_data)
  : list ApiCall * list batch_data :=
  match batch_list with
  | [] => ([], [])
  | batch :: rest =>
      if Nat.ltb s_id (List.length api_servers) then
        let (calls, left) :=
          assign_inner api_servers refiner_fields (S s_id) rest in
        (ApiCall_init api_servers s_id refiner_fields batch :: calls, left)
      else ([], batch_list)
  end.

(** The outer loop [while len(batch_list) > 0]; [None] when the fuel is
    used up. *)
Fixpoint assign_outer (fuel : nat) (api_servers : list ApiServer)
  (refiner_fields : list string) (batch_list : list batch_data)
  : option (list ApiCall) :=
  match fuel with
  | 0 => None
  | S fuel' =>
      match batch_list with
      | [] => Some []
      | _ :: _ =>
          let (calls, left) :=
            assign_inner api_servers refiner_fields 0 batch_list in
          option_map (fun more => (calls ++ more)%list)
            (assign_outer fuel' api_servers refiner_fields left)
      end
  end.

(** How the batches are going to be run. *)
Inductive schedule : Type :=
| Threaded (max_workers : nat) (proc_list : list ApiCall)
| Serial (calls : list ApiCall).

(** The branch of [process_chunk] and the calls it builds.  In the serial
    branch the code builds each call right before running it. *)
Definition dispatch (multi_thread_mode : bool) (api_servers : list ApiServer)
  (refiner_fields : list string) (batch_list : list batch_data)
  : option schedule :=
  let thread_count := List.length batch_list in
  if Nat.ltb 1 (List.length api_servers) || multi_thread_mode then
    option_map (Threaded (Nat.min thread_count MAX_THREADS))
      (assign_outer (S thread_count) api_servers refiner_fields batch_list)
  else
    Some (Serial (map (ApiCall_init api_servers 0 refiner_fields) batch_list)).

Section Execution.

(** The network during the run: [net i k] is the answer to the [k]-th call
    made for the [i]-th batch (in planning order). *)
Variable net : nat -> nat -> post_outcome.

(** [list(executor.map(check_batch, proc_list))]: the results in the order
    of [proc_list], or the exception of the first call, in that order, that
    raised.  The workers' events are not put in a global order. *)
Fixpoint collect (i : nat) (proc_list : list ApiCall)
  : option (result (list DataFrame)) :=
  match proc_list with
  | [] => Some (Ok [])
  | api :: rest =>
      match check_batch api (net i) with
      | None => None
      | Some (Raise e, _) => Some (Raise e)
      | Some (Ok df, _) =>
          option_map (fun r => dfs <- r ;; Ok (df :: dfs)) (collect (S i) rest)
      end
  end.

(** The [for batch in batch_list] loop: one call after the other, the
    first exception ends the loop. *)
Fixpoint run_serial (i : nat) (calls : list ApiCall)
  : option (result (list DataFrame) * list event) :=
  match calls with
  | [] => Some (Ok [], [])
  | api :: rest =>
      match check_batch api (net i) with
      | None => None
      | Some (Raise e, ev) => Some (Raise e, ev)
      | Some (Ok batch_df, ev) =>
          option_map
            (fun r => (dfs <- fst r ;; Ok (batch_df :: dfs), (ev ++ snd r)%list))
            (run_serial (S i) rest)
      end
  end.

(** [ThreadPoolExecutor(max_workers=n)] refuses [n <= 0]. *)
Definition execute (s : schedule)
  : option (result (list DataFrame) * list event) :=
  match s with
  | Threaded max_workers proc_list =>
      if Nat.eqb max_workers 0
      then Some (Raise (ValueError "max_workers must be greater than 0"), [])
      else option_map (fun r => (r, [])) (collect 0 proc_list)
  | Serial calls =>
      option_map
        (fun r => (fst r, (EvLog [VStr "Multi-thread disabled"] :: snd r)))
        (run_serial 0 calls)
  end.

(** [process_chunk(...)]: the table it returns or the exception it raises,
    and the events of the calling thread. *)
Definition process_chunk (multi_thread_mode : bool)
  (apis : list ApiServer) (address_list : list batch_data)
  (refiner_fields : list string)
  : option (result (Frame (option string)) * list event) :=
  match dispatch multi_thread_mode apis refiner_fields address_list with
  | None => None
  | Some s =>
      option_map
        (fun r => (process_results <- fst r ;; Pandas.concat process_results,
                   snd r))
        (execute s)
  end.

(** The settings of [ini] that the pipeline reads. *)
Record Settings : Type := mkSettings {
  api_batch_size : nat;
  multi_threaded_mode : bool;
  api_servers : list ApiServer;
  refiner_output_fields : list string
}.

(** [check_df(in_df)] (and [check_chunk]), on a table that has its ['api']
    column. *)
Definition check_df (ini : Settings) (in_df : DataFrame)
  : option (result (Frame (option string)) * list event) :=
  match plan in_df (api_batch_size ini) with
  | None => None
  | Some (Raise e) => Some (Raise e, [EvLogStart true])
  | Some (Ok (api_data, batch_count)) =>
      match process_chunk (multi_threaded_mode ini) (api_servers ini)
              api_data (refiner_output_fields ini) with
      | None => None
      | Some (Raise e, ev) => Some (Raise e, EvLogStart true :: ev)
      | Some (Ok df_out, ev) =>
          Some (Ok df_out,
                (EvLogStart true :: ev
                 ++ [EvLog [VStr "Chunk complete: Batch Count ";
                            VInt (Z.of_nat batch_count);
                            VStr " Time taken "; VLap]])%list)
      end
  end.

End Execution.

(** *** What the network may do to one batch *)

(** A response that [call_api] turns into a result for a batch of [m]
    rows: it has [m] rows, and either fewer than three columns or the three
    columns that are normalised. *)
Definition usable (m : nat) (table : DataFrame) : Prop :=
  Pandas.nrows table = m
  /\ (Pandas.ncols table < 3
      \/ exists us ps cs,
           Pandas.lookup "UDPRN" (df_columns table) = Some us
           /\ Pandas.lookup "UPRN" (df_columns table) = Some ps
           /\ Pandas.lookup "Closeness" (df_columns table) = Some cs).

(** The batch is answered: one of the first ten calls gets a usable
    response, the calls before it fail to connect. *)
Definition answered (one : nat -> post_outcome) (m : nat) : Prop :=
  exists k r_out table,
    k < 10
    /\ (forall j, j < k -> one j = PostConnectionError)
    /\ one k = PostTable r_out table
    /\ usable m table.

(** The retries are exhausted: the first ten calls all fail to connect. *)
Definition exhausted (one : nat -> post_outcome) : Prop :=
  forall j, j < 10 -> one j = PostConnectionError.

End Pipeline.

(** ** [Config] and its immutable containers *)

Module Config.

Import Server.

(** What a method call gives back. *)
Inductive answer (V : Type) : Type :=
| Value (v : V)
| NoneValue
| Length (n : nat)
| Self.                       (* the container itself *)
Arguments Value {V} _.
Arguments NoneValue {V}.
Arguments Length {V} _.
Arguments Self {V}.

(** Calls on an [ImmutableDict]: the seven methods the class overrides;
    [get] and [len], which it inherits from [dict] and the code uses; and
    [__ior__] ([d |= items]), which it inherits as well. *)
Inductive dict_call (V : Type) : Type :=
| D_setitem (key : string) (value : V)
| D_delitem (key : string)
| D_clear
| D_update (items : list (string * V))
| D_pop (key : string) (default : option V)
| D_popitem
| D_setdefault (key : string) (default : option V)
| D_get (key : string) (default : option V)
| D_len
| D_ior (items : list (string * V)).
Arguments D_setitem {V} _ _.
Arguments D_delitem {V} _.
Arguments D_clear {V}.
Arguments D_update {V} _.
Arguments D_pop {V} _ _.
Arguments D_popitem {V}.
Arguments D_setdefault {V} _ _.
Arguments D_get {V} _ _.
Arguments D_len {V}.
Arguments D_ior {V} _.

Fixpoint dict_lookup {V : Type} (key : string) (d : list (string * V))
  : option V :=
  match d with
  | [] => None
  | (k, v) :: rest => if String.eqb k key then Some v else dict_lookup key rest
  end.

(** [dict.__setitem__] of the base class: the value of a key that is
    there is replaced where it stands, a new key goes to the end. *)
Fixpoint dict_set {V : Type} (key : string) (value : V)
  (d : list (string * V)) : list (string * V) :=
  match d with
  | [] => [(key, value)]
  | (k, v) :: rest =>
      if String.eqb k key then (k, value) :: rest
      else (k, v) :: dict_set key value rest
  end.

(** [dict.__ior__] of the base class: the items are set one by one. *)
Definition dict_ior {V : Type} (d items : list (string * V))
  : list (string * V) :=
  fold_left (fun acc kv => dict_set (fst kv) (snd kv) acc) items d.

(** A call on an [ImmutableDict] holding [d]: what it returns or raises,
    and what the dictionary holds afterwards. *)
Definition ImmutableDict_call {V : Type} (d : list (string * V))
  (c : dict_call V) : result (answer V) * list (string * V) :=
  match c with
  | D_setitem _ _ =>
      (Raise (TypeError "This dictionary is immutable and cannot be changed."), d)
  | D_delitem _ =>
      (Raise (TypeError "This dictionary is immutable and cannot be changed."), d)
  | D_clear =>
      (Raise (TypeError "This dictionary is immutable and cannot be cleared."), d)
  | D_update _ =>
      (Raise (TypeError "This dictionary is immutable and cannot be updated."), d)
  | D_pop _ _ =>
      (Raise (TypeError "This dictionary is immutable and cannot be changed."), d)
  | D_popitem =>
      (Raise (TypeError "This dictionary is immutable and cannot be changed."), d)
  | D_setdefault _ _ =>
      (Raise (TypeError "This dictionary is immutable and cannot be changed."), d)
  | D_get key default =>
      (match dict_lookup key d, default with
       | Some v, _ => Ok (Value v)
       | None, Some v => Ok (Value v)
       | None, None => Ok NoneValue
       end, d)
  | D_len => (Ok (Length (List.length d)), d)
  | D_ior items => (Ok Self, dict_ior d items)
  end.

(** Calls on an [ImmutableList]: the eight methods the class overrides;
    indexing and [len], which it inherits from [list] and the code uses;
    and the in-place operations it inherits as well: [__iadd__]
    ([l += iterable]), [__imul__] ([l *= n]), [reverse] and [sort] (here
    with an integer [key]). *)
Inductive list_call (A : Type) : Type :=
| L_setitem (index : Z) (value : A)
| L_delitem (index : Z)
| L_append (value : A)
| L_extend (iterable : list A)
| L_insert (index : Z) (value : A)
| L_remove (value : A)
| L_pop (index : Z)
| L_clear
| L_getitem (index : Z)
| L_len
| L_iadd (iterable : list A)
| L_imul (n : Z)
| L_reverse
| L_sort (key : A -> Z).
Arguments L_setitem {A} _ _.
Arguments L_delitem {A} _.
Arguments L_append {A} _.
Arguments L_extend {A} _.
Arguments L_insert {A} _ _.
Arguments L_remove {A} _.
Arguments L_pop {A} _.
Arguments L_clear {A}.
Arguments L_getitem {A} _.
Arguments L_len {A}.
Arguments L_iadd {A} _.
Arguments L_imul {A} _.
Arguments L_reverse {A}.
Arguments L_sort {A} _.

(** [l[i]]: a negative index counts from the end. *)
Definition list_getitem {A : Type} (l : list A) (i : Z) : result A :=
  let n := Z.of_nat (List.length l) in
  let j := if (i <? 0)%Z then (n + i)%Z else i in
  if (j <? 0)%Z then Raise (IndexError "list index out of range")
  else match nth_error l (Z.to_nat j) with
       | Some a => Ok a
       | None => Raise (IndexError "list index out of range")
       end.

(** [l * n]: [n] copies of [l] one after the other, none for [n <= 0]. *)
Definition list_mul {A : Type} (l : list A) (n : Z) : list A :=
  List.concat (repeat l (Z.to_nat n)).

(** [sorted(l, key=key)]: ascending in the key, elements of equal key in
    the order they had. *)
Fixpoint insert_by {A : Type} (key : A -> Z) (x : A) (l : list A) : list A :=
  match l with
  | [] => [x]
  | y :: r => if (key x <=? key y)%Z then x :: y :: r
              else y :: insert_by key x r
  end.

Definition sort_by {A : Type} (key : A -> Z) (l : list A) : list A :=
  fold_right (insert_by key) [] l.

Definition ImmutableList_call {A : Type} (l : list A) (c : list_call A)
  : result (answer A) * list A :=
  match c with
  | L_setitem _ _ =>
      (Raise (TypeError "This list is immutable and cannot be changed."), l)
  | L_delitem _ =>
      (Raise (TypeError "This list is immutable and cannot be deleted."), l)
  | L_append _ =>
      (Raise (TypeError "This list is immutable and cannot be changed."), l)
  | L_extend _ =>
      (Raise (TypeError "This list is immutable and cannot be extended."), l)
  | L_insert _ _ =>
      (Raise (TypeError "This list is immutable and cannot be changed."), l)
  | L_remove _ =>
      (Raise (TypeError "This list is immutable and cannot be changed."), l)
  | L_pop _ =>
      (Raise (TypeError "This list is immutable and cannot be changed."), l)
  | L_clear =>
      (Raise (TypeError "This list is immutable and cannot be cleared."), l)
  | L_getitem i => (a <- list_getitem l i ;; Ok (Value a), l)
  | L_len => (Ok (Length (List.length l)), l)
  | L_iadd iterable => (Ok Self, (l ++ iterable)%list)
  | L_imul n => (Ok Self, list_mul l n)
  | L_reverse => (Ok NoneValue, rev l)
  | L_sort key => (Ok NoneValue, sort_by key l)
  end.

(** The calls that the classes define or that only read: all but the
    inherited in-place operations. *)
Definition dict_guarded {V : Type} (c : dict_call V) : bool :=
  match c with
  | D_ior _ => false
  | _ => true
  end.

Definition list_guarded {A : Type} (c : list_call A) : bool :=
  match c with
  | L_iadd _ | L_imul _ | L_reverse | L_sort _ => false
  | _ => true
  end.

(** A setting of the application. *)
Inductive setting : Type :=
| SBool (b : bool)
| SNat (n : nat)
| SStr (s : string)
| SFields (fields : list string)
| SServers (infos : list server_info).

(** The attributes of a [Config] that the pipeline reads: the two
    immutable containers and the mutable flag. *)
Record Config : Type := mkConfig {
  APP_SETTINGS : list (string * setting);   (* an ImmutableDict *)
  API_SERVERS : list ApiServer;             (* an ImmutableList *)
  multi_threaded_mode : bool
}.

(** [self.set_apis(self.__APP_SETTINGS.get('ApiServerInfo'))]: the code
    is that of [get_apis].  It takes the length of the setting and
    iterates over it: a missing setting, a boolean or a number has no
    length; an empty string or an empty list gives an empty pool; an
    element that is a string cannot be indexed by ['name']. *)
Definition set_apis_of (http_get : string -> get_outcome)
  (api_server_info : option setting) : result (list ApiServer) * list event :=
  match api_server_info with
  | Some (SServers infos) => get_apis http_get infos None
  | Some (SStr s) =>
      if String.eqb s "" then (Ok [], [])
      else (Raise (TypeError "string indices must be integers"), [])
  | Some (SFields fields) =>
      match fields with
      | [] => (Ok [], [])
      | _ :: _ => (Raise (TypeError "string indices must be integers"), [])
      end
  | Some (SBool _) | Some (SNat _) | None =>
      (Raise (TypeError "object has no len()"), [])
  end.

(** The truth value of a setting. *)
Definition setting_truthy (v : option setting) : bool :=
  match v with
  | Some (SBool b) => b
  | Some (SNat n) => negb (Nat.eqb n 0)
  | Some (SStr s) => negb (String.eqb s "")
  | Some (SFields l) => negb (Nat.eqb (List.length l) 0)
  | Some (SServers l) => negb (Nat.eqb (List.length l) 0)
  | None => false
  end.

(** [Config(settings=...)] for a dictionary of settings. *)
Definition Config_init (http_get : string -> get_outcome)
  (settings : list (string * setting)) : result Config * list event :=
  match set_apis_of http_get (dict_lookup "ApiServerInfo" settings) with
  | (Raise e, ev) => (Raise e, ev)
  | (Ok servers, ev) =>
      (Ok (mkConfig settings servers
             (setting_truthy (dict_lookup "MultiThreadedMode" settings))),
       ev)
  end.

(** What a client can do with [ini.api_servers]: call a method of the list
    the property returns; assign to the property, which has no setter; or
    use an augmented assignment, [ini.api_servers += iterable] or
    [ini.api_servers *= n], which calls [__iadd__] or [__imul__] on the
    list and then assigns the result to the property. *)
Inductive api_servers_use : Type :=
| Call (c : list_call ApiServer)
| Assign (value : list ApiServer)
| AugAdd (iterable : list ApiServer)
| AugMul (n : Z).

Definition set_servers (ini : Config) (l : list ApiServer) : Config :=
  mkConfig (APP_SETTINGS ini) l (multi_threaded_mode ini).

Definition use_api_servers (ini : Config) (u : api_servers_use)
  : result (answer ApiServer) * Config :=
  match u with
  | Call c =>
      let (r, l) := ImmutableList_call (API_SERVERS ini) c in
      (r, set_servers ini l)
  | Assign _ => (Raise (AttributeError "can't set attribute"), ini)
  | AugAdd iterable =>
      let (_, l) := ImmutableList_call (API_SERVERS ini) (L_iadd iterable) in
      (Raise (AttributeError "can't set attribute"), set_servers ini l)
  | AugMul n =>
      let (_, l) := ImmutableList_call (API_SERVERS ini) (L_imul n) in
      (Raise (AttributeError "can't set attribute"), set_servers ini l)
  end.

(** The uses that go through the methods the class defines, through reads
    or through a plain assignment. *)
Definition guarded (u : api_servers_use) : bool :=
  match u with
  | Call c => list_guarded c
  | Assign _ => true
  | AugAdd _ | AugMul _ => false
  end.

Definition uses (ini : Config) (us : list api_servers_use) : Config :=
  fold_left (fun c u => snd (use_api_servers c u)) us ini.

End Config.

(** ** Concrete inputs *)

Module Fixtures.

Import Server Call.

Definition server_A : ApiServer :=
  mkApiServer "A" "http://a" "http://a&format=json" false "Working" true.
Definition server_B : ApiServer :=
  mkApiServer "B" "http://b" "http://b&format=json" true "Working" true.

(** A batch of two rows, labelled 5 and 6. *)
Definition two_rows : batch_data := ("x" ++ Errors.nl ++ "y", [5; 6]%Z).
Definition call_two_rows : ApiCall := ApiCall_init [server_A] 0 ["Town"] two_rows.

(** A response with two columns and one row. *)
Definition short_table : DataFrame :=
  mkFrame [0%Z] [("Result", ["-2"]); ("ErrorText", ["no match"])].

(** A response with two columns and two rows. *)
Definition narrow_table : DataFrame :=
  mkFrame [0; 1]%Z [("Result", ["-2"; "-2"]); ("ErrorText", ["no"; "no"])].

(** A full response for two rows. *)
Definition full_table : DataFrame :=
  mkFrame [0; 1]%Z
    [("UDPRN", ["123.0"; "12345678"]);
     ("UPRN", ["00000000123"; "100012345678.0"]);
     ("Closeness", ["95.5"; "100"]);
     ("Town", ["Ramsey"; "Douglas"])].

(** A response with three columns, none of them ['UDPRN']. *)
Definition no_udprn_table : DataFrame :=
  mkFrame [0%Z] [("UPRN", ["1"]); ("Closeness", ["90"]); ("Town", ["Ramsey"])].

(** The network fails twice, then answers with a full response. *)
Definition flaky_net (k : nat) : post_outcome :=
  if Nat.ltb k 2 then PostConnectionError else PostTable "" full_table.

(** An input of two rows, sent one row at a time to one endpoint, without
    threads. *)
Definition input_two : DataFrame := mkFrame [0; 1]%Z [("api", ["x"; "y"])].
Definition ini_serial : Pipeline.Settings :=
  Pipeline.mkSettings 1 false [server_A] ["Town"].

(** A full response for one row. *)
Definition one_row_table : DataFrame :=
  mkFrame [0%Z]
    [("UDPRN", ["123.0"]); ("UPRN", ["456"]); ("Closeness", ["95.5"])].

(** The first batch gets a response without ['UDPRN'], the others a full
    one. *)
Definition net_missing (i k : nat) : post_outcome :=
  match i with
  | 0 => PostTable "" no_udprn_table
  | S _ => PostTable "" one_row_table
  end.

(** The connection fails for the second batch, whatever the attempt; the
    others get a full response. *)
Definition net_second_down (i k : nat) : post_outcome :=
  match i with
  | 1 => PostConnectionError
  | _ => PostTable "" one_row_table
  end.

(** Three batches for a pool of two endpoints. *)
Definition three_batches : list batch_data :=
  [("x", [0%Z]); ("y", [1%Z]); ("z", [2%Z])].

(** Every batch gets a full one-row response at once. *)
Definition net_up (i k : nat) : post_outcome := PostTable "" one_row_table.

(** Two servers; the verification request reaches the first one only. *)
Definition info_A : server_info := mkInfo "A" "10.0.0.1" "lic" "pw".
Definition info_B : server_info := mkInfo "B" "10.0.0.2" "lic" "pw".

Definition http_one_up (url : string) : get_outcome :=
  if String.eqb url
       (call_url (make_uri_stem (root_format "10.0.0.1" "lic" "pw") "json" None))
  then GetJson (JInt 200) JNone
  else GetConnectionError.

Definition http_all_up (url : string) : get_outcome := GetJson (JInt 200) JNone.

(** A configuration with two endpoints. *)
Definition ini_two : Config.Config := Config.mkConfig [] [server_A; server_B] false.

End Fixtures.

(** ** The rest of [ApiCall], [ApiResponse] and [prep_row] *)

Module Rotation.

Import Server Call.

(** [ApiCall.get_server(switch)]: with [switch] the call moves to the next
    endpoint of the pool, back to the first after the last; the endpoint
    is then looked up, which raises [IndexError] on an empty pool.  The
    call is returned as the method leaves it. *)
Definition get_server_switch (self : ApiCall) (switch : bool)
  : result ApiServer * ApiCall :=
  let self' :=
    if switch then
      let id := S (api_server_id self) in
      mkApiCall (api_servers self)
                (if Nat.leb (List.length (api_servers self)) id then 0 else id)
                (out_fields self) (data self) (first_row self) (index self)
    else self in
  (get_server self', self').

(** [n] calls of [get_server(switch=True)] in a row. *)
Fixpoint switches (n : nat) (self : ApiCall) : ApiCall :=
  match n with
  | 0 => self
  | S n' => snd (get_server_switch (switches n' self) true)
  end.

End Rotation.

Module Response.

Import Errors Server.

(** [in_dict.get(key)]: [None] when the key is absent.  The values of the
    dictionary are taken among null, integers and strings. *)
Fixpoint dict_get (key : string) (in_dict : list (string * jval)) : jval :=
  match in_dict with
  | [] => JNone
  | (k, v) :: rest => if String.eqb k key then v else dict_get key rest
  end.

Record ApiResponse : Type := mkApiResponse {
  result_code : jval;
  closeness : jval;
  property : jval;
  street : jval;
  locality : jval;
  town : jval;
  postal_county : jval;
  udprn : jval;
  postcode : jval
}.

(** [ApiResponse(in_dict)]. *)
Definition ApiResponse_init (in_dict : list (string * jval)) : ApiResponse :=
  mkApiResponse (dict_get "ResultCode" in_dict) (dict_get "Closeness" in_dict)
    (dict_get "Property" in_dict) (dict_get "Street" in_dict)
    (dict_get "Locality" in_dict) (dict_get "Town" in_dict)
    (dict_get "PostalCounty" in_dict) (dict_get "UDPRN" in_dict)
    (dict_get "Postcode" in_dict).

(** The strings of a list of values, when they all are strings. *)
Fixpoint strings (l : list jval) : option (list string) :=
  match l with
  | [] => Some []
  | JStr s :: rest => option_map (cons s) (strings rest)
  | _ :: _ => None
  end.

(** [ApiResponse.__repr__(delimiter)]: [str.join] accepts strings only. *)
Definition repr (self : ApiResponse) (delimiter : string) : result string :=
  match strings [property self; street self; locality self; town self;
                 postal_county self; udprn self; postcode self] with
  | None => Raise (TypeError "sequence item: expected str instance")
  | Some parts =>
      Ok (Py.join delimiter parts ++ nl ++ "Result: " ++ py_str (result_code self)
          ++ nl ++ "Score: " ++ py_str (closeness self))
  end.

End Response.

Module Text.

(** [c.isspace()] for a character below 256: tab to carriage return, the
    four separators 28 to 31, the space, NEL and the no-break space. *)
Definition isspace (c : ascii) : bool :=
  let n := nat_of_ascii c in
  (Nat.leb 9 n && Nat.leb n 13) || (Nat.leb 28 n && Nat.leb n 32)
  || Nat.eqb n 133 || Nat.eqb n 160.

(** [s.lstrip()]. *)
Fixpoint lstrip (s : string) : string :=
  match s with
  | EmptyString => EmptyString
  | String c r => if isspace c then lstrip r else s
  end.

(** [s.rstrip()]. *)
Fixpoint rstrip (s : string) : string :=
  match s with
  | EmptyString => EmptyString
  | String c r =>
      match rstrip r with
      | EmptyString => if isspace c then EmptyString else String c EmptyString
      | String d t => String c (String d t)
      end
  end.

(** [s.strip()]. *)
Definition strip (s : string) : string := rstrip (lstrip s).

(** [s] is made of whitespace only. *)
Fixpoint blank (s : string) : bool :=
  match s with
  | EmptyString => true
  | String c r => isspace c && blank r
  end.

End Text.

Module Prep.

(** A row of the caller's table: the value of each column. *)
Definition row_t : Type := list (string * string).

(** [row[f]]: [KeyError] when the row has no such column. *)
Fixpoint row_get (f : string) (row : row_t) : result string :=
  match row with
  | [] => Raise (KeyError f)
  | (k, v) :: rest => if String.eqb k f then Ok v else row_get f rest
  end.

(** The [for f in in_address_fields] loop of [prep_row]. *)
Fixpoint prep_loop (row : row_t) (in_address_fields : list string)
  (out_addr : list string) : result (list string) :=
  match in_address_fields with
  | [] => Ok out_addr
  | f :: rest =>
      v <- row_get f row ;;
      let txt := Text.strip v in
      if Nat.ltb 0 (String.length txt)
      then prep_loop row rest (out_addr ++ [txt])%list
      else prep_loop row rest out_addr
  end.

(** [prep_row(row, in_address_fields)]. *)
Definition prep_row (row : row_t) (in_address_fields : list string)
  : result string :=
  out_addr <- prep_loop row in_address_fields [] ;;
  Ok (Py.join "~" out_addr).

End Prep.

Module Verification.

Import Server.

(** The verification request was answered with JSON whose result code
    (['ResultCode'], or ['Result'] when that is absent or falsy) reads
    ['200']. *)
Definition code_is_200 (response : get_outcome) : Prop :=
  exists rc r,
    response = GetJson rc r
    /\ py_str (if truthy rc then rc else r) = "200".

(** The URL of the verification request for a configured server. *)
Definition check_url (si : server_info) (refiner_fields : option (list string))
  : string :=
  call_url
    (make_uri_stem (root_format (si_host si) (si_licence si) (si_password si))
                   "json" refiner_fields).

End Verification.

Module Shape.

(** Every column of the table has one cell per row. *)
Definition well_formed {C : Type} (df : Frame C) : bool :=
  forallb (fun c => Nat.eqb (List.length (snd c)) (Pandas.nrows df))
          (df_columns df).

End Shape.

(** ** More concrete inputs *)

Module MoreFixtures.

Import Server Call Fixtures.

Definition pool_of_three : list ApiServer := [server_A; server_B; server_A].

Definition call_on_pool : ApiCall :=
  ApiCall_init pool_of_three 1 ["Town"] two_rows.

Definition address_row : Prep.row_t :=
  [("Line1", " 1 High St "); ("Line2", "   "); ("Town", "Ramsey")].

Definition full_response : list (string * jval) :=
  [("ResultCode", JInt 200); ("Closeness", JInt 95);
   ("Property", JStr "1"); ("Street", JStr "High St");
   ("Locality", JStr ""); ("Town", JStr "Ramsey");
   ("PostalCounty", JStr ""); ("UDPRN", JStr "123");
   ("Postcode", JStr "IM7 2DZ")].

(** A fatal answer after two failed connections. *)
Definition net_fatal_third (k : nat) : post_outcome :=
  if Nat.ltb k 2 then PostConnectionError else PostOtherError "Timeout".

End MoreFixtures.

(* ================================================================= *)
(** * Part II: properties *)
(* ================================================================= *)

(** ** Strings *)

Module PyFacts.

Import Py.

Lemma length_append (s t : string) :
  String.length (s ++ t) = String.length s + String.length t.
Proof. induction s as [|c s IH]; simpl; [reflexivity | now rewrite IH]. Qed.

Lemma length_replicate (n : nat) (c : ascii) :
  String.length (replicate n c) = n.
Proof. induction n as [|n IH]; simpl; [reflexivity | now rewrite IH]. Qed.

Lemma length_drop (k : nat) (s : string) :
  String.length (drop k s) = String.length s - k.
Proof.
  revert s; induction k as [|k IH]; intros s.
  - simpl. lia.
  - destruct s as [|c s]; simpl; [reflexivity | apply IH].
Qed.

Lemma drop_replicate_append (n k : nat) (c : ascii) (t : string) :
  k <= n -> drop k (replicate n c ++ t) = replicate (n - k) c ++ t.
Proof.
  revert k; induction n as [|n IH]; intros k Hk.
  - replace k with 0 by lia. reflexivity.
  - destruct k as [|k]; [reflexivity|].
    simpl. apply IH. lia.
Qed.

(** [(pad + t)[-n:]] pads a short [t] on the left. *)
Lemma last_chars_pad (n : nat) (c : ascii) (t : string) :
  0 < n -> String.length t <= n ->
  last_chars n (replicate n c ++ t) = replicate (n - String.length t) c ++ t.
Proof.
  intros Hn Ht. unfold last_chars.
  destruct n as [|n]; [lia|].
  rewrite length_append, length_replicate.
  rewrite drop_replicate_append by lia.
  f_equal. f_equal. lia.
Qed.

(** [(pad + t)[-n:]] always has [n] characters. *)
Lemma length_last_chars_pad (n : nat) (c : ascii) (t : string) :
  0 < n -> String.length (last_chars n (replicate n c ++ t)) = n.
Proof.
  intros Hn. unfold last_chars. destruct n as [|n]; [lia|].
  rewrite length_drop, length_append, length_replicate. lia.
Qed.

Lemma split_head_no_sep (sep : ascii) (s : string) :
  has_char sep s = false -> split_head sep s = s.
Proof.
  induction s as [|c s IH]; simpl; intros H; [reflexivity|].
  apply orb_false_iff in H as [Hc Hs].
  rewrite Hc. f_equal. now apply IH.
Qed.

Lemma split_head_append (sep : ascii) (a b : string) :
  has_char sep a = false ->
  split_head sep (a ++ String sep b) = a.
Proof.
  induction a as [|c a IH]; simpl; intros H.
  - now rewrite Ascii.eqb_refl.
  - apply orb_false_iff in H as [Hc Hs].
    rewrite Hc. f_equal. now apply IH.
Qed.

End PyFacts.

(** ** Tables *)

Module PandasFacts.

Import Pandas.

Section Columns.
Context {C : Type}.
Implicit Types (cols : list (string * list C)) (df : Frame C).

Lemma lookup_replace_same name vs cols :
  lookup name (replace_col name vs cols) = Some vs.
Proof.
  induction cols as [|[n old] cols IH]; simpl.
  - now rewrite String.eqb_refl.
  - destruct (String.eqb n name) eqn:E; simpl; rewrite E; [reflexivity | exact IH].
Qed.

Lemma lookup_replace_other name other vs cols :
  name <> other ->
  lookup name (replace_col other vs cols) = lookup name cols.
Proof.
  intros Hne. induction cols as [|[n old] cols IH]; simpl.
  - destruct (String.eqb other name) eqn:E; [|reflexivity].
    apply String.eqb_eq in E. congruence.
  - destruct (String.eqb n other) eqn:E; simpl.
    + apply String.eqb_eq in E. subst n.
      destruct (String.eqb other name) eqn:E'; [|reflexivity].
      apply String.eqb_eq in E'. congruence.
    + destruct (String.eqb n name); [reflexivity | exact IH].
Qed.

Lemma replace_col_not_nil name vs cols : replace_col name vs cols <> [].
Proof.
  destruct cols as [|[n old] cols]; simpl; [discriminate|].
  destruct (String.eqb n name); discriminate.
Qed.

Lemma length_replace_col name vs cols :
  List.length cols <= List.length (replace_col name vs cols).
Proof.
  induction cols as [|[n old] cols IH]; simpl; [lia|].
  destruct (String.eqb n name); simpl; lia.
Qed.

Lemma length_replace_col_present name vs old cols :
  lookup name cols = Some old ->
  List.length (replace_col name vs cols) = List.length cols.
Proof.
  induction cols as [|[n o] cols IH]; simpl; [discriminate|].
  destruct (String.eqb n name); simpl; intros H; [reflexivity|].
  now rewrite IH.
Qed.

Lemma nrows_set_col name vs df : nrows (set_col name vs df) = nrows df.
Proof. reflexivity. Qed.

Lemma ncols_set_col_pos name vs df : 0 < ncols (set_col name vs df).
Proof.
  unfold ncols, set_col; simpl.
  pose proof (replace_col_not_nil name vs (df_columns df)) as H.
  destruct (replace_col name vs (df_columns df)); [congruence | simpl; lia].
Qed.

(** [df.index = labels] on a table that has a column. *)
Lemma set_index_columns labels df :
  0 < ncols df ->
  set_index labels df =
    if Nat.eqb (List.length labels) (nrows df)
    then Ok (mkFrame labels (df_columns df))
    else Raise (ValueError "Length mismatch").
Proof.
  intros H. unfold set_index.
  destruct (Nat.eqb (ncols df) 0) eqn:E; [|reflexivity].
  apply Nat.eqb_eq in E. lia.
Qed.

End Columns.

Lemma index_concat (objs : list DataFrame) (out : Frame (option string)) :
  concat objs = Ok out -> df_index out = flat_map df_index objs.
Proof.
  destruct objs as [|o objs]; simpl; [discriminate|].
  intros H. injection H as <-. reflexivity.
Qed.

End PandasFacts.

(** ** [call_api]: normalisation of a response *)

Module CallFacts.

Import Py Pandas Errors Server Call PyFacts PandasFacts.

Lemma pad8 : replicate 8 "0" = "00000000".
Proof. reflexivity. Qed.

Lemma pad12 : replicate 12 "0" = "000000000000".
Proof. reflexivity. Qed.

(** What the three lambdas do to one value. *)
Lemma norm_value (r : string) :
  let digits := split_head "." r in
  (String.length digits <= 8 ->
   norm_UDPRN r = replicate (8 - String.length digits) "0" ++ digits)
  /\ (String.length digits <= 12 ->
      norm_UPRN r = replicate (12 - String.length digits) "0" ++ digits)
  /\ String.length (norm_UDPRN r) = 8
  /\ String.length (norm_UPRN r) = 12
  /\ norm_Closeness r = digits.
Proof.
  cbv zeta. unfold norm_UDPRN, norm_UPRN, norm_Closeness.
  rewrite <- pad12, <- pad8.
  repeat split.
  - intros H. apply last_chars_pad; [lia | exact H].
  - intros H. apply last_chars_pad; [lia | exact H].
  - apply length_last_chars_pad. lia.
  - apply length_last_chars_pad. lia.
Qed.

Lemma nrows_blank_fields (out_fields : list string) (batch : DataFrame) :
  nrows (blank_fields out_fields batch) = nrows batch.
Proof.
  unfold blank_fields. revert batch.
  induction out_fields as [|f fs IH]; intros batch; simpl; [reflexivity|].
  rewrite IH. reflexivity.
Qed.

(** The columns a degraded response ends up with. *)
Lemma sentinel_columns (out_fields : list string) (batch : DataFrame) :
  let b := sentinel out_fields batch in
  nrows b = nrows batch
  /\ 0 < ncols b
  /\ lookup "Closeness" (df_columns b) = Some (repeat "0" (nrows batch))
  /\ lookup "UDPRN" (df_columns b) = Some (repeat "00000000" (nrows batch))
  /\ lookup "UPRN" (df_columns b) = Some (repeat "000000000000" (nrows batch)).
Proof.
  cbv zeta. unfold sentinel, set_col_scalar.
  repeat rewrite nrows_set_col. rewrite nrows_blank_fields.
  split; [reflexivity|]. split; [apply ncols_set_col_pos|].
  unfold set_col; simpl. split; [apply lookup_replace_same|]. split.
  - rewrite lookup_replace_other by discriminate.
    rewrite lookup_replace_other by discriminate.
    apply lookup_replace_same.
  - rewrite lookup_replace_other by discriminate.
    apply lookup_replace_same.
Qed.

(** The columns a full response ends up with. *)
Lemma normalise_columns (batch : DataFrame) (us ps cs : list string) :
  lookup "UDPRN" (df_columns batch) = Some us ->
  lookup "UPRN" (df_columns batch) = Some ps ->
  lookup "Closeness" (df_columns batch) = Some cs ->
  exists b,
    normalise batch = Done b
    /\ df_index b = df_index batch
    /\ ncols b = ncols batch
    /\ lookup "UDPRN" (df_columns b) = Some (map norm_UDPRN us)
    /\ lookup "UPRN" (df_columns b) = Some (map norm_UPRN ps)
    /\ lookup "Closeness" (df_columns b) = Some (map norm_Closeness cs).
Proof.
  intros Hu Hp Hc. unfold normalise, apply_col, get_col.
  rewrite Hu. simpl.
  rewrite lookup_replace_other by discriminate. rewrite Hp. simpl.
  rewrite lookup_replace_other by discriminate.
  rewrite lookup_replace_other by discriminate. rewrite Hc. simpl.
  eexists. split; [reflexivity|]. simpl.
  split; [reflexivity|]. split.
  - unfold ncols; simpl.
    rewrite (length_replace_col_present _ _ cs).
    + rewrite (length_replace_col_present _ _ ps).
      * now rewrite (length_replace_col_present _ _ us).
      * now rewrite lookup_replace_other by discriminate.
    + rewrite lookup_replace_other by discriminate.
      now rewrite lookup_replace_other by discriminate.
  - split; [|split].
    + rewrite lookup_replace_other by discriminate.
      rewrite lookup_replace_other by discriminate.
      apply lookup_replace_same.
    + rewrite lookup_replace_other by discriminate.
      apply lookup_replace_same.
    + apply lookup_replace_same.
Qed.

(** What [call_api] does with a table once it is parsed or defaulted. *)
Lemma call_api_degraded (self : ApiCall) (s : ApiServer) (labels : list Z)
  (net : post_outcome) (table : DataFrame) :
  get_server self = Ok s ->
  index self = Some labels ->
  (exists r, net = PostTable r table)
  \/ ((exists r, net = PostXMLSyntaxError r) /\ table = Pandas.empty) ->
  ncols table < 3 ->
  fst (call_api self net) =
    if Nat.eqb (List.length labels) (nrows table)
    then Ok (mkFrame labels (df_columns (sentinel (out_fields self) table)))
    else Raise (ValueError "Length mismatch").
Proof.
  intros Hs Hi Hnet Hc.
  assert (Hfill : fill (out_fields self) table
                  = Done (sentinel (out_fields self) table)).
  { unfold fill. destruct (Nat.ltb 2 (ncols table)) eqn:E; [|reflexivity].
    apply Nat.ltb_lt in E. lia. }
  destruct (sentinel_columns (out_fields self) table) as (Hr & Hpos & _).
  unfold call_api. rewrite Hs.
  destruct Hnet as [[r ->] | [[r ->] ->]]; rewrite Hfill, Hi; simpl;
    rewrite (set_index_columns _ _ Hpos), Hr; reflexivity.
Qed.

End CallFacts.

Module CallClaims.

Import Py Pandas Errors Server Call PyFacts PandasFacts CallFacts Fixtures.

(** C8.  In a response with more than two columns that has the columns
    UDPRN, UPRN and Closeness, [call_api] replaces every value of these
    columns: the text from the first ['.'] on is cut off (a value without
    ['.'] is kept whole), and an identifier is then padded on the left with
    zeros to 8 (UDPRN) or 12 (UPRN) characters; the result always has that
    width.  So "123.0" becomes "00000123", and a value that already has the
    full width and no ['.'] is unchanged.  The row labels are not touched
    by this step. *)
Theorem C8_response_normalisation
  (out_fields : list string) (batch : DataFrame) (us ps cs : list string) :
  2 < ncols batch ->
  lookup "UDPRN" (df_columns batch) = Some us ->
  lookup "UPRN" (df_columns batch) = Some ps ->
  lookup "Closeness" (df_columns batch) = Some cs ->
  (exists b,
     fill out_fields batch = Done b
     /\ df_index b = df_index batch
     /\ lookup "UDPRN" (df_columns b) = Some (map norm_UDPRN us)
     /\ lookup "UPRN" (df_columns b) = Some (map norm_UPRN ps)
     /\ lookup "Closeness" (df_columns b) = Some (map norm_Closeness cs))
  /\ (forall r : string,
        let digits := split_head "." r in
        (has_char "." r = false -> digits = r)
        /\ (forall a f, has_char "." a = false -> r = a ++ String "." f ->
                        digits = a)
        /\ (String.length digits <= 8 ->
            norm_UDPRN r = replicate (8 - String.length digits) "0" ++ digits)
        /\ (String.length digits <= 12 ->
            norm_UPRN r = replicate (12 - String.length digits) "0" ++ digits)
        /\ String.length (norm_UDPRN r) = 8
        /\ String.length (norm_UPRN r) = 12
        /\ norm_Closeness r = digits
        /\ (has_char "." r = false -> String.length r = 8 -> norm_UDPRN r = r)
        /\ (has_char "." r = false -> String.length r = 12 -> norm_UPRN r = r))
  /\ norm_UDPRN "123.0" = "00000123"
  /\ norm_UPRN "00000000123" = "000000000123".
Proof.
  intros Hn Hu Hp Hc. split; [|split; [|split; reflexivity]].
  - destruct (normalise_columns batch us ps cs Hu Hp Hc)
      as (b & Hb & Hi & _ & Hbu & Hbp & Hbc).
    exists b. unfold fill.
    apply Nat.ltb_lt in Hn. rewrite Hn. auto.
  - intros r. cbv zeta.
    destruct (norm_value r) as (H8 & H12 & L8 & L12 & Hcl).
    split; [apply split_head_no_sep|].
    split; [intros a f Ha ->; now apply split_head_append|].
    split; [exact H8|]. split; [exact H12|].
    split; [exact L8|]. split; [exact L12|]. split; [exact Hcl|].
    split; intros Hdot Hlen.
    + rewrite H8; rewrite (split_head_no_sep _ _ Hdot); rewrite Hlen;
        [reflexivity | lia].
    + rewrite H12; rewrite (split_head_no_sep _ _ Hdot); rewrite Hlen;
        [reflexivity | lia].
Qed.

Lemma C8_response_normalisation_witness :
  exists b,
    fill ["Town"] full_table = Done b
    /\ lookup "UDPRN" (df_columns b) = Some ["00000123"; "12345678"]
    /\ lookup "UPRN" (df_columns b) = Some ["000000000123"; "100012345678"]
    /\ lookup "Closeness" (df_columns b) = Some ["95"; "100"].
Proof.
  destruct (C8_response_normalisation ["Town"] full_table
              ["123.0"; "12345678"] ["00000000123"; "100012345678.0"]
              ["95.5"; "100"])
    as ((b & Hb & _ & Hu & Hp & Hc) & _).
  - vm_compute. lia.
  - reflexivity.
  - reflexivity.
  - reflexivity.
  - exists b. repeat split; assumption.
Defined.

(** C2 (amended).  When the parsed response has fewer than 3 columns,
    [call_api] overwrites Closeness, UDPRN and UPRN with "0", "00000000"
    and "000000000000" in the rows the response has; it adds no rows.  If
    the response has as many rows as the batch, the result has exactly the
    batch's rows, under the batch's labels, with these values; if the
    number of rows differs -- as for a response that could not be parsed,
    which counts as a table without rows -- the call raises [ValueError]
    when it sets the labels, and there is no result. *)
Theorem C2_degraded_response
  (self : ApiCall) (s : ApiServer) (labels : list Z)
  (r_out : string) (table : DataFrame) :
  get_server self = Ok s ->
  index self = Some labels ->
  ncols table < 3 ->
  (nrows table = List.length labels ->
   exists b,
     fst (call_api self (PostTable r_out table)) = Ok b
     /\ df_index b = labels
     /\ nrows b = List.length labels
     /\ lookup "Closeness" (df_columns b) = Some (repeat "0" (List.length labels))
     /\ lookup "UDPRN" (df_columns b)
        = Some (repeat "00000000" (List.length labels))
     /\ lookup "UPRN" (df_columns b)
        = Some (repeat "000000000000" (List.length labels)))
  /\ (nrows table <> List.length labels ->
      fst (call_api self (PostTable r_out table))
      = Raise (ValueError "Length mismatch"))
  /\ (labels <> [] ->
      fst (call_api self (PostXMLSyntaxError r_out))
      = Raise (ValueError "Length mismatch")).
Proof.
  intros Hs Hi Hc. split; [|split].
  - intros Hrows.
    rewrite (call_api_degraded self s labels _ table Hs Hi) by eauto.
    rewrite Hrows, Nat.eqb_refl.
    destruct (sentinel_columns (out_fields self) table) as (_ & _ & Hcl & Hu & Hp).
    eexists. split; [reflexivity|]. simpl.
    rewrite <- Hrows. unfold nrows at 1. simpl. auto.
  - intros Hrows.
    rewrite (call_api_degraded self s labels _ table Hs Hi) by eauto.
    destruct (Nat.eqb (List.length labels) (nrows table)) eqn:E; [|reflexivity].
    apply Nat.eqb_eq in E. congruence.
  - intros Hne.
    rewrite (call_api_degraded self s labels _ Pandas.empty Hs Hi);
      [| right; eauto | vm_compute; lia].
    destruct labels; [congruence | reflexivity].
Qed.

Lemma C2_degraded_response_witness :
  exists b,
    fst (call_api call_two_rows (PostTable "" narrow_table)) = Ok b
    /\ df_index b = [5; 6]%Z
    /\ lookup "Closeness" (df_columns b) = Some ["0"; "0"].
Proof.
  destruct (C2_degraded_response call_two_rows server_A [5; 6]%Z "" narrow_table)
    as (H & _).
  - reflexivity.
  - reflexivity.
  - vm_compute. lia.
  - destruct H as (b & Hb & Hi & _ & Hc & _); [reflexivity|].
    exists b. repeat split; assumption.
Defined.

(** A response of one row and two columns for a batch of two rows: the
    call raises, so there is no result of two rows. *)
Lemma C2_counterexample :
  ncols short_table < 3
  /\ index call_two_rows = Some [5; 6]%Z
  /\ fst (call_api call_two_rows (PostTable "" short_table))
     = Raise (ValueError "Length mismatch")
  /\ ~ (exists b,
          fst (call_api call_two_rows (PostTable "" short_table)) = Ok b
          /\ nrows b = 2).
Proof.
  split; [vm_compute; lia|]. split; [reflexivity|]. split; [reflexivity|].
  intros (b & Hb & _). vm_compute in Hb. discriminate.
Qed.

End CallClaims.

(** ** [check_batch] *)

Module RetryFacts.

Import Pandas Server Call Retry.

Lemma sum_upto_shift (k : nat) (f : nat -> Z) :
  sum_upto (S k) f = (f 0%nat + sum_upto k (fun i => f (S i)))%Z.
Proof.
  induction k as [|k IH].
  - simpl. lia.
  - change (sum_upto (S (S k)) f) with (sum_upto (S k) f + f (S k))%Z.
    rewrite IH. simpl. lia.
Qed.

Lemma sum_upto_ext (k : nat) (f g : nat -> Z) :
  (forall i, i < k -> f i = g i) -> sum_upto k f = sum_upto k g.
Proof.
  induction k as [|k IH]; intros H; simpl; [reflexivity|].
  rewrite IH by (intros; apply H; lia). rewrite H by lia. reflexivity.
Qed.

Lemma posts_app (a b : list event) : posts (a ++ b) = (posts a ++ posts b)%list.
Proof. unfold posts. apply flat_map_app. Qed.

Lemma slept_app (a b : list event) : slept (a ++ b) = (slept a + slept b)%Z.
Proof.
  unfold slept. induction a as [|e a IH]; simpl; [reflexivity|].
  rewrite IH. destruct e; lia.
Qed.

Section OneCall.
Variables (api : ApiCall) (s : ApiServer).
Hypothesis Hs : get_server api = Ok s.

Let endpoint : nat * string := (api_server_id api, uri_stem s).

Lemma call_api_connection_error :
  call_api api PostConnectionError
  = (Raise ConnectionError, [EvPost (api_server_id api) (uri_stem s) (data api)]).
Proof. unfold call_api. rewrite Hs. reflexivity. Qed.

(** Every call makes one request, to the endpoint of the call, and does
    not sleep. *)
Lemma call_api_trace (net : post_outcome) :
  posts (snd (call_api api net)) = [endpoint]
  /\ slept (snd (call_api api net)) = 0%Z.
Proof.
  unfold call_api. rewrite Hs.
  destruct net as [| e | r | r table]; try (split; reflexivity).
  - destruct (fill (out_fields api) Pandas.empty);
      try destruct (index api); split; reflexivity.
  - destruct (fill (out_fields api) table);
      try destruct (index api); split; reflexivity.
Qed.

Variable net : nat -> post_outcome.

(** [k] failed connections, then a call that returns. *)
Lemma loop_fail_then_return (df : DataFrame) (k : nat) :
  forall fuel attempt st,
    retry_count st + k < 10 ->
    k + 2 <= fuel ->
    (forall j, j < k -> net (attempt + j) = PostConnectionError) ->
    fst (call_api api (net (attempt + k))) = Ok df ->
    exists tr,
      check_batch_loop fuel api net attempt st = Some (Ok df, tr)
      /\ posts tr = repeat endpoint (S k)
      /\ slept tr
         = sum_upto k (fun i => sleep_timer st + 3 * Z.of_nat i)%Z.
Proof.
  induction k as [|k IH]; intros fuel attempt st Hrc Hfuel Hfail Hok.
  - destruct fuel as [|[|fuel]]; try lia.
    rewrite Nat.add_0_r in Hok.
    destruct (call_api_trace (net attempt)) as (Hp & Hsl).
    simpl. replace (Nat.ltb (retry_count st) 10) with true
      by (symmetry; apply Nat.ltb_lt; lia).
    destruct (call_api api (net attempt)) as [r ev]. simpl in Hok. subst r.
    simpl in *. exists (ev ++ [])%list. rewrite app_nil_r. auto.
  - destruct fuel as [|fuel]; try lia.
    pose proof (Hfail 0 ltac:(lia)) as H0. rewrite Nat.add_0_r in H0.
    destruct (IH fuel (S attempt)
                (mkLocals (S (retry_count st)) (S (calls_failed st))
                          (sleep_timer st + Server.sleep_timer_increment)
                          (result_df st)))
      as (tr & Htr & Hp & Hsl).
    + simpl. lia.
    + lia.
    + intros j Hj. replace (S attempt + j) with (attempt + S j) by lia.
      apply Hfail. lia.
    + replace (S attempt + k) with (attempt + S k) by lia. exact Hok.
    + cbn [check_batch_loop].
      replace (Nat.ltb (retry_count st) 10) with true
        by (symmetry; apply Nat.ltb_lt; lia).
      rewrite H0, call_api_connection_error, Htr.
      cbn [option_map fst snd].
      eexists. split; [reflexivity|]. split.
      * simpl. rewrite Hp. reflexivity.
      * rewrite (sum_upto_shift k).
        unfold slept in Hsl |- *.
        cbn -[sum_upto Z.add Z.mul Z.of_nat] in Hsl |- *.
        rewrite Hsl.
        rewrite (sum_upto_ext k _ (fun i => sleep_timer st + 3 * Z.of_nat (S i))%Z).
        -- lia.
        -- intros i _. unfold Server.sleep_timer_increment. lia.
Qed.

(** Failed connections until the count reaches 10. *)
Lemma loop_all_fail (n : nat) :
  forall fuel attempt st,
    retry_count st + n = 10 ->
    n + 1 <= fuel ->
    (forall j, j < n -> net (attempt + j) = PostConnectionError) ->
    exists tr,
      check_batch_loop fuel api net attempt st = Some (Ok (result_df st), tr)
      /\ posts tr = repeat endpoint n
      /\ slept tr
         = sum_upto n (fun i => sleep_timer st + 3 * Z.of_nat i)%Z.
Proof.
  induction n as [|n IH]; intros fuel attempt st Hrc Hfuel Hfail.
  - destruct fuel as [|fuel]; try lia.
    simpl. replace (Nat.ltb (retry_count st) 10) with false
      by (symmetry; apply Nat.ltb_ge; lia).
    exists []. auto.
  - destruct fuel as [|fuel]; try lia.
    pose proof (Hfail 0 ltac:(lia)) as H0. rewrite Nat.add_0_r in H0.
    destruct (IH fuel (S attempt)
                (mkLocals (S (retry_count st)) (S (calls_failed st))
                          (sleep_timer st + Server.sleep_timer_increment)
                          (result_df st)))
      as (tr & Htr & Hp & Hsl).
    + simpl. lia.
    + lia.
    + intros j Hj. replace (S attempt + j) with (attempt + S j) by lia.
      apply Hfail. lia.
    + cbn [check_batch_loop].
      replace (Nat.ltb (retry_count st) 10) with true
        by (symmetry; apply Nat.ltb_lt; lia).
      rewrite H0, call_api_connection_error, Htr.
      cbn [option_map fst snd].
      eexists. split; [reflexivity|]. split.
      * simpl. rewrite Hp. reflexivity.
      * rewrite (sum_upto_shift n).
        unfold slept in Hsl |- *.
        cbn -[sum_upto Z.add Z.mul Z.of_nat] in Hsl |- *.
        rewrite Hsl.
        rewrite (sum_upto_ext n _ (fun i => sleep_timer st + 3 * Z.of_nat (S i))%Z).
        -- lia.
        -- intros i _. unfold Server.sleep_timer_increment. lia.
Qed.

End OneCall.

(** The loop ends within the fuel [check_batch] gives it. *)
Lemma check_batch_loop_total (api : ApiCall) (net : nat -> post_outcome) :
  forall fuel attempt st,
    10 - retry_count st < fuel ->
    check_batch_loop fuel api net attempt st <> None.
Proof.
  induction fuel as [|fuel IH]; intros attempt st Hfuel; [lia|].
  simpl. destruct (Nat.ltb (retry_count st) 10) eqn:E; [|discriminate].
  apply Nat.ltb_lt in E.
  destruct (call_api api (net attempt)) as [[df|e] ev].
  - specialize (IH (S attempt) (mkLocals 10 (calls_failed st) (sleep_timer st) df)).
    destruct (check_batch_loop fuel api net (S attempt) _);
      [discriminate | apply IH; cbn [retry_count]; lia].
  - destruct e; try discriminate.
    specialize (IH (S attempt)
                   (mkLocals (S (retry_count st)) (S (calls_failed st))
                             (sleep_timer st + Server.sleep_timer_increment)
                             (result_df st))).
    destruct (check_batch_loop fuel api net (S attempt) _);
      [discriminate | apply IH; cbn [retry_count]; lia].
Qed.

Lemma check_batch_total (api : ApiCall) (net : nat -> post_outcome) :
  exists r, check_batch api net = Some r.
Proof.
  unfold check_batch.
  destruct (nth_error (api_servers api) (api_server_id api)); [|eauto].
  pose proof (check_batch_loop_total api net 11 0
                (mkLocals 0 0 Server.sleep_timer Pandas.empty)) as H.
  destruct (check_batch_loop 11 api net 0 _); [eauto|].
  exfalso. apply H; [simpl; lia | reflexivity].
Qed.

End RetryFacts.

Module RetryClaims.

Import Pandas Errors Server Call Retry Pipeline PandasFacts RetryFacts Fixtures.

(** C3.  If the first [k < 10] calls of [check_batch] fail with a
    [ConnectionError] and the next one returns, [check_batch] returns that
    result after exactly [k+1] requests, all of them to the endpoint of the
    call, having slept 1, 4, 7, ... seconds after the failures, in total
    the sum of [1 + 3*i] for [i < k].  If all of the first ten calls fail
    with a [ConnectionError], [check_batch] returns (the empty table it
    started with) after exactly ten requests and does not raise. *)
Theorem C3_check_batch_retry
  (api : ApiCall) (s : ApiServer) (net : nat -> post_outcome) :
  get_server api = Ok s ->
  (forall (k : nat) (df : DataFrame),
     k < 10 ->
     (forall j, j < k -> net j = PostConnectionError) ->
     fst (call_api api (net k)) = Ok df ->
     exists tr,
       check_batch api net = Some (Ok df, tr)
       /\ posts tr = repeat (api_server_id api, uri_stem s) (k + 1)
       /\ slept tr = sum_upto k (fun i => 1 + 3 * Z.of_nat i)%Z)
  /\ ((forall j, j < 10 -> net j = PostConnectionError) ->
      exists tr,
        check_batch api net = Some (Ok Pandas.empty, tr)
        /\ posts tr = repeat (api_server_id api, uri_stem s) 10).
Proof.
  intros Hs.
  assert (Hnth : nth_error (Call.api_servers api) (api_server_id api) = Some s).
  { unfold get_server in Hs.
    destruct (nth_error (Call.api_servers api) (api_server_id api));
      [congruence | discriminate]. }
  unfold check_batch. rewrite Hnth. split.
  - intros k df Hk Hfail Hok.
    destruct (loop_fail_then_return api s Hs net df k 11 0
                (mkLocals 0 0 Server.sleep_timer Pandas.empty))
      as (tr & Htr & Hp & Hsl); simpl; try lia; try assumption.
    exists tr. rewrite Nat.add_1_r. auto.
  - intros Hfail.
    destruct (loop_all_fail api s Hs net 10 11 0
                (mkLocals 0 0 Server.sleep_timer Pandas.empty))
      as (tr & Htr & Hp & _); simpl; try lia; try assumption.
    exists tr. auto.
Qed.

Lemma C3_check_batch_retry_witness :
  exists df tr,
    check_batch call_two_rows flaky_net = Some (Ok df, tr)
    /\ posts tr = repeat (0, "http://a&format=json") 3
    /\ slept tr = 5%Z.
Proof.
  destruct (C3_check_batch_retry call_two_rows server_A flaky_net) as (H & _).
  - reflexivity.
  - destruct (H 2 (mkFrame [5; 6]%Z
                     [("UDPRN", ["00000123"; "12345678"]);
                      ("UPRN", ["000000000123"; "100012345678"]);
                      ("Closeness", ["95"; "100"]);
                      ("Town", ["Ramsey"; "Douglas"])]))
      as (tr & Htr & Hp & Hsl).
    + lia.
    + intros j Hj. destruct j as [|[|j]]; [reflexivity | reflexivity | lia].
    + reflexivity.
    + eexists. exists tr. repeat split; eassumption.
Defined.

(** A call that raises anything but a [ConnectionError] ends the loop. *)
Lemma check_batch_raises (api : ApiCall) (s : ApiServer)
  (net : nat -> post_outcome) (e : exn) (ev : list event) :
  get_server api = Ok s ->
  call_api api (net 0) = (Raise e, ev) ->
  e <> ConnectionError ->
  check_batch api net = Some (Raise e, ev).
Proof.
  intros Hs Hcall He. unfold check_batch.
  unfold get_server in Hs.
  destruct (nth_error (Call.api_servers api) (api_server_id api));
    [|discriminate].
  cbn [check_batch_loop retry_count Nat.ltb Nat.leb].
  rewrite Hcall. destruct e; try reflexivity. congruence.
Qed.

(** A missing column among the three that are normalised. *)
Lemma normalise_missing (table : DataFrame) :
  lookup "UDPRN" (df_columns table) = None
  \/ lookup "UPRN" (df_columns table) = None
  \/ lookup "Closeness" (df_columns table) = None ->
  exists b,
    normalise table = KeyErrorAt b
    /\ (lookup "UDPRN" (df_columns table) = None -> b = table).
Proof.
  intros H. unfold normalise, apply_col, get_col.
  destruct (lookup "UDPRN" (df_columns table)) as [us|] eqn:Hu; simpl.
  2:{ exists table. auto. }
  rewrite lookup_replace_other by discriminate.
  destruct (lookup "UPRN" (df_columns table)) as [ps|] eqn:Hp; simpl.
  2:{ eexists. split; [reflexivity | discriminate]. }
  rewrite lookup_replace_other by discriminate.
  rewrite lookup_replace_other by discriminate.
  destruct (lookup "Closeness" (df_columns table)) as [cs|] eqn:Hc; simpl.
  2:{ eexists. split; [reflexivity | discriminate]. }
  destruct H as [H | [H | H]]; discriminate.
Qed.

(** C9 (amended).  When a parsed response with more than two columns lacks
    one of UDPRN, UPRN and Closeness, [call_api] raises an [ApiSetupError]
    named "API Response Error"; its description is the "Missing data
    fields" template filled with the parsed table (as the updates before
    the missing column left it) and the request payload.  [check_batch]
    does not catch it: the batch is not retried, and in the serial loop the
    batches after it are not sent. *)
Theorem C9_missing_field
  (self : ApiCall) (s : ApiServer) (r_out : string) (table : DataFrame)
  (net : nat -> nat -> post_outcome) (i : nat) (rest : list ApiCall) :
  get_server self = Ok s ->
  2 < ncols table ->
  lookup "UDPRN" (df_columns table) = None
  \/ lookup "UPRN" (df_columns table) = None
  \/ lookup "Closeness" (df_columns table) = None ->
  net i 0 = PostTable r_out table ->
  exists b template,
    let e := ApiSetupError "API Response Error"
               (Formatted template (VFrame b) (VBytes (data self))) in
    let post := EvPost (api_server_id self) (uri_stem s) (data self) in
    err_dict "api_key" = Some ("API Response Error", template)
    /\ (lookup "UDPRN" (df_columns table) = None -> b = table)
    /\ call_api self (PostTable r_out table) = (Raise e, [post])
    /\ check_batch self (net i) = Some (Raise e, [post])
    /\ run_serial net i (self :: rest) = Some (Raise e, [post]).
Proof.
  intros Hs Hn Hmiss Hnet.
  destruct (normalise_missing table Hmiss) as (b & Hb & Hbt).
  exists b. eexists. cbv zeta.
  split; [reflexivity|]. split; [exact Hbt|].
  assert (Hcall : call_api self (PostTable r_out table)
                  = (Raise (ApiSetupError_init
                              [VStr "api_key"; VFrame b; VBytes (data self)]),
                     [EvPost (api_server_id self) (uri_stem s) (data self)])).
  { unfold call_api. rewrite Hs. unfold fill.
    apply Nat.ltb_lt in Hn. rewrite Hn, Hb. reflexivity. }
  split; [exact Hcall|].
  assert (Hcb : check_batch self (net i)
                = Some (Raise (ApiSetupError_init
                                 [VStr "api_key"; VFrame b; VBytes (data self)]),
                        [EvPost (api_server_id self) (uri_stem s) (data self)])).
  { apply (check_batch_raises self s); [exact Hs | now rewrite Hnet | discriminate]. }
  split; [exact Hcb|].
  cbn [run_serial]. rewrite Hcb. reflexivity.
Qed.

Lemma C9_missing_field_witness :
  exists e,
    check_batch call_two_rows (net_missing 0)
    = Some (Raise e, [EvPost 0 "http://a&format=json" (data call_two_rows)]).
Proof.
  destruct (C9_missing_field call_two_rows server_A "" no_udprn_table
              net_missing 0 [])
    as (b & template & _ & _ & _ & H & _).
  - reflexivity.
  - vm_compute. lia.
  - left. reflexivity.
  - reflexivity.
  - eexists. exact H.
Defined.

(** Two batches of one row, run one after the other; the response to the
    first has no UDPRN column.  The error carries the parsed table and the
    request body, not the name of the column or a size, and the second
    batch is never sent. *)
Lemma C9_counterexample :
  plan input_two 1 = Some (Ok ([("x", [0%Z]); ("y", [1%Z])], 2))
  /\ exists tr,
       check_df net_missing ini_serial input_two
       = Some (Raise (ApiSetupError "API Response Error"
                        (Formatted ("Missing data fields: " ++ dq ++ "{}" ++ dq
                                    ++ nl ++ "{}")
                                   (VFrame no_udprn_table) (VBytes "x"))),
               tr)
       /\ posts tr = [(0, "http://a&format=json")]
       /\ ~ In (EvPost 0 "http://a&format=json" "y") tr.
Proof.
  split; [reflexivity|].
  eexists. split; [vm_compute; reflexivity|]. split; [reflexivity|].
  intros [H | [H | [H | []]]]; discriminate.
Qed.

End RetryClaims.

(** ** Planning *)

Module PlanFacts.

Import Py Pandas Call Pipeline.

Lemma lookup_iloc {C : Type} (name : string) (a b : nat)
  (cols : list (string * list C)) :
  lookup name (map (fun c => (fst c, slice a b (snd c))) cols)
  = option_map (slice a b) (lookup name cols).
Proof.
  induction cols as [|[n vs] cols IH]; simpl; [reflexivity|].
  destruct (String.eqb n name); [reflexivity | exact IH].
Qed.

Lemma slice_step {A : Type} (a B : nat) (l : list A) :
  slice a (a + B) l = firstn B (skipn a l).
Proof. unfold slice. f_equal. lia. Qed.

(** Consecutive slices of width [B] put one after the other. *)
Lemma concat_slices {A : Type} (B : nat) (l : list A) (n : nat) :
  forall j,
    List.length l <= (j + n) * B ->
    List.concat (map (fun i => slice (i * B) (i * B + B) l) (seq j n))
    = skipn (j * B) l.
Proof.
  induction n as [|n IH]; intros j Hlen; simpl.
  - rewrite skipn_all2; [reflexivity | lia].
  - rewrite IH by lia. rewrite slice_step.
    replace (S j * B) with (B + j * B) by lia.
    rewrite <- skipn_skipn. apply firstn_skipn.
Qed.

Lemma length_slice {A : Type} (a B : nat) (l : list A) :
  List.length (slice a (a + B) l) = Nat.min B (List.length l - a).
Proof. rewrite slice_step, length_firstn, length_skipn. reflexivity. Qed.


Section Loop.
Variables (in_df : DataFrame) (B : nat) (lines : list string).
Hypothesis HB : 0 < B.
Hypothesis Hapi : lookup "api" (df_columns in_df) = Some lines.

(** [n] more batches are due when the loop is at row [j * B]. *)
Lemma plan_loop_batches (n : nat) :
  forall fuel j api_data batch_count,
    n < fuel ->
    nrows in_df <= (j + n) * B ->
    (n = 0 \/ (j + n - 1) * B < nrows in_df) ->
    plan_loop fuel in_df B (j * B) (nrows in_df) api_data batch_count
    = Some (Ok ((api_data
                 ++ map (fun i =>
                           (join Errors.nl (slice (i * B) (i * B + B) lines),
                            slice (i * B) (i * B + B) (df_index in_df)))
                        (seq j n))%list,
                batch_count + n)).
Proof.
  induction n as [|n IH]; intros fuel j api_data batch_count Hfuel Hcov Hlast.
  - destruct fuel as [|fuel]; [lia|]. simpl.
    replace (Nat.ltb (j * B) (nrows in_df)) with false
      by (symmetry; apply Nat.ltb_ge; lia).
    now rewrite app_nil_r, Nat.add_0_r.
  - destruct fuel as [|fuel]; [lia|].
    assert (Hj : j * B < nrows in_df) by (destruct Hlast; [lia | nia]).
    cbn [plan_loop].
    replace (Nat.ltb (j * B) (nrows in_df)) with true
      by (symmetry; apply Nat.ltb_lt; lia).
    unfold get_col, iloc. cbn [df_columns df_index].
    rewrite lookup_iloc, Hapi. cbn [option_map].
    replace (plan_loop fuel in_df B (j * B + B))
      with (plan_loop fuel in_df B (S j * B)) by (f_equal; lia).
    rewrite IH.
    + cbn [seq map]. rewrite <- app_assoc. cbn [app].
      do 3 f_equal. lia.
    + lia.
    + replace (S j + n) with (j + S n) by lia. exact Hcov.
    + destruct n as [|n]; [left; reflexivity | right].
      replace (S j + S n - 1) with (j + S (S n) - 1) by lia.
      destruct Hlast; [lia | assumption].
Qed.

Lemma ceil_div_bounds (N : nat) :
  let n := (N + B - 1) / B in
  N <= n * B /\ (n = 0 \/ (n - 1) * B < N) /\ n <= N.
Proof.
  cbv zeta.
  pose proof (Nat.div_mod_eq (N + B - 1) B) as Hdm.
  pose proof (Nat.mod_upper_bound (N + B - 1) B ltac:(lia)) as Hmod.
  set (q := (N + B - 1) / B) in *. set (r := (N + B - 1) mod B) in *.
  split; [nia|]. split.
  - destruct q as [|q]; [left; reflexivity | right].
    replace (S q - 1) with q by lia. nia.
  - nia.
Qed.

End Loop.

End PlanFacts.

Module PlanClaims.

Import Py Pandas Call Pipeline PlanFacts Fixtures.

(** C5.  For a table of [N] rows with an ['api'] column and a batch size
    [B > 0], the planning loop ends and produces exactly [ceil(N / B)]
    batches (and counts as many).  Batch [i] holds the rows [i*B] to
    [i*B + B - 1] that exist: the request lines of these rows, joined with
    newlines, and their row labels, unchanged; it has at least one and at
    most [B] rows.  The labels of the batches, put one after the other in
    batch order, are the labels of the table in its order, and so are the
    request lines. *)
Theorem C5_planning (in_df : DataFrame) (B : nat) (lines : list string) :
  0 < B ->
  lookup "api" (df_columns in_df) = Some lines ->
  List.length lines = nrows in_df ->
  let n := (nrows in_df + B - 1) / B in
  exists batches,
    plan in_df B = Some (Ok (batches, n))
    /\ List.length batches = n
    /\ (forall i, i < n ->
          nth_error batches i
          = Some (join Errors.nl (slice (i * B) (i * B + B) lines),
                  slice (i * B) (i * B + B) (df_index in_df))
          /\ 0 < List.length (slice (i * B) (i * B + B) (df_index in_df)) <= B
          /\ List.length (slice (i * B) (i * B + B) lines)
             = List.length (slice (i * B) (i * B + B) (df_index in_df)))
    /\ List.concat (map snd batches) = df_index in_df
    /\ List.concat (map (fun i => slice (i * B) (i * B + B) lines) (seq 0 n)) = lines.
Proof.
  intros HB Hapi Hlen. cbv zeta.
  destruct (ceil_div_bounds B HB (nrows in_df)) as (Hcov & Hlast & Hle).
  set (n := (nrows in_df + B - 1) / B) in *.
  exists (map (fun i =>
                 (join Errors.nl (slice (i * B) (i * B + B) lines),
                  slice (i * B) (i * B + B) (df_index in_df)))
              (seq 0 n)).
  split; [|split; [|split; [|split]]].
  - assert (Hloop := plan_loop_batches in_df B lines HB Hapi n
                       (S (nrows in_df)) 0 [] 0 ltac:(lia) Hcov Hlast).
    cbn [Nat.mul Nat.add app] in Hloop. exact Hloop.
  - now rewrite length_map, length_seq.
  - intros i Hi.
    assert (HiN : i * B < nrows in_df) by (destruct Hlast; [lia | nia]).
    split; [|split].
    + rewrite nth_error_map, nth_error_seq.
      replace (Nat.ltb i n) with true by (symmetry; apply Nat.ltb_lt; lia).
      reflexivity.
    + rewrite length_slice. unfold nrows in HiN. lia.
    + rewrite !length_slice, Hlen. reflexivity.
  - rewrite map_map. cbn [snd].
    rewrite (concat_slices B (df_index in_df) n 0) by exact Hcov.
    reflexivity.
  - rewrite (concat_slices B lines n 0) by (rewrite Hlen; exact Hcov).
    reflexivity.
Qed.

Lemma C5_planning_witness :
  exists batches,
    plan input_two 1 = Some (Ok (batches, 2))
    /\ List.concat (map snd batches) = [0; 1]%Z.
Proof.
  destruct (C5_planning input_two 1 ["x"; "y"]) as (batches & Hp & _ & _ & Hc & _).
  - lia.
  - reflexivity.
  - reflexivity.
  - exists batches. split; assumption.
Defined.

End PlanClaims.

(** ** Dispatch *)

Module DispatchFacts.

Import Pandas Server Call Retry Pipeline RetryFacts.

Lemma combine_nil_r {A B : Type} (l : list A) : combine l ([] : list B) = [].
Proof. destruct l; reflexivity. Qed.

Lemma combine_seq_split {A : Type} (K : nat) :
  forall (l : list A) (base : nat),
    combine (seq base (List.length l)) l
    = (combine (seq base (List.length l)) (firstn K l)
       ++ combine (seq (base + K) (List.length l - K)) (skipn K l))%list.
Proof.
  induction K as [|K IH]; intros l base.
  - cbn [firstn skipn]. rewrite combine_nil_r, Nat.add_0_r, Nat.sub_0_r.
    reflexivity.
  - destruct l as [|a l]; [reflexivity|].
    cbn [List.length seq firstn skipn combine app Nat.sub].
    f_equal. rewrite (IH l (S base)). do 3 f_equal. lia.
Qed.

Lemma nth_error_combine_seq {A : Type} :
  forall (l : list A) (base i : nat),
    nth_error (combine (seq base (List.length l)) l) i
    = option_map (fun b => (base + i, b)) (nth_error l i).
Proof.
  induction l as [|a l IH]; intros base i.
  - destruct i; reflexivity.
  - destruct i as [|i]; cbn [List.length seq combine nth_error option_map].
    + now rewrite Nat.add_0_r.
    + rewrite IH. destruct (nth_error l i); [|reflexivity].
      cbn [option_map]. do 2 f_equal. lia.
Qed.

Section Assignment.
Variables (servers : list ApiServer) (fields : list string).

Let K : nat := List.length servers.

(** The call for the batch at position [fst p]. *)
Let call_of (p : nat * batch_data) : ApiCall :=
  ApiCall_init servers (fst p mod K) fields (snd p).

Lemma assign_inner_round (batches : list batch_data) :
  forall s_id base,
    s_id <= K ->
    base mod K = 0 ->
    assign_inner servers fields s_id batches
    = (map call_of
         (combine (seq (base + s_id) (List.length batches))
                  (firstn (K - s_id) batches)),
       skipn (K - s_id) batches).
Proof.
  induction batches as [|b rest IH]; intros s_id base Hs Hbase.
  - cbn [assign_inner]. now rewrite firstn_nil, skipn_nil, combine_nil_r.
  - cbn [assign_inner]. fold K.
    destruct (Nat.ltb s_id K) eqn:E.
    + apply Nat.ltb_lt in E.
      rewrite (IH (S s_id) base) by (assumption || lia).
      replace (K - s_id) with (S (K - S s_id)) by lia.
      cbn [List.length seq firstn skipn combine map].
      f_equal. f_equal.
      * unfold call_of. cbn [fst snd]. f_equal.
        rewrite Nat.Div0.add_mod, Hbase, Nat.add_0_l, Nat.Div0.mod_mod.
        symmetry. apply Nat.mod_small. exact E.
      * do 3 f_equal. lia.
    + apply Nat.ltb_ge in E.
      replace (K - s_id) with 0 by lia.
      cbn [firstn skipn]. now rewrite combine_nil_r.
Qed.

Lemma assign_outer_round :
  forall fuel batches base,
    0 < K ->
    base mod K = 0 ->
    List.length batches < fuel ->
    assign_outer fuel servers fields batches
    = Some (map call_of (combine (seq base (List.length batches)) batches)).
Proof.
  induction fuel as [|fuel IH]; intros batches base HK Hbase Hfuel; [lia|].
  destruct batches as [|b rest]; [reflexivity|].
  cbn [assign_outer].
  rewrite (assign_inner_round (b :: rest) 0 base) by (assumption || lia).
  rewrite Nat.sub_0_r, Nat.add_0_r.
  rewrite (IH (skipn K (b :: rest)) (base + K)).
  - cbn [option_map]. f_equal. rewrite <- map_app. f_equal.
    rewrite length_skipn. symmetry. apply combine_seq_split.
  - exact HK.
  - rewrite Nat.Div0.add_mod, Hbase, Nat.Div0.mod_same. cbn [Nat.add].
    apply Nat.Div0.mod_0_l.
  - rewrite length_skipn. cbn [List.length] in *. lia.
Qed.

(** With an empty pool the loop never takes a batch off the list. *)
Lemma assign_outer_empty_pool (fuel : nat) (b : batch_data)
  (rest : list batch_data) :
  K = 0 -> assign_outer fuel servers fields (b :: rest) = None.
Proof.
  intros HK. induction fuel as [|fuel IH]; [reflexivity|].
  cbn [assign_outer assign_inner]. fold K. rewrite HK.
  cbn [Nat.ltb Nat.leb]. rewrite IH. reflexivity.
Qed.

End Assignment.

Section Runs.
Variable net : nat -> nat -> post_outcome.

Lemma check_batch_loop_posts (api : ApiCall) (s : ApiServer)
  (one : nat -> post_outcome) :
  get_server api = Ok s ->
  forall fuel attempt st r tr,
    check_batch_loop fuel api one attempt st = Some (r, tr) ->
    Forall (eq (api_server_id api, uri_stem s)) (posts tr).
Proof.
  intros Hs. induction fuel as [|fuel IH]; intros attempt st r tr H;
    [discriminate|].
  cbn [check_batch_loop] in H.
  destruct (Nat.ltb (retry_count st) 10).
  2:{ injection H as _ <-. constructor. }
  destruct (call_api_trace api s Hs (one attempt)) as (Hp & _).
  destruct (call_api api (one attempt)) as [[df|e] ev]; cbn [snd] in Hp.
  - destruct (check_batch_loop fuel api one (S attempt) _) as [[r' tr']|] eqn:E;
      [|discriminate].
    cbn [option_map fst snd] in H. injection H as _ <-.
    rewrite posts_app, Hp. constructor; [reflexivity | eapply IH; eassumption].
  - destruct e;
      try (injection H as _ <-; rewrite Hp; repeat constructor).
    destruct (check_batch_loop fuel api one (S attempt) _) as [[r' tr']|] eqn:E;
      [|discriminate].
    cbn [option_map fst snd] in H. injection H as _ <-.
    rewrite posts_app, Hp. constructor; [reflexivity|].
    cbn [app]. change (posts (?a :: ?b :: tr')) with (posts tr').
    eapply IH; eassumption.
Qed.

Lemma check_batch_posts (api : ApiCall) (s : ApiServer)
  (one : nat -> post_outcome) (r : result DataFrame) (tr : list event) :
  get_server api = Ok s ->
  check_batch api one = Some (r, tr) ->
  Forall (eq (api_server_id api, uri_stem s)) (posts tr).
Proof.
  intros Hs H. unfold check_batch in H.
  destruct (nth_error (Call.api_servers api) (api_server_id api)).
  - eapply check_batch_loop_posts; eassumption.
  - injection H as _ <-. constructor.
Qed.

(** The serial loop runs the calls one after the other, in order, until
    one raises: its trace is the traces of these runs, in order. *)
Lemma run_serial_runs (calls : list ApiCall) :
  forall i,
  exists outcome runs,
    run_serial net i calls = Some (outcome, List.concat (map snd runs))
    /\ List.length runs <= List.length calls
    /\ (forall j r, nth_error runs j = Some r ->
          exists api, nth_error calls j = Some api
                      /\ check_batch api (net (i + j)) = Some r)
    /\ (forall j r, nth_error runs j = Some r -> S j < List.length runs ->
          exists df, fst r = Ok df)
    /\ ((exists dfs, outcome = Ok dfs /\ List.length runs = List.length calls)
        \/ (exists e tr, outcome = Raise e
                         /\ nth_error runs (List.length runs - 1)
                            = Some (Raise e, tr))).
Proof.
  induction calls as [|api rest IH]; intros i.
  - exists (Ok []), []. cbn.
    split; [reflexivity|]. split; [lia|]. split; [|split].
    + intros [|j] r H; discriminate.
    + intros [|j] r H; discriminate.
    + left. eauto.
  - destruct (check_batch_total api (net i)) as ([[df|e] ev] & Hcb).
    + destruct (IH (S i)) as (outcome & runs & Hrun & Hlen & Hnth & Hok & Hend).
      exists (dfs <- outcome ;; Ok (df :: dfs)), ((Ok df, ev) :: runs).
      cbn [run_serial]. rewrite Hcb, Hrun. cbn.
      split; [reflexivity|]. split; [lia|]. split; [|split].
      * intros [|j] r H; cbn in H.
        -- injection H as <-. exists api. rewrite Nat.add_0_r. auto.
        -- destruct (Hnth j r H) as (a & Ha & Hc). exists a.
           replace (i + S j) with (S i + j) by lia. auto.
      * intros [|j] r H Hj; cbn in H.
        -- injection H as <-. exists df. reflexivity.
        -- apply (Hok j r H). lia.
      * destruct Hend as [(dfs & -> & Hl) | (e & tr & -> & Hl)].
        -- left. exists (df :: dfs). cbn. split; [reflexivity | lia].
        -- right. exists e, tr. split; [reflexivity|].
           destruct runs as [|r0 runs]; [discriminate|].
           cbn [List.length Nat.sub] in *. rewrite Nat.sub_0_r in *.
           exact Hl.
    + exists (Raise e), [(Raise e, ev)].
      cbn [run_serial]. rewrite Hcb. cbn. rewrite app_nil_r.
      split; [reflexivity|]. split; [lia|]. split; [|split].
      * intros [|[|j]] r H; cbn in H; try discriminate.
        injection H as <-. exists api. rewrite Nat.add_0_r. auto.
      * intros [|[|j]] r H Hj; cbn in Hj; lia.
      * right. exists e, ev. auto.
Qed.

(** The executor hands every call to [check_batch] and gives the results
    back in the order of the calls, or raises the exception of the first
    call, in that order, that raised. *)
Lemma collect_runs (calls : list ApiCall) :
  forall i,
  exists outcome,
    collect net i calls = Some outcome
    /\ ((exists dfs,
           outcome = Ok dfs
           /\ List.length dfs = List.length calls
           /\ forall j api, nth_error calls j = Some api ->
                exists df tr,
                  nth_error dfs j = Some df
                  /\ check_batch api (net (i + j)) = Some (Ok df, tr))
        \/ (exists e j api tr,
              outcome = Raise e
              /\ nth_error calls j = Some api
              /\ check_batch api (net (i + j)) = Some (Raise e, tr)
              /\ forall j' api', j' < j -> nth_error calls j' = Some api' ->
                   exists df tr',
                     check_batch api' (net (i + j')) = Some (Ok df, tr'))).
Proof.
  induction calls as [|api rest IH]; intros i.
  - exists (Ok []). split; [reflexivity|]. left. exists [].
    split; [reflexivity|]. split; [reflexivity|].
    intros [|j] a H; discriminate.
  - destruct (check_batch_total api (net i)) as ([[df|e] ev] & Hcb).
    + destruct (IH (S i)) as (outcome & Hc & Hcase).
      cbn [collect]. rewrite Hcb, Hc. cbn [option_map].
      eexists. split; [reflexivity|].
      destruct Hcase as [(dfs & -> & Hlen & Hnth)
                        | (e & j & a & tr & -> & Ha & Hr & Hbefore)].
      * left. exists (df :: dfs). split; [reflexivity|].
        split; [cbn [List.length]; lia|].
        intros [|j] a Ha; cbn [nth_error] in Ha |- *.
        -- injection Ha as <-. exists df, ev. rewrite Nat.add_0_r. auto.
        -- destruct (Hnth j a Ha) as (d & t & Hd & Hrun).
           exists d, t. replace (i + S j) with (S i + j) by lia. auto.
      * right. exists e, (S j), a, tr. split; [reflexivity|].
        split; [exact Ha|]. split.
        { replace (i + S j) with (S i + j) by lia. exact Hr. }
        intros [|j'] a' Hlt Ha'; cbn [nth_error] in Ha'.
        -- injection Ha' as <-. exists df, ev. rewrite Nat.add_0_r. exact Hcb.
        -- destruct (Hbefore j' a' ltac:(lia) Ha') as (d & t & Hrun).
           exists d, t. replace (i + S j') with (S i + j') by lia. exact Hrun.
    + exists (Raise e). cbn [collect]. rewrite Hcb. split; [reflexivity|].
      right. exists e, 0, api, ev. split; [reflexivity|].
      split; [reflexivity|]. split; [now rewrite Nat.add_0_r|].
      intros j' a' Hlt. lia.
Qed.

(** A call built for position [i] of the rotation finds its endpoint in a
    pool that is not empty, and every request of its run goes there. *)
Lemma check_batch_assigned (servers : list ApiServer) (fields : list string)
  (b : batch_data) (i : nat) (one : nat -> post_outcome)
  (r : result DataFrame) (tr : list event) :
  0 < List.length servers ->
  check_batch (ApiCall_init servers (i mod List.length servers) fields b) one
  = Some (r, tr) ->
  exists s,
    nth_error servers (i mod List.length servers) = Some s
    /\ Forall (eq (i mod List.length servers, uri_stem s)) (posts tr).
Proof.
  intros HK Hrun.
  destruct (nth_error servers (i mod List.length servers)) as [s|] eqn:Hs.
  - exists s. split; [reflexivity|].
    apply (check_batch_posts
             (ApiCall_init servers (i mod List.length servers) fields b)
             s one r tr); [|exact Hrun].
    unfold get_server, ApiCall_init. cbn. rewrite Hs. reflexivity.
  - apply nth_error_None in Hs.
    pose proof (Nat.mod_upper_bound i (List.length servers)). lia.
Qed.

End Runs.

End DispatchFacts.

Module DispatchClaims.

Import Pandas Server Call Retry Pipeline RetryFacts DispatchFacts Fixtures.




End DispatchClaims.

(** ** The whole pipeline *)

Module PipelineFacts.

Import Py Pandas Server Call Retry Pipeline.
Import PandasFacts CallFacts RetryFacts PlanFacts DispatchFacts.

(** A usable response becomes a result under the labels of the batch. *)
Lemma call_api_usable (self : ApiCall) (s : ApiServer) (labels : list Z)
  (r_out : string) (table : DataFrame) :
  get_server self = Ok s ->
  index self = Some labels ->
  usable (List.length labels) table ->
  exists df,
    fst (call_api self (PostTable r_out table)) = Ok df
    /\ df_index df = labels.
Proof.
  intros Hs Hi (Hrows & Hshape).
  destruct (Nat.ltb 2 (ncols table)) eqn:E.
  - apply Nat.ltb_lt in E.
    destruct Hshape as [Hc | (us & ps & cs & Hu & Hp & Hc)]; [lia|].
    destruct (normalise_columns table us ps cs Hu Hp Hc)
      as (b & Hb & Hbi & Hbn & _).
    unfold call_api. rewrite Hs. unfold fill.
    apply Nat.ltb_lt in E. rewrite E, Hb, Hi. cbn [fst].
    apply Nat.ltb_lt in E.
    rewrite set_index_columns by lia.
    unfold nrows at 1. rewrite Hbi. fold (nrows table).
    rewrite Hrows, Nat.eqb_refl. eauto.
  - apply Nat.ltb_ge in E.
    rewrite (call_api_degraded self s labels _ table Hs Hi) by (eauto || lia).
    rewrite Hrows, Nat.eqb_refl. eauto.
Qed.

Lemma nth_error_get_server (self : ApiCall) (s : ApiServer) :
  get_server self = Ok s ->
  nth_error (Call.api_servers self) (api_server_id self) = Some s.
Proof.
  unfold get_server.
  destruct (nth_error (Call.api_servers self) (api_server_id self));
    [congruence | discriminate].
Qed.

Lemma check_batch_answered (api : ApiCall) (s : ApiServer) (labels : list Z)
  (one : nat -> post_outcome) :
  get_server api = Ok s ->
  index api = Some labels ->
  answered one (List.length labels) ->
  exists df tr, check_batch api one = Some (Ok df, tr) /\ df_index df = labels.
Proof.
  intros Hs Hi (k & r & table & Hk & Hfail & Hgot & Huse).
  destruct (call_api_usable api s labels r table Hs Hi Huse) as (df & Hdf & Hl).
  destruct (loop_fail_then_return api s Hs one df k 11 0
              (mkLocals 0 0 Server.sleep_timer Pandas.empty))
    as (tr & Htr & _); cbn [retry_count Nat.add]; try lia.
  - exact Hfail.
  - now rewrite Hgot.
  - exists df, tr. unfold check_batch.
    rewrite (nth_error_get_server api s Hs). auto.
Qed.

Lemma check_batch_exhausted (api : ApiCall) (s : ApiServer)
  (one : nat -> post_outcome) :
  get_server api = Ok s ->
  exhausted one ->
  exists tr, check_batch api one = Some (Ok Pandas.empty, tr).
Proof.
  intros Hs Hx.
  destruct (loop_all_fail api s Hs one 10 11 0
              (mkLocals 0 0 Server.sleep_timer Pandas.empty))
    as (tr & Htr & _); cbn [retry_count Nat.add]; try lia.
  - exact Hx.
  - exists tr. unfold check_batch.
    rewrite (nth_error_get_server api s Hs). exact Htr.
Qed.

Lemma get_server_init (servers : list ApiServer) (sid : nat)
  (fields : list string) (b : batch_data) :
  sid < List.length servers ->
  exists s, get_server (ApiCall_init servers sid fields b) = Ok s.
Proof.
  intros H. unfold get_server, ApiCall_init. cbn.
  destruct (nth_error servers sid) eqn:E; [eauto|].
  apply nth_error_None in E. lia.
Qed.

Section Runs.
Variables (net : nat -> nat -> post_outcome) (ok : nat -> bool).
Variables (servers : list ApiServer) (fields : list string).
Variable sid_of : nat -> nat.

(** The batch at position [i] is either answered or given up. *)
Let settled (i : nat) (b : batch_data) : Prop :=
  sid_of i < List.length servers
  /\ if ok i then answered (net i) (List.length (snd b)) else exhausted (net i).

Let call_at (p : nat * batch_data) : ApiCall :=
  ApiCall_init servers (sid_of (fst p)) fields (snd p).

Let rows_at (p : nat * batch_data) : list Z :=
  if ok (fst p) then snd (snd p) else [].

Lemma settled_run (i : nat) (b : batch_data) :
  settled i b ->
  exists df tr,
    check_batch (call_at (i, b)) (net i) = Some (Ok df, tr)
    /\ df_index df = rows_at (i, b).
Proof.
  intros (Hsid & Hnet). unfold call_at, rows_at. cbn [fst snd].
  destruct (get_server_init servers (sid_of i) fields b Hsid) as (s & Hs).
  destruct (ok i).
  - apply (check_batch_answered _ s); [exact Hs | reflexivity | exact Hnet].
  - destruct (check_batch_exhausted _ s (net i) Hs Hnet) as (tr & Htr).
    exists Pandas.empty, tr. auto.
Qed.

Lemma collect_settled (batches : list batch_data) :
  forall i,
    (forall j b, nth_error batches j = Some b -> settled (i + j) b) ->
    exists dfs,
      collect net i (map call_at (combine (seq i (List.length batches)) batches))
      = Some (Ok dfs)
      /\ map df_index dfs
         = map rows_at (combine (seq i (List.length batches)) batches).
Proof.
  induction batches as [|b rest IH]; intros i H.
  - exists []. auto.
  - destruct (settled_run i b) as (df & tr & Hcb & Hdf).
    { specialize (H 0 b eq_refl). now rewrite Nat.add_0_r in H. }
    destruct (IH (S i)) as (dfs & Hc & Hm).
    { intros j b' Hj. specialize (H (S j) b' Hj).
      now replace (i + S j) with (S i + j) in H by lia. }
    exists (df :: dfs).
    cbn [List.length seq combine map collect].
    rewrite Hcb, Hc. cbn [option_map bind map].
    rewrite Hdf, Hm. auto.
Qed.

Lemma run_serial_settled (batches : list batch_data) :
  forall i,
    (forall j b, nth_error batches j = Some b -> settled (i + j) b) ->
    exists dfs tr,
      run_serial net i
        (map call_at (combine (seq i (List.length batches)) batches))
      = Some (Ok dfs, tr)
      /\ map df_index dfs
         = map rows_at (combine (seq i (List.length batches)) batches).
Proof.
  induction batches as [|b rest IH]; intros i H.
  - exists [], []. auto.
  - destruct (settled_run i b) as (df & tr & Hcb & Hdf).
    { specialize (H 0 b eq_refl). now rewrite Nat.add_0_r in H. }
    destruct (IH (S i)) as (dfs & tr' & Hc & Hm).
    { intros j b' Hj. specialize (H (S j) b' Hj).
      now replace (i + S j) with (S i + j) in H by lia. }
    exists (df :: dfs), (tr ++ tr')%list.
    cbn [List.length seq combine map run_serial].
    rewrite Hcb, Hc. cbn [option_map bind map fst snd].
    rewrite Hdf, Hm. auto.
Qed.

End Runs.

Lemma map_snd_combine_seq {A : Type} (l : list A) :
  forall base, map snd (combine (seq base (List.length l)) l) = l.
Proof.
  induction l as [|a l IH]; intros base; [reflexivity|].
  cbn [List.length seq combine map snd]. now rewrite IH.
Qed.

Lemma combine_seq_map {A : Type} (f : nat -> A) (n : nat) :
  forall base,
    combine (seq base n) (map f (seq base n))
    = map (fun i => (i, f i)) (seq base n).
Proof.
  induction n as [|n IH]; intros base; [reflexivity|].
  cbn [seq map combine]. now rewrite IH.
Qed.

End PipelineFacts.

Module PipelineClaims.

Import Py Pandas Server Call Retry Pipeline.
Import PandasFacts RetryFacts PlanFacts DispatchFacts PipelineFacts Fixtures.

(** [process_chunk] when every batch is either answered or given up: the
    labels of the result are those of the answered batches, in order. *)
Lemma process_chunk_settled
  (net : nat -> nat -> post_outcome) (ok : nat -> bool)
  (multi_thread_mode : bool) (servers : list ApiServer)
  (fields : list string) (batches : list batch_data) :
  0 < List.length servers ->
  0 < List.length batches ->
  (forall j b, nth_error batches j = Some b ->
     if ok j then answered (net j) (List.length (snd b)) else exhausted (net j)) ->
  exists out tr,
    process_chunk net multi_thread_mode servers batches fields
    = Some (Ok out, tr)
    /\ df_index out
       = List.concat
           (map (fun p : nat * batch_data =>
                   if ok (fst p) then snd (snd p) else [])
                (combine (seq 0 (List.length batches)) batches)).
Proof.
  intros HK Hn Hnet.
  assert (Hconcat : forall dfs : list DataFrame,
            map df_index dfs
            = map (fun p : nat * batch_data =>
                     if ok (fst p) then snd (snd p) else [])
                  (combine (seq 0 (List.length batches)) batches) ->
            exists out,
              Pandas.concat dfs = Ok out
              /\ df_index out
                 = List.concat
                     (map (fun p : nat * batch_data =>
                             if ok (fst p) then snd (snd p) else [])
                          (combine (seq 0 (List.length batches)) batches))).
  { intros dfs Hm. rewrite <- Hm, <- flat_map_concat_map.
    destruct dfs as [|df dfs].
    - apply (f_equal (@List.length _)) in Hm.
      rewrite !length_map, length_combine, length_seq in Hm.
      cbn [List.length] in Hm. lia.
    - eexists. split; reflexivity. }
  unfold process_chunk, dispatch.
  destruct (Nat.ltb 1 (List.length servers) || multi_thread_mode).
  - rewrite (assign_outer_round servers fields _ batches 0 HK)
      by (try apply Nat.Div0.mod_0_l; lia).
    cbn [option_map execute].
    destruct (Nat.eqb (Nat.min (List.length batches) MAX_THREADS) 0) eqn:E.
    { apply Nat.eqb_eq in E. unfold MAX_THREADS in E. lia. }
    destruct (collect_settled net ok servers fields
                (fun i => i mod List.length servers) batches 0)
      as (dfs & Hc & Hm).
    { intros j b Hb. split; [apply Nat.mod_upper_bound; lia|].
      exact (Hnet j b Hb). }
    rewrite Hc. cbn [option_map fst snd bind].
    destruct (Hconcat dfs Hm) as (out & Hout & Hi).
    rewrite Hout. eauto.
  - cbn [execute].
    replace (map (ApiCall_init servers 0 fields) batches)
      with (map (fun p : nat * batch_data =>
                   ApiCall_init servers 0 fields (snd p))
                (combine (seq 0 (List.length batches)) batches))
      by (rewrite <- (map_map snd (ApiCall_init servers 0 fields));
          now rewrite map_snd_combine_seq).
    destruct (run_serial_settled net ok servers fields (fun _ => 0) batches 0)
      as (dfs & tr & Hc & Hm).
    { intros j b Hb. split; [exact HK | exact (Hnet j b Hb)]. }
    rewrite Hc. cbn [option_map fst snd bind].
    destruct (Hconcat dfs Hm) as (out & Hout & Hi).
    rewrite Hout. eauto.
Qed.

(** C1 (amended).  For a table with at least one row and an ['api']
    column, a batch size [B > 0] and a pool with at least one endpoint:
    when every batch is either answered (within its ten calls, after
    connection failures only, by a response with one row per request line
    and either fewer than three columns or the columns UDPRN, UPRN and
    Closeness) or given up (its ten calls all fail to connect), the
    pipeline returns a table whose row labels are the labels of the
    answered batches, in batch order, each label as often as the input
    has it; a batch that is given up contributes no rows.  When every
    batch is answered, the row labels of the output are exactly those of
    the input, in order, so the row counts are equal and labels that are
    distinct in the input are distinct in the output. *)
Theorem C1_rows_of_answered_batches
  (net : nat -> nat -> post_outcome) (ini : Settings) (in_df : DataFrame)
  (lines : list string) (ok : nat -> bool) :
  let B := api_batch_size ini in
  let n := (nrows in_df + B - 1) / B in
  let labels := fun i => slice (i * B) (i * B + B) (df_index in_df) in
  0 < B ->
  0 < List.length (Pipeline.api_servers ini) ->
  0 < nrows in_df ->
  lookup "api" (df_columns in_df) = Some lines ->
  (forall i, i < n ->
     if ok i then answered (net i) (List.length (labels i))
     else exhausted (net i)) ->
  exists out tr,
    check_df net ini in_df = Some (Ok out, tr)
    /\ df_index out
       = List.concat (map (fun i => if ok i then labels i else []) (seq 0 n))
    /\ ((forall i, i < n -> ok i = true) ->
        df_index out = df_index in_df
        /\ nrows out = nrows in_df
        /\ (NoDup (df_index in_df) -> NoDup (df_index out))).
Proof.
  cbv zeta. intros HB HK HN Hapi Hnet.
  destruct (ceil_div_bounds (api_batch_size ini) HB (nrows in_df))
    as (Hcov & Hlast & Hle).
  set (B := api_batch_size ini) in *.
  set (n := (nrows in_df + B - 1) / B) in *.
  assert (Hn : 0 < n) by nia.
  set (batch := fun i : nat =>
                  (join Errors.nl (slice (i * B) (i * B + B) lines),
                   slice (i * B) (i * B + B) (df_index in_df))).
  assert (Hplan : plan in_df B = Some (Ok (map batch (seq 0 n), n))).
  { assert (Hloop := plan_loop_batches in_df B lines HB Hapi n
                       (S (nrows in_df)) 0 [] 0 ltac:(lia) Hcov Hlast).
    cbn [Nat.mul Nat.add app] in Hloop. exact Hloop. }
  destruct (process_chunk_settled net ok (multi_threaded_mode ini)
              (Pipeline.api_servers ini) (refiner_output_fields ini)
              (map batch (seq 0 n)))
    as (out & tr & Hrun & Hout).
  { exact HK. }
  { now rewrite length_map, length_seq. }
  { intros j b Hb. rewrite nth_error_map, nth_error_seq in Hb.
    destruct (Nat.ltb j n) eqn:E; [|discriminate].
    apply Nat.ltb_lt in E. cbn [option_map Nat.add] in Hb.
    injection Hb as <-. cbn [batch snd]. exact (Hnet j E). }
  unfold check_df. fold B. rewrite Hplan, Hrun.
  rewrite length_map, length_seq, combine_seq_map, map_map in Hout.
  cbn [fst snd batch] in Hout.
  eexists. eexists. split; [reflexivity|]. split; [exact Hout|].
  intros Hall.
  assert (Hsame : df_index out = df_index in_df).
  { rewrite Hout.
    rewrite (map_ext_in _ (fun i => slice (i * B) (i * B + B) (df_index in_df))).
    - rewrite (concat_slices B (df_index in_df) n 0) by exact Hcov.
      reflexivity.
    - intros i Hi. apply in_seq in Hi. rewrite Hall by lia. reflexivity. }
  split; [exact Hsame|]. split.
  - unfold nrows. now rewrite Hsame.
  - now rewrite Hsame.
Qed.

Lemma C1_rows_of_answered_batches_witness :
  exists out tr,
    check_df net_up ini_serial input_two = Some (Ok out, tr)
    /\ df_index out = [0; 1]%Z.
Proof.
  destruct (C1_rows_of_answered_batches net_up ini_serial input_two
              ["x"; "y"] (fun _ => true))
    as (out & tr & Hrun & _ & Hall).
  - cbn. lia.
  - cbn. lia.
  - cbn. lia.
  - reflexivity.
  - intros i Hi. exists 0, "", one_row_table.
    split; [lia|]. split; [intros j Hj; lia|]. split; [reflexivity|].
    split.
    + change ((nrows input_two + api_batch_size ini_serial - 1)
              / api_batch_size ini_serial) with 2 in Hi.
      destruct i as [|[|i]]; [reflexivity | reflexivity | lia].
    + right. cbn. do 3 eexists. repeat split; reflexivity.
  - exists out, tr. split; [exact Hrun|].
    destruct Hall as (Hsame & _); [reflexivity | exact Hsame].
Defined.

(** Two batches of one row; the connection fails at every call for the
    second.  The pipeline returns a table with the row of the first batch
    only: the row labelled 1 has no counterpart in the output. *)
Lemma C1_counterexample :
  exists out tr,
    check_df net_second_down ini_serial input_two = Some (Ok out, tr)
    /\ df_index input_two = [0; 1]%Z
    /\ df_index out = [0%Z]
    /\ nrows out <> nrows input_two.
Proof.
  eexists. eexists. split; [vm_compute; reflexivity|].
  split; [reflexivity|]. split; [reflexivity|]. vm_compute. lia.
Qed.

(** C7.  On a table without rows the planning loop produces no batch, and
    [process_chunk] then raises [ValueError]: from [pd.concat] of an empty
    list in the serial branch, from a thread pool of size 0 in the other. *)
Theorem C7_empty_dataset_raises
  (net : nat -> nat -> post_outcome) (ini : Settings)
  (cols : list (string * list string)) :
  plan (mkFrame [] cols) (api_batch_size ini) = Some (Ok ([], 0))
  /\ exists msg tr,
       check_df net ini (mkFrame [] cols) = Some (Raise (ValueError msg), tr).
Proof.
  split; [reflexivity|].
  unfold check_df. cbn [plan plan_loop nrows df_index List.length Nat.ltb Nat.leb].
  unfold process_chunk, dispatch.
  destruct (Nat.ltb 1 (List.length (Pipeline.api_servers ini))
            || multi_threaded_mode ini); cbn; eauto.
Qed.

End PipelineClaims.

(** ** Building the pool *)

Module ServerFacts.

Import Errors Server.

Section Construction.
Variable http_get : string -> get_outcome.
Variables (multi : bool) (fields : option (list string)).

Lemma ApiServer_init_working (si : server_info) :
  startup_check http_get si fields "json" = Ok "Working" ->
  exists s ev,
    ApiServer_init http_get (si_name si) (si_host si) (si_licence si)
      (si_password si) multi fields "json" = (Ok s, ev)
    /\ name s = si_name si
    /\ init_result s = "Working"
    /\ online s = true.
Proof.
  intros H. destruct si as [n h l p]. cbn [si_name si_host si_licence si_password].
  unfold ApiServer_init. rewrite H. cbn.
  eexists. eexists. split; [reflexivity|]. auto.
Qed.

Lemma ApiServer_init_not_working (si : server_info) (msg : string) :
  startup_check http_get si fields "json" = Ok msg ->
  msg <> "Working" ->
  ApiServer_init http_get (si_name si) (si_host si) (si_licence si)
    (si_password si) multi fields "json"
  = (Raise (ApiSetupError "API Settings Error" (Joined [msg])),
     [EvGet (call_url
               (make_uri_stem
                  (root_format (si_host si) (si_licence si) (si_password si))
                  "json" fields))]).
Proof.
  intros H Hmsg. destruct si as [n h l p].
  cbn [si_name si_host si_licence si_password].
  unfold ApiServer_init. rewrite H.
  apply String.eqb_neq in Hmsg. rewrite Hmsg. reflexivity.
Qed.

Lemma ApiServer_init_ok (si : server_info) (s : ApiServer) (ev : list event) :
  ApiServer_init http_get (si_name si) (si_host si) (si_licence si)
    (si_password si) multi fields "json" = (Ok s, ev) ->
  startup_check http_get si fields "json" = Ok "Working"
  /\ name s = si_name si
  /\ init_result s = "Working"
  /\ online s = true.
Proof.
  destruct si as [n h l p]. cbn [si_name si_host si_licence si_password].
  unfold ApiServer_init.
  destruct (startup_check http_get (mkInfo n h l p) fields "json")
    as [msg|e]; [|discriminate].
  destruct (String.eqb msg "Working") eqn:E; cbn [negb].
  - apply String.eqb_eq in E. subst msg.
    intros H. injection H as <- _. auto.
  - destruct msg; discriminate.
Qed.

Lemma get_apis_loop_working (infos : list server_info) :
  forall acc,
    (forall si, In si infos ->
       startup_check http_get si fields "json" = Ok "Working") ->
    exists pool ev,
      get_apis_loop http_get multi fields infos acc = (Ok (acc ++ pool)%list, ev)
      /\ map name pool = map si_name infos
      /\ Forall (fun s => init_result s = "Working" /\ online s = true) pool.
Proof.
  induction infos as [|si rest IH]; intros acc H.
  - exists [], []. cbn. rewrite app_nil_r. auto.
  - destruct (ApiServer_init_working si (H si (or_introl eq_refl)))
      as (s & ev & Hs & Hn & Hr & Ho).
    destruct (IH (acc ++ [s])%list) as (pool & ev' & Hl & Hm & Hf).
    { intros si' Hin. apply H. now right. }
    exists (s :: pool), (ev ++ ev')%list.
    cbn [get_apis_loop]. rewrite Hs, Ho, Hl, <- app_assoc. cbn.
    split; [reflexivity|]. split; [now rewrite Hn, Hm | now constructor].
Qed.

Lemma get_apis_loop_first_bad (good : list server_info) :
  forall acc bad rest msg,
    (forall si, In si good ->
       startup_check http_get si fields "json" = Ok "Working") ->
    startup_check http_get bad fields "json" = Ok msg ->
    msg <> "Working" ->
    exists pool ev,
      get_apis_loop http_get multi fields good acc = (Ok pool, ev)
      /\ get_apis_loop http_get multi fields (good ++ bad :: rest) acc
         = (Raise (ApiSetupError "API Settings Error" (Joined [msg])),
            (ev ++ [EvGet (call_url
                             (make_uri_stem
                                (root_format (si_host bad) (si_licence bad)
                                             (si_password bad))
                                "json" fields))])%list).
Proof.
  induction good as [|si good IH]; intros acc bad rest msg Hgood Hbad Hmsg.
  - exists acc, []. cbn [get_apis_loop app].
    rewrite (ApiServer_init_not_working bad msg Hbad Hmsg). auto.
  - destruct (ApiServer_init_working si (Hgood si (or_introl eq_refl)))
      as (s & ev & Hs & Hn & Hr & Ho).
    destruct (IH (acc ++ [s])%list bad rest msg) as (pool & ev' & Hl & Hb);
      try assumption.
    { intros si' Hin. apply Hgood. now right. }
    exists pool, (ev ++ ev')%list.
    cbn [get_apis_loop app]. rewrite Hs, Ho, Hl, Hb.
    now rewrite app_assoc.
Qed.

Lemma get_apis_loop_ok (infos : list server_info) :
  forall acc pool ev,
    get_apis_loop http_get multi fields infos acc = (Ok pool, ev) ->
    (forall si, In si infos ->
       startup_check http_get si fields "json" = Ok "Working")
    /\ exists added,
         pool = (acc ++ added)%list
         /\ map name added = map si_name infos
         /\ Forall (fun s => init_result s = "Working") added.
Proof.
  induction infos as [|si rest IH]; intros acc pool ev H.
  - cbn in H. injection H as <- _. split; [intros si []|].
    exists []. rewrite app_nil_r. auto.
  - cbn [get_apis_loop] in H.
    destruct (ApiServer_init http_get (si_name si) (si_host si) (si_licence si)
                (si_password si) multi fields "json") as [[s|e] ev0] eqn:E;
      [|discriminate].
    destruct (ApiServer_init_ok si s ev0 E) as (Hc & Hn & Hr & Ho).
    rewrite Ho in H.
    destruct (get_apis_loop http_get multi fields rest (acc ++ [s])%list)
      as [r ev1] eqn:E1.
    injection H as -> _.
    destruct (IH _ _ _ E1) as (Hall & added & -> & Hm & Hf).
    split.
    + intros si' [<- | Hin]; [exact Hc | now apply Hall].
    + exists (s :: added). rewrite <- app_assoc. cbn.
      split; [reflexivity|]. split; [now rewrite Hn, Hm | now constructor].
Qed.

End Construction.

End ServerFacts.

Module ServerClaims.

Import Errors Server ServerFacts Fixtures.

(** C4 (amended).  Pool construction ([get_apis], and [Config.set_apis],
    which is the same code) verifies the servers in order.  A server whose
    verification returns anything other than 'Working' is fatal: its
    constructor raises [ApiSetupError] ("API Settings Error", with the
    verification message as description), nothing is logged for it, the
    servers after it are not contacted and no pool is returned.  A pool is
    returned exactly when every server verifies as 'Working'; it then holds
    all of them, in order, and every endpoint in it carries the
    verification result 'Working'. *)
Theorem C4_pool_construction
  (http_get : string -> get_outcome) (infos : list server_info)
  (fields : option (list string)) :
  let multi := Nat.ltb 1 (List.length infos) in
  (forall good bad rest msg,
     infos = (good ++ bad :: rest)%list ->
     (forall si, In si good ->
        startup_check http_get si fields "json" = Ok "Working") ->
     startup_check http_get bad fields "json" = Ok msg ->
     msg <> "Working" ->
     exists pool ev,
       get_apis_loop http_get multi fields good [] = (Ok pool, ev)
       /\ get_apis http_get infos fields
          = (Raise (ApiSetupError "API Settings Error" (Joined [msg])),
             (ev ++ [EvGet (call_url
                              (make_uri_stem
                                 (root_format (si_host bad) (si_licence bad)
                                              (si_password bad))
                                 "json" fields))])%list))
  /\ ((forall si, In si infos ->
         startup_check http_get si fields "json" = Ok "Working") ->
      exists pool ev,
        get_apis http_get infos fields = (Ok pool, ev)
        /\ map name pool = map si_name infos
        /\ Forall (fun s => init_result s = "Working" /\ online s = true) pool)
  /\ (forall pool ev,
        get_apis http_get infos fields = (Ok pool, ev) ->
        (forall si, In si infos ->
           startup_check http_get si fields "json" = Ok "Working")
        /\ map name pool = map si_name infos
        /\ Forall (fun s => init_result s = "Working") pool).
Proof.
  cbv zeta. unfold get_apis. split; [|split].
  - intros good bad rest msg -> Hgood Hbad Hmsg.
    apply get_apis_loop_first_bad; assumption.
  - intros Hall.
    destruct (get_apis_loop_working http_get
                (Nat.ltb 1 (List.length infos)) fields infos [] Hall)
      as (pool & ev & H & Hm & Hf).
    exists pool, ev. auto.
  - intros pool ev H.
    destruct (get_apis_loop_ok http_get _ fields infos [] pool ev H)
      as (Hall & added & -> & Hm & Hf).
    auto.
Qed.

Lemma C4_pool_construction_witness :
  exists pool ev,
    get_apis http_all_up [info_A; info_B] None = (Ok pool, ev)
    /\ map name pool = ["A"; "B"].
Proof.
  destruct (C4_pool_construction http_all_up [info_A; info_B] None)
    as (_ & H & _).
  destruct H as (pool & ev & Hp & Hm & _).
  - intros si [<- | [<- | []]]; reflexivity.
  - exists pool, ev. split; assumption.
Defined.

(** Two servers, of which the second does not answer: pool construction
    raises, it does not return a pool holding the first. *)
Lemma C4_counterexample :
  startup_check http_one_up info_A None "json" = Ok "Working"
  /\ startup_check http_one_up info_B None "json"
     = Ok "B Not Responding - Check the host port number"
  /\ fst (get_apis http_one_up [info_A; info_B] None)
     = Raise (ApiSetupError "API Settings Error"
                (Joined ["B Not Responding - Check the host port number"]))
  /\ ~ (exists pool, fst (get_apis http_one_up [info_A; info_B] None) = Ok pool).
Proof.
  split; [reflexivity|]. split; [reflexivity|]. split; [reflexivity|].
  intros (pool & H). vm_compute in H. discriminate.
Qed.

End ServerClaims.

(** ** The immutable containers *)

Module ConfigFacts.

Import Server Config.

(** A use of [ini.api_servers] through a method the class defines, a read
    or a plain assignment leaves the configuration as it was. *)
Lemma use_guarded (ini : Config) (u : api_servers_use) :
  guarded u = true -> snd (use_api_servers ini u) = ini.
Proof.
  destruct ini as [settings servers mode].
  destruct u as [c | v | iterable | n]; cbn [guarded]; intros H;
    try discriminate; [|reflexivity].
  destruct c; cbn in H; try discriminate; reflexivity.
Qed.

Lemma uses_guarded (us : list api_servers_use) :
  forall ini, Forall (fun u => guarded u = true) us -> uses ini us = ini.
Proof.
  unfold uses. induction us as [|u us IH]; intros ini H; [reflexivity|].
  inversion H as [|? ? Hu Hus]; subst.
  cbn [fold_left]. rewrite (use_guarded ini u Hu). apply IH. exact Hus.
Qed.

(** Only the other uses count. *)
Lemma uses_filter (us : list api_servers_use) :
  forall ini,
    uses ini us = uses ini (filter (fun u => negb (guarded u)) us).
Proof.
  unfold uses. induction us as [|u us IH]; intros ini; [reflexivity|].
  cbn [fold_left filter].
  destruct (guarded u) eqn:Hu; cbn [negb fold_left].
  - rewrite (use_guarded ini u Hu). apply IH.
  - apply IH.
Qed.

Lemma In_insert_by {A : Type} (key : A -> Z) (x y : A) (l : list A) :
  In x (insert_by key y l) <-> x = y \/ In x l.
Proof.
  induction l as [|z r IH]; cbn [insert_by].
  - cbn. intuition.
  - destruct (key y <=? key z)%Z; cbn [In] in *; intuition.
Qed.

Lemma In_sort_by {A : Type} (key : A -> Z) (x : A) (l : list A) :
  In x (sort_by key l) <-> In x l.
Proof.
  unfold sort_by. induction l as [|y r IH]; cbn [fold_right]; [reflexivity|].
  rewrite In_insert_by, IH. cbn [In]. intuition.
Qed.

Lemma list_mul_nonpositive {A : Type} (l : list A) (n : Z) :
  (n <= 0)%Z -> list_mul l n = [].
Proof.
  intros H. unfold list_mul.
  replace (Z.to_nat n) with 0 by lia. reflexivity.
Qed.

Lemma dict_lookup_set {V : Type} (key : string) (value : V)
  (d : list (string * V)) :
  dict_lookup key (dict_set key value d) = Some value.
Proof.
  induction d as [|[k v] rest IH]; cbn [dict_set dict_lookup].
  - now rewrite String.eqb_refl.
  - destruct (String.eqb k key) eqn:E; cbn [dict_lookup]; rewrite E;
      [reflexivity | exact IH].
Qed.

End ConfigFacts.

Module ConfigClaims.

Import Server Config ConfigFacts Fixtures.




End ConfigClaims.

(** ** The start-up verification *)

Module CheckFacts.

Import Py Errors Server Verification PyFacts ServerFacts.

Lemma has_char_append (c : ascii) (s t : string) :
  has_char c (s ++ t) = has_char c s || has_char c t.
Proof.
  induction s as [|d s IH]; simpl; [reflexivity|].
  rewrite IH. apply orb_assoc.
Qed.

Lemma longer_than_working (a b : string) :
  7 < String.length b -> (a ++ b)%string <> "Working".
Proof.
  intros H E. apply (f_equal String.length) in E.
  rewrite length_append in E. simpl in E. lia.
Qed.

(** The only entry of the table that says 'Working' is '200'. *)
Lemma result_table_working (name NA key : string) :
  NA <> "Working" ->
  result_table name NA key = Some "Working" -> key = "200".
Proof.
  intros HNA. unfold result_table.
  destruct (String.eqb key "200") eqn:E; [now apply String.eqb_eq in E|].
  destruct (String.eqb key "-1"); [discriminate|].
  destruct (String.eqb key "-7").
  { intros H. injection H as H. now apply longer_than_working in H; [|simpl; lia]. }
  destruct (String.eqb key "H1").
  { intros H. injection H as H. now apply longer_than_working in H; [|simpl; lia]. }
  destruct (String.eqb key "H2").
  { intros H. injection H as H. now apply longer_than_working in H; [|simpl; lia]. }
  destruct (String.eqb key "S1").
  { discriminate. }
  destruct (String.eqb key "NA"); [|discriminate].
  intros H. injection H as H. contradiction.
Qed.

Lemma NA_message_not_working (name : string) : NA_message name <> "Working".
Proof. apply longer_than_working. simpl. lia. Qed.

Lemma prefix_urc (s : string) :
  String.prefix "[urc]" s = true -> exists t, s = ("[urc]" ++ t)%string.
Proof.
  intros H. apply String.prefix_correct in H.
  destruct s as [|c1 [|c2 [|c3 [|c4 [|c5 t]]]]]; try discriminate.
  simpl in H. injection H as -> -> -> -> -> _.
  exists t. reflexivity.
Qed.

(** A space that lies after the characters still to be skipped survives
    the replacement of ['[urc]']. *)
Lemma space_survives_replace (new s : string) :
  forall skip,
    has_char " " (drop skip s) = true ->
    has_char " " (replace_from "[urc]" new s skip) = true.
Proof.
  induction s as [|c r IH]; intros skip H.
  - destruct skip; discriminate.
  - destruct skip as [|k].
    + cbn [replace_from].
      destruct (String.prefix "[urc]" (String c r)) eqn:E.
      * destruct (prefix_urc _ E) as (t & Ht).
        injection Ht as -> ->.
        rewrite has_char_append. apply orb_true_iff. right.
        apply IH. exact H.
      * cbn [drop has_char] in H |- *.
        destruct (Ascii.eqb c " "); [reflexivity|].
        apply (IH 0). exact H.
    + cbn [replace_from]. apply IH. exact H.
Qed.

Lemma replaced_not_working (name code : string) :
  replace "[urc]" code (NA_message name) <> "Working".
Proof.
  intros E.
  assert (H : has_char " " (replace "[urc]" code (NA_message name)) = true).
  { apply space_survives_replace. cbn [drop]. unfold NA_message.
    rewrite has_char_append. apply orb_true_iff. right. reflexivity. }
  rewrite E in H. discriminate.
Qed.

Lemma is_key_get (name NA key : string) :
  is_key name key = true -> exists v, table_get name NA key = Ok v.
Proof.
  unfold is_key, table_get, result_table.
  repeat match goal with
         | |- context [if String.eqb key ?k then _ else _] =>
             destruct (String.eqb key k); [eauto|]
         end.
  discriminate.
Qed.

Lemma check_api_200 (name : string) (response : get_outcome) :
  code_is_200 response -> check_api name response = Ok "Working".
Proof.
  intros (rc & r & -> & H). unfold check_api. rewrite H. reflexivity.
Qed.

Lemma check_api_working_inv (name : string) (response : get_outcome) :
  check_api name response = Ok "Working" -> code_is_200 response.
Proof.
  unfold check_api. destruct response as [| | | rc r | e].
  - intros H. injection H as H. now apply longer_than_working in H; [|simpl; lia].
  - intros H. injection H as H. now apply longer_than_working in H; [|simpl; lia].
  - discriminate.
  - intros H. exists rc, r. split; [reflexivity|].
    destruct (is_key name (py_str (if truthy rc then rc else r))) eqn:K.
    + unfold table_get in H.
      destruct (result_table name (NA_message name)
                  (py_str (if truthy rc then rc else r))) as [v|] eqn:T;
        [|discriminate].
      injection H as ->.
      exact (result_table_working _ _ _ (NA_message_not_working name) T).
    + destruct (if truthy rc then rc else r) as [| z | code]; try discriminate.
      unfold table_get in H. cbn in H. injection H as H.
      now apply replaced_not_working in H.
  - discriminate.
Qed.

End CheckFacts.

Module CheckExtras.

Import Py Errors Server Verification PyFacts ServerFacts CheckFacts Fixtures.

(** X1.  [check_api] answers 'Working' exactly when the verification
    request is answered with JSON whose result code reads '200': no
    server name and no other code, known or unknown, produces it. *)
Theorem X1_check_api_working_iff_200 (name : string) (response : get_outcome) :
  check_api name response = Ok "Working" <-> code_is_200 response.
Proof.
  split; [apply check_api_working_inv | apply check_api_200].
Qed.

Lemma X1_check_api_working_iff_200_witness :
  check_api "A" (GetJson JNone (JInt 200)) = Ok "Working".
Proof.
  apply (proj2 (X1_check_api_working_iff_200 "A" (GetJson JNone (JInt 200)))).
  exists JNone, (JInt 200). split; reflexivity.
Defined.

(** X2.  [check_api] raises in two cases only: the request raised
    something other than a connection or JSON error, which is passed on;
    or the result code is not in the table and is not a string (a number
    such as 404, or no code at all), where [str.replace] raises
    [TypeError].  In both cases it does raise, and the final lookup in the
    table never raises [KeyError]. *)
Theorem X2_check_api_raises (name : string) (response : get_outcome) :
  (forall e,
     check_api name response = Raise e ->
     (exists x, response = GetOtherError x /\ e = OtherError x)
     \/ (exists rc r msg,
           response = GetJson rc r
           /\ is_key name (py_str (if truthy rc then rc else r)) = false
           /\ (forall s, (if truthy rc then rc else r) <> JStr s)
           /\ e = TypeError msg))
  /\ (forall rc r,
        response = GetJson rc r ->
        is_key name (py_str (if truthy rc then rc else r)) = false ->
        (forall s, (if truthy rc then rc else r) <> JStr s) ->
        exists msg, check_api name response = Raise (TypeError msg))
  /\ (forall x, response = GetOtherError x ->
                check_api name response = Raise (OtherError x)).
Proof.
  assert (Hget : forall NA key, is_key name key = true ->
                   forall e', table_get name NA key <> Raise e').
  { intros NA key K e' H. destruct (is_key_get name NA key K) as (v & Hv).
    congruence. }
  split; [|split].
  - intros e. unfold check_api. destruct response as [| | | rc r | x].
    + intros H. now apply Hget in H.
    + intros H. now apply Hget in H.
    + intros H. now apply Hget in H.
    + intros H. right. exists rc, r.
      destruct (is_key name (py_str (if truthy rc then rc else r))) eqn:K.
      { now apply Hget in H. }
      destruct (if truthy rc then rc else r) as [| z | code].
      * injection H as <-. eexists. repeat split; discriminate.
      * injection H as <-. eexists. repeat split; discriminate.
      * now apply Hget in H.
    + intros H. injection H as <-. left. eauto.
  - intros rc r -> K Hs. unfold check_api. rewrite K.
    destruct (if truthy rc then rc else r) as [| z | code]; eauto.
    now destruct (Hs code).
  - intros x ->. reflexivity.
Qed.

Lemma X2_check_api_raises_witness :
  exists msg, check_api "A" (GetJson (JInt 404) JNone) = Raise (TypeError msg).
Proof.
  destruct (X2_check_api_raises "A" (GetJson (JInt 404) JNone)) as (_ & H & _).
  apply (H (JInt 404) JNone); [reflexivity | reflexivity | discriminate].
Defined.

(** X3.  [get_apis] returns a pool exactly when the verification request
    of every configured server is answered with result code '200'; the
    pool then holds one endpoint per configured server, in order. *)
Theorem X3_pool_iff_all_200
  (http_get : string -> get_outcome) (infos : list server_info)
  (fields : option (list string)) :
  ((exists pool ev, get_apis http_get infos fields = (Ok pool, ev))
   <-> (forall si, In si infos -> code_is_200 (http_get (check_url si fields))))
  /\ (forall pool ev,
        get_apis http_get infos fields = (Ok pool, ev) ->
        map name pool = map si_name infos).
Proof.
  split; [split|].
  - intros (pool & ev & H) si Hin.
    destruct (get_apis_loop_ok http_get _ fields infos [] pool ev H)
      as (Hall & _).
    apply (check_api_working_inv (si_name si)). exact (Hall si Hin).
  - intros Hall.
    destruct (get_apis_loop_working http_get
                (Nat.ltb 1 (List.length infos)) fields infos [])
      as (pool & ev & H & _).
    { intros si Hin. apply check_api_200. exact (Hall si Hin). }
    exists pool, ev. exact H.
  - intros pool ev H.
    destruct (get_apis_loop_ok http_get _ fields infos [] pool ev H)
      as (_ & added & -> & Hm & _).
    exact Hm.
Qed.

Lemma X3_pool_iff_all_200_witness :
  exists pool ev, get_apis http_all_up [info_A; info_B] None = (Ok pool, ev).
Proof.
  apply (proj2 (proj1 (X3_pool_iff_all_200 http_all_up [info_A; info_B] None))).
  intros si _. exists (JInt 200), JNone. split; reflexivity.
Defined.

End CheckExtras.

(** ** Rotation over the pool *)

Module RotationExtras.

Import Server Call Rotation MoreFixtures.

Lemma next_id (K id : nat) :
  id < K ->
  (if Nat.leb K (S id) then 0 else S id) = (S id) mod K.
Proof.
  intros H. destruct (Nat.leb K (S id)) eqn:E.
  - apply Nat.leb_le in E. replace (S id) with K by lia.
    symmetry. apply Nat.Div0.mod_same.
  - apply Nat.leb_gt in E. symmetry. now apply Nat.mod_small.
Qed.

Lemma switches_position (self : ApiCall) (n : nat) :
  api_server_id self < List.length (api_servers self) ->
  switches n self
  = mkApiCall (api_servers self)
              ((api_server_id self + n) mod List.length (api_servers self))
              (out_fields self) (data self) (first_row self) (index self).
Proof.
  intros H. induction n as [|n IH].
  - rewrite Nat.add_0_r, Nat.mod_small by exact H. now destruct self.
  - cbn [switches]. rewrite IH.
    unfold get_server_switch.
    cbn [snd api_servers api_server_id out_fields data first_row index].
    f_equal. rewrite next_id by (apply Nat.mod_upper_bound; lia).
    replace (api_server_id self + S n) with ((api_server_id self + n) + 1) by lia.
    rewrite <- (Nat.Div0.add_mod_idemp_l (api_server_id self + n) 1).
    f_equal. lia.
Qed.

(** X4.  [get_server(switch=True)] walks the pool in rotation: from a
    valid position [i] in a pool of [K] endpoints, [n] switches lead to
    position [(i + n) mod K], where the endpoint is found (no
    [IndexError]); nothing else of the call changes, and [K] switches lead
    back to the call as it was. *)
Theorem X4_switch_rotates (self : ApiCall) (n : nat) :
  api_server_id self < List.length (api_servers self) ->
  let K := List.length (api_servers self) in
  api_server_id (switches n self) = (api_server_id self + n) mod K
  /\ nth_error (api_servers self) ((api_server_id self + n) mod K)
     = Some (nth ((api_server_id self + n) mod K) (api_servers self)
                 (mkApiServer "" "" "" false "" false))
  /\ fst (get_server_switch (switches n self) true)
     = Ok (nth ((api_server_id self + S n) mod K) (api_servers self)
               (mkApiServer "" "" "" false "" false))
  /\ api_servers (switches n self) = api_servers self
  /\ data (switches n self) = data self
  /\ index (switches n self) = index self
  /\ switches K self = self.
Proof.
  intros H. cbv zeta.
  assert (Hpos : forall m,
            (api_server_id self + m) mod List.length (api_servers self)
            < List.length (api_servers self))
    by (intros m; apply Nat.mod_upper_bound; lia).
  rewrite (switches_position self n H).
  cbn [api_server_id api_servers data index].
  split; [reflexivity|]. split; [now apply nth_error_nth'|]. split.
  - pose proof (switches_position self (S n) H) as HS.
    cbn [switches] in HS.
    rewrite (switches_position self n H) in HS.
    unfold get_server_switch in HS |- *. cbn [fst snd] in HS |- *.
    rewrite HS. unfold get_server. cbn [api_servers api_server_id].
    now rewrite (nth_error_nth' _ (mkApiServer "" "" "" false "" false) (Hpos (S n))).
  - split; [reflexivity|]. split; [reflexivity|]. split; [reflexivity|].
    rewrite (switches_position self _ H).
    rewrite <- (Nat.Div0.add_mod_idemp_r (api_server_id self)), Nat.Div0.mod_same.
    rewrite Nat.add_0_r, Nat.mod_small by exact H. now destruct self.
Qed.

Lemma X4_switch_rotates_witness :
  api_server_id (switches 2 call_on_pool) = 0
  /\ switches 3 call_on_pool = call_on_pool.
Proof.
  destruct (X4_switch_rotates call_on_pool 2) as (H1 & _ & _ & _ & _ & _ & H3).
  - cbn. lia.
  - split; [exact H1 | exact H3].
Defined.

End RotationExtras.

(** ** What [call_api] keeps *)

Module CallMoreFacts.

Import Py Pandas Errors Server Call Shape PyFacts PandasFacts CallFacts CheckFacts.

Lemma has_char_drop (c : ascii) (k : nat) :
  forall s, has_char c s = false -> has_char c (drop k s) = false.
Proof.
  induction k as [|k IH]; intros s H; [exact H|].
  destruct s as [|d s]; [reflexivity|].
  cbn [drop]. apply IH. cbn [has_char] in H.
  now apply orb_false_iff in H.
Qed.

Lemma has_char_last_chars (c : ascii) (n : nat) (s : string) :
  has_char c s = false -> has_char c (last_chars n s) = false.
Proof.
  intros H. unfold last_chars. destruct n; [exact H|].
  now apply has_char_drop.
Qed.

Lemma has_char_split_head (c : ascii) (s : string) :
  has_char c (split_head c s) = false.
Proof.
  induction s as [|d s IH]; [reflexivity|].
  cbn [split_head]. destruct (Ascii.eqb d c) eqn:E; [reflexivity|].
  cbn [has_char]. now rewrite E, IH.
Qed.

(** A value of [n] characters without ['.'] is left alone by the padding
    to [n]. *)
Lemma pad_fixed (n : nat) (x : string) :
  0 < n -> String.length x = n -> has_char "." x = false ->
  last_chars n (replicate n "0" ++ split_head "." x) = x.
Proof.
  intros Hn Hl Hd. rewrite (split_head_no_sep _ _ Hd).
  rewrite last_chars_pad by lia. now rewrite Hl, Nat.sub_diag.
Qed.

Lemma map_fst_replace_present {C : Type} (name : string) (vs old : list C)
  (cols : list (string * list C)) :
  lookup name cols = Some old ->
  map fst (replace_col name vs cols) = map fst cols.
Proof.
  induction cols as [|[n o] cols IH]; cbn [lookup replace_col];
    [discriminate|].
  destruct (String.eqb n name); [reflexivity|].
  intros H. cbn [map fst]. now rewrite IH.
Qed.

(** What [normalise] does when it goes through. *)
Lemma normalise_done (batch b : DataFrame) :
  normalise batch = Done b ->
  exists us ps cs,
    lookup "UDPRN" (df_columns batch) = Some us
    /\ lookup "UPRN" (df_columns batch) = Some ps
    /\ lookup "Closeness" (df_columns batch) = Some cs
    /\ b = set_col "Closeness" (map norm_Closeness cs)
             (set_col "UPRN" (map norm_UPRN ps)
                (set_col "UDPRN" (map norm_UDPRN us) batch)).
Proof.
  unfold normalise, apply_col, get_col.
  destruct (lookup "UDPRN" (df_columns batch)) as [us|] eqn:Hu;
    cbn [bind]; [|discriminate].
  cbn [set_col df_columns].
  rewrite lookup_replace_other by discriminate.
  destruct (lookup "UPRN" (df_columns batch)) as [ps|] eqn:Hp;
    cbn [bind]; [|discriminate].
  cbn [set_col df_columns].
  rewrite lookup_replace_other by discriminate.
  rewrite lookup_replace_other by discriminate.
  destruct (lookup "Closeness" (df_columns batch)) as [cs|] eqn:Hc;
    cbn [bind]; [|discriminate].
  intros H. injection H as <-. exists us, ps, cs. auto.
Qed.

(** What a call that returns has done. *)
Lemma call_api_returns (self : ApiCall) (r_out : string)
  (table b : DataFrame) :
  fst (call_api self (PostTable r_out table)) = Ok b ->
  exists b0,
    fill (out_fields self) table = Done b0
    /\ df_columns b = df_columns b0
    /\ match index self with
       | None => df_index b = df_index b0
       | Some labels =>
           df_index b = labels
           /\ (ncols b0 = 0 \/ List.length labels = nrows b0)
       end.
Proof.
  unfold call_api. destruct (get_server self) as [s|e]; [|discriminate].
  destruct (fill (out_fields self) table) as [b0|b0]; [|discriminate].
  destruct (index self) as [labels|]; cbn [fst].
  - unfold set_index.
    destruct (Nat.eqb (ncols b0) 0) eqn:E0; cbn [orb].
    + intros H. injection H as <-. exists b0.
      apply Nat.eqb_eq in E0. auto.
    + destruct (Nat.eqb (List.length labels) (nrows b0)) eqn:E1;
        [|discriminate].
      intros H. injection H as <-. exists b0.
      apply Nat.eqb_eq in E1. auto.
  - intros H. injection H as <-. exists b0. auto.
Qed.

Lemma lookup_blank_fields (name : string) (fs : list string) :
  forall batch : DataFrame,
    lookup name (df_columns (blank_fields fs batch))
    = if existsb (String.eqb name) fs
      then Some (repeat "" (nrows batch))
      else lookup name (df_columns batch).
Proof.
  unfold blank_fields.
  induction fs as [|f fs IH]; intros batch; [reflexivity|].
  cbn [fold_left existsb]. rewrite IH.
  destruct (existsb (String.eqb name) fs).
  - now rewrite orb_true_r.
  - rewrite orb_false_r. unfold set_col_scalar, set_col. cbn [df_columns].
    destruct (String.eqb name f) eqn:E.
    + apply String.eqb_eq in E. subst f. apply lookup_replace_same.
    + apply lookup_replace_other. now apply String.eqb_neq.
Qed.

Lemma well_formed_lookup {C : Type} (df : Frame C) (name : string)
  (vs : list C) :
  well_formed df = true ->
  lookup name (df_columns df) = Some vs ->
  List.length vs = nrows df.
Proof.
  unfold well_formed. generalize (nrows df) as m.
  induction (df_columns df) as [|[n o] cols IH]; intros m Hw Hl;
    [discriminate|].
  cbn [forallb snd] in Hw. apply andb_true_iff in Hw as [H1 H2].
  cbn [lookup] in Hl. destruct (String.eqb n name).
  - injection Hl as <-. now apply Nat.eqb_eq.
  - now apply IH.
Qed.

Lemma well_formed_set_col {C : Type} (df : Frame C) (name : string)
  (vs : list C) :
  well_formed df = true ->
  List.length vs = nrows df ->
  well_formed (set_col name vs df) = true.
Proof.
  unfold well_formed, set_col, nrows. cbn [df_index df_columns].
  generalize (List.length (df_index df)) as m. intros m Hw Hl.
  induction (df_columns df) as [|[n o] cols IH]; cbn [replace_col forallb snd].
  - rewrite Hl, Nat.eqb_refl. reflexivity.
  - cbn [forallb snd] in Hw. apply andb_true_iff in Hw as [H1 H2].
    destruct (String.eqb n name); cbn [forallb snd].
    + now rewrite Hl, Nat.eqb_refl, H2.
    + now rewrite H1, IH.
Qed.

Lemma well_formed_blank_fields (fs : list string) :
  forall batch : DataFrame,
    well_formed batch = true -> well_formed (blank_fields fs batch) = true.
Proof.
  unfold blank_fields.
  induction fs as [|f fs IH]; intros batch H; [exact H|].
  cbn [fold_left]. apply IH. apply well_formed_set_col; [exact H|].
  apply repeat_length.
Qed.

Lemma well_formed_fill (out_fields : list string) (table b0 : DataFrame) :
  well_formed table = true ->
  fill out_fields table = Done b0 ->
  well_formed b0 = true /\ nrows b0 = nrows table.
Proof.
  intros Hw. unfold fill. destruct (Nat.ltb 2 (ncols table)).
  - intros H. destruct (normalise_done table b0 H)
      as (us & ps & cs & Hu & Hp & Hc & ->).
    split; [|reflexivity].
    repeat apply well_formed_set_col; try exact Hw;
      rewrite length_map; repeat rewrite nrows_set_col;
      eapply well_formed_lookup; eassumption.
  - intros H. injection H as <-. unfold sentinel, set_col_scalar.
    split.
    + repeat apply well_formed_set_col;
        try (apply well_formed_blank_fields; exact Hw);
        apply repeat_length.
    + repeat rewrite nrows_set_col. apply nrows_blank_fields.
Qed.

End CallMoreFacts.

Module CallExtras.

Import Py Pandas Errors Server Call Shape.
Import PyFacts PandasFacts CallFacts CallMoreFacts Fixtures.

(** X5.  On a response with more than two columns, [call_api] changes
    nothing but the values of UDPRN, UPRN and Closeness: the table it
    returns has the columns of the response, in the same order, and every
    other column holds the values it held. *)
Theorem X5_normalisation_keeps_other_columns
  (self : ApiCall) (r_out : string) (table b : DataFrame) :
  2 < ncols table ->
  fst (call_api self (PostTable r_out table)) = Ok b ->
  map fst (df_columns b) = map fst (df_columns table)
  /\ (forall name,
        name <> "UDPRN" -> name <> "UPRN" -> name <> "Closeness" ->
        lookup name (df_columns b) = lookup name (df_columns table)).
Proof.
  intros Hn Hb.
  destruct (call_api_returns self r_out table b Hb) as (b0 & Hfill & Hcols & _).
  unfold fill in Hfill. apply Nat.ltb_lt in Hn. rewrite Hn in Hfill.
  destruct (normalise_done table b0 Hfill) as (us & ps & cs & Hu & Hp & Hc & ->).
  rewrite Hcols. cbn [set_col df_columns]. split.
  - rewrite (map_fst_replace_present _ _ cs);
      [|now rewrite !lookup_replace_other by discriminate].
    rewrite (map_fst_replace_present _ _ ps);
      [|now rewrite lookup_replace_other by discriminate].
    now rewrite (map_fst_replace_present _ _ us).
  - intros name H1 H2 H3. now rewrite !lookup_replace_other by assumption.
Qed.

Lemma X5_normalisation_keeps_other_columns_witness :
  exists b,
    fst (call_api call_two_rows (PostTable "" full_table)) = Ok b
    /\ map fst (df_columns b) = ["UDPRN"; "UPRN"; "Closeness"; "Town"]
    /\ lookup "Town" (df_columns b) = Some ["Ramsey"; "Douglas"].
Proof.
  eexists. split; [reflexivity|].
  destruct (X5_normalisation_keeps_other_columns call_two_rows "" full_table _
              ltac:(cbn; lia) eq_refl) as (H1 & H2).
  split; [exact H1|]. apply H2; discriminate.
Defined.

(** X6.  On a response with fewer than three columns, [call_api] blanks
    every requested output field: in the table it returns, a column named
    in [out_fields] (other than the three it fills with zeros) holds the
    empty string in every row of the response, and a column of the
    response that is not requested holds the values it held. *)
Theorem X6_degraded_blanks_requested_fields
  (self : ApiCall) (r_out : string) (table b : DataFrame) :
  ncols table < 3 ->
  fst (call_api self (PostTable r_out table)) = Ok b ->
  forall name,
    name <> "UDPRN" -> name <> "UPRN" -> name <> "Closeness" ->
    lookup name (df_columns b)
    = if existsb (String.eqb name) (out_fields self)
      then Some (repeat "" (nrows table))
      else lookup name (df_columns table).
Proof.
  intros Hn Hb name H1 H2 H3.
  destruct (call_api_returns self r_out table b Hb) as (b0 & Hfill & Hcols & _).
  unfold fill in Hfill.
  replace (Nat.ltb 2 (ncols table)) with false in Hfill
    by (symmetry; apply Nat.ltb_ge; lia).
  injection Hfill as <-. rewrite Hcols.
  unfold sentinel, set_col_scalar, set_col. cbn [df_columns].
  rewrite !lookup_replace_other by assumption.
  apply lookup_blank_fields.
Qed.

Lemma X6_degraded_blanks_requested_fields_witness :
  exists b,
    fst (call_api call_two_rows (PostTable "" narrow_table)) = Ok b
    /\ lookup "Town" (df_columns b) = Some [""; ""]
    /\ lookup "Result" (df_columns b) = Some ["-2"; "-2"].
Proof.
  eexists. split; [reflexivity|].
  pose proof (X6_degraded_blanks_requested_fields call_two_rows "" narrow_table _
                ltac:(cbn; lia) eq_refl) as H.
  split; apply H; discriminate.
Defined.

(** X7.  The three normalisations are idempotent: a normalised UDPRN,
    UPRN or Closeness value is unchanged by a second normalisation, and a
    normalised identifier contains no ['.']. *)
Theorem X7_normalisation_idempotent (r : string) :
  norm_UDPRN (norm_UDPRN r) = norm_UDPRN r
  /\ norm_UPRN (norm_UPRN r) = norm_UPRN r
  /\ norm_Closeness (norm_Closeness r) = norm_Closeness r
  /\ has_char "." (norm_UDPRN r) = false
  /\ has_char "." (norm_UPRN r) = false.
Proof.
  destruct (norm_value r) as (_ & _ & L8 & L12 & _).
  assert (D8 : has_char "." (norm_UDPRN r) = false).
  { apply has_char_last_chars. rewrite CheckFacts.has_char_append.
    now rewrite has_char_split_head. }
  assert (D12 : has_char "." (norm_UPRN r) = false).
  { apply has_char_last_chars. rewrite CheckFacts.has_char_append.
    now rewrite has_char_split_head. }
  split; [|split; [|split; [|split; assumption]]].
  - unfold norm_UDPRN at 1. rewrite <- pad8.
    apply pad_fixed; [lia | exact L8 | exact D8].
  - unfold norm_UPRN at 1. rewrite <- pad12.
    apply pad_fixed; [lia | exact L12 | exact D12].
  - unfold norm_Closeness. apply split_head_no_sep. apply has_char_split_head.
Qed.

(** X8.  [call_api] keeps tables well formed: if every column of the
    parsed response has one cell per row, so has every column of the table
    the call returns, and when the call has row labels the table has
    exactly one row per label. *)
Theorem X8_result_well_formed
  (self : ApiCall) (r_out : string) (table b : DataFrame) :
  well_formed table = true ->
  fst (call_api self (PostTable r_out table)) = Ok b ->
  well_formed b = true
  /\ (forall labels, index self = Some labels ->
        df_index b = labels /\ nrows b = List.length labels).
Proof.
  intros Hw Hb.
  destruct (call_api_returns self r_out table b Hb) as (b0 & Hfill & Hcols & Hi).
  destruct (well_formed_fill _ _ _ Hw Hfill) as (Hw0 & Hr0).
  unfold well_formed in *. rewrite Hcols.
  destruct (index self) as [labels|].
  - destruct Hi as (Hl & Hk). split.
    + destruct Hk as [Hk | Hk].
      * unfold ncols in Hk. destruct (df_columns b0); [reflexivity | discriminate].
      * unfold nrows at 1. rewrite Hl, Hk. exact Hw0.
    + intros l [= <-]. split; [exact Hl|]. unfold nrows. now rewrite Hl.
  - split; [|discriminate]. unfold nrows at 1. rewrite Hi. exact Hw0.
Qed.

Lemma X8_result_well_formed_witness :
  exists b,
    fst (call_api call_two_rows (PostTable "" full_table)) = Ok b
    /\ well_formed b = true
    /\ nrows b = 2.
Proof.
  eexists. split; [reflexivity|].
  destruct (X8_result_well_formed call_two_rows "" full_table _ eq_refl eq_refl)
    as (H1 & H2).
  split; [exact H1|]. now destruct (H2 _ eq_refl).
Defined.

End CallExtras.

(** ** Bounds on [check_batch] *)

Module RetryMoreFacts.

Import Pandas Server Call Retry RetryFacts.

Lemma sum_upto_nonneg (k : nat) (f : nat -> Z) :
  (forall i, 0 <= f i)%Z -> (0 <= sum_upto k f)%Z.
Proof.
  intros H. induction k as [|k IH]; simpl; [lia|].
  specialize (H k). lia.
Qed.

Section OneCall.
Variables (api : ApiCall) (s : ApiServer).
Hypothesis Hs : get_server api = Ok s.
Variable net : nat -> post_outcome.

(** Whatever the network does, the loop makes no more calls than
    [retry_count] leaves room for, and sleeps no longer than the back-offs
    of that many failures. *)
Lemma loop_bounds :
  forall fuel attempt st r tr,
    check_batch_loop fuel api net attempt st = Some (r, tr) ->
    retry_count st <= 10 ->
    (0 <= sleep_timer st)%Z ->
    List.length (posts tr) <= 10 - retry_count st
    /\ (0 <= slept tr
        <= sum_upto (10 - retry_count st)
             (fun i => sleep_timer st + 3 * Z.of_nat i))%Z
    /\ r <> Raise ConnectionError.
Proof.
  induction fuel as [|fuel IH]; intros attempt st r tr H Hrc Ht;
    [discriminate|].
  assert (Hsum : forall k,
            (0 <= sum_upto k (fun i => sleep_timer st + 3 * Z.of_nat i))%Z).
  { intros k. apply sum_upto_nonneg. intros i. lia. }
  cbn [check_batch_loop] in H.
  destruct (Nat.ltb (retry_count st) 10) eqn:E.
  2:{ injection H as <- <-.
      change (posts []) with (@nil (nat * string)).
      change (slept []) with 0%Z. cbn [List.length].
      specialize (Hsum (10 - retry_count st)).
      split; [lia|]. split; [lia | discriminate]. }
  apply Nat.ltb_lt in E.
  destruct (call_api_trace api s Hs (net attempt)) as (Hp & Hsl).
  destruct (call_api api (net attempt)) as [[df|e] ev]; cbn [snd] in Hp, Hsl.
  - destruct (check_batch_loop fuel api net (S attempt) _) as [[r' tr']|] eqn:E';
      [|discriminate].
    cbn [option_map fst snd] in H. injection H as <- <-.
    destruct (IH _ _ _ _ E') as (B1 & B2 & B3); cbn [retry_count sleep_timer];
      try lia.
    cbn [retry_count Nat.sub sum_upto] in B1, B2.
    rewrite posts_app, length_app, Hp, slept_app, Hsl. cbn [List.length].
    specialize (Hsum (10 - retry_count st)).
    split; [lia|]. split; [lia | exact B3].
  - destruct e;
      try (injection H as <- <-; rewrite Hp, Hsl; cbn [List.length];
           specialize (Hsum (10 - retry_count st));
           split; [lia|]; split; [lia | discriminate]).
    destruct (check_batch_loop fuel api net (S attempt) _) as [[r' tr']|] eqn:E';
      [|discriminate].
    cbn [option_map fst snd] in H. injection H as <- <-.
    destruct (IH _ _ _ _ E') as (B1 & B2 & B3); cbn [retry_count sleep_timer];
      try (unfold Server.sleep_timer_increment; lia).
    cbn [retry_count sleep_timer] in B1, B2.
    rewrite posts_app, length_app, Hp, slept_app, Hsl.
    change (posts (?a :: ?b :: tr')) with (posts tr').
    change (slept (?a :: EvSleep ?t :: tr')) with (t + slept tr')%Z.
    cbn [List.length].
    replace (10 - retry_count st) with (S (10 - S (retry_count st))) by lia.
    rewrite sum_upto_shift.
    rewrite (sum_upto_ext _ (fun i => sleep_timer st + 3 * Z.of_nat (S i))%Z
               (fun i => sleep_timer st + Server.sleep_timer_increment
                         + 3 * Z.of_nat i)%Z)
      by (intros i _; unfold Server.sleep_timer_increment; lia).
    split; [lia|]. split; [lia | exact B3].
Qed.

(** [k] failed connections, then a call that raises something else. *)
Lemma loop_fail_then_raise (e : exn) (k : nat) :
  e <> ConnectionError ->
  forall fuel attempt st,
    retry_count st + k < 10 ->
    k + 1 <= fuel ->
    (forall j, j < k -> net (attempt + j) = PostConnectionError) ->
    fst (call_api api (net (attempt + k))) = Raise e ->
    exists tr,
      check_batch_loop fuel api net attempt st = Some (Raise e, tr)
      /\ posts tr = repeat (api_server_id api, uri_stem s) (S k)
      /\ slept tr
         = sum_upto k (fun i => sleep_timer st + 3 * Z.of_nat i)%Z.
Proof.
  intros He.
  induction k as [|k IH]; intros fuel attempt st Hrc Hfuel Hfail Hraise.
  - destruct fuel as [|fuel]; try lia.
    rewrite Nat.add_0_r in Hraise.
    destruct (call_api_trace api s Hs (net attempt)) as (Hp & Hsl).
    cbn [check_batch_loop].
    replace (Nat.ltb (retry_count st) 10) with true
      by (symmetry; apply Nat.ltb_lt; lia).
    destruct (call_api api (net attempt)) as [r ev]. cbn [fst snd] in *.
    subst r. exists ev. destruct e; try congruence; auto.
  - destruct fuel as [|fuel]; try lia.
    pose proof (Hfail 0 ltac:(lia)) as H0. rewrite Nat.add_0_r in H0.
    destruct (IH fuel (S attempt)
                (mkLocals (S (retry_count st)) (S (calls_failed st))
                          (sleep_timer st + Server.sleep_timer_increment)
                          (result_df st)))
      as (tr & Htr & Hp & Hsl).
    + cbn [retry_count]. lia.
    + lia.
    + intros j Hj. replace (S attempt + j) with (attempt + S j) by lia.
      apply Hfail. lia.
    + replace (S attempt + k) with (attempt + S k) by lia. exact Hraise.
    + cbn [check_batch_loop].
      replace (Nat.ltb (retry_count st) 10) with true
        by (symmetry; apply Nat.ltb_lt; lia).
      rewrite H0, (call_api_connection_error api s Hs), Htr.
      cbn [option_map fst snd].
      eexists. split; [reflexivity|]. split.
      * rewrite posts_app. change (posts [EvPost ?i ?u ?d]) with [(i, u)].
        cbn [app]. change (posts (?a :: ?b :: tr)) with (posts tr).
        rewrite Hp. reflexivity.
      * rewrite (sum_upto_shift k).
        unfold slept in Hsl |- *.
        cbn -[sum_upto Z.add Z.mul Z.of_nat] in Hsl |- *.
        rewrite Hsl.
        rewrite (sum_upto_ext k _
                   (fun i => sleep_timer st + 3 * Z.of_nat (S i))%Z).
        -- lia.
        -- intros i _. unfold Server.sleep_timer_increment. lia.
Qed.

End OneCall.

End RetryMoreFacts.

Module RetryExtras.

Import Pandas Server Call Retry RetryFacts DispatchFacts RetryMoreFacts.
Import Fixtures MoreFixtures.

(** Whatever the network does, one [check_batch] ends, having made at
    most ten requests and slept at most 145 seconds. *)
Lemma check_batch_bounds (api : ApiCall) (net : nat -> post_outcome) :
  exists r tr,
    check_batch api net = Some (r, tr)
    /\ List.length (posts tr) <= 10
    /\ (0 <= slept tr <= 145)%Z
    /\ r <> Raise ConnectionError
    /\ Forall (fun p => fst p = api_server_id api) (posts tr).
Proof.
  destruct (check_batch_total api net) as ([r tr] & H).
  exists r, tr. split; [exact H|].
  unfold check_batch in H.
  destruct (nth_error (Call.api_servers api) (api_server_id api)) as [s|] eqn:E.
  - assert (Hs : get_server api = Ok s) by (unfold get_server; now rewrite E).
    destruct (loop_bounds api s Hs net _ _ _ _ _ H) as (B1 & B2 & B3);
      cbn [retry_count sleep_timer]; try (unfold Server.sleep_timer; lia).
    cbn [retry_count sleep_timer Nat.sub] in B1, B2.
    change (sum_upto 10 (fun i => Server.sleep_timer + 3 * Z.of_nat i)%Z)
      with 145%Z in B2.
    split; [exact B1|]. split; [exact B2|]. split; [exact B3|].
    eapply Forall_impl; [|eapply check_batch_loop_posts; eassumption].
    intros p <-. reflexivity.
  - injection H as <- <-. cbn. repeat split; try lia; try discriminate.
    constructor.
Qed.

(** X9.  Whatever the network answers, [check_batch] ends: it makes at
    most ten requests, all to the endpoint of the call, sleeps at most
    145 seconds in total, and never raises [ConnectionError]. *)
Theorem X9_check_batch_bounded (api : ApiCall) (net : nat -> post_outcome) :
  exists r tr,
    check_batch api net = Some (r, tr)
    /\ List.length (posts tr) <= 10
    /\ (0 <= slept tr <= 145)%Z
    /\ r <> Raise ConnectionError
    /\ Forall (fun p => fst p = api_server_id api) (posts tr).
Proof. apply check_batch_bounds. Qed.

(** X10.  An exception of [call_api] other than [ConnectionError] ends
    [check_batch] at once, also after failed connections: if the first
    [k < 10] calls fail to connect and the next one raises [e],
    [check_batch] raises [e] after exactly [k+1] requests, having slept
    the back-offs of the [k] failures and no more. *)
Theorem X10_fatal_error_not_retried
  (api : ApiCall) (s : ApiServer) (net : nat -> post_outcome)
  (k : nat) (e : exn) :
  get_server api = Ok s ->
  k < 10 ->
  (forall j, j < k -> net j = PostConnectionError) ->
  fst (call_api api (net k)) = Raise e ->
  e <> ConnectionError ->
  exists tr,
    check_batch api net = Some (Raise e, tr)
    /\ posts tr = repeat (api_server_id api, uri_stem s) (k + 1)
    /\ slept tr = sum_upto k (fun i => 1 + 3 * Z.of_nat i)%Z.
Proof.
  intros Hs Hk Hfail Hraise He.
  destruct (loop_fail_then_raise api s Hs net e k He 11 0
              (mkLocals 0 0 Server.sleep_timer Pandas.empty))
    as (tr & Htr & Hp & Hsl); cbn [retry_count Nat.add]; try lia;
    try assumption.
  exists tr. unfold check_batch.
  unfold get_server in Hs.
  destruct (nth_error (Call.api_servers api) (api_server_id api));
    [|discriminate].
  rewrite Nat.add_1_r. auto.
Qed.

Lemma X10_fatal_error_not_retried_witness :
  exists tr,
    check_batch call_two_rows net_fatal_third
    = Some (Raise (OtherError "Timeout"), tr)
    /\ List.length (posts tr) = 3
    /\ slept tr = 5%Z.
Proof.
  destruct (X10_fatal_error_not_retried call_two_rows server_A net_fatal_third
              2 (OtherError "Timeout"))
    as (tr & Htr & Hp & Hsl).
  - reflexivity.
  - lia.
  - intros j Hj. destruct j as [|[|j]]; [reflexivity | reflexivity | lia].
  - reflexivity.
  - discriminate.
  - exists tr. split; [exact Htr|]. split; [now rewrite Hp | exact Hsl].
Defined.

End RetryExtras.

(** ** More on dispatch and planning *)

Module DispatchExtras.

Import Py Pandas Server Call Retry Pipeline.
Import PyFacts RetryFacts PlanFacts DispatchFacts PipelineFacts RetryExtras.
Import Fixtures MoreFixtures.

Section Runs.
Variable net : nat -> nat -> post_outcome.

(** The executor gives the results that the serial loop would give. *)
Lemma collect_run_serial (calls : list ApiCall) :
  forall i, collect net i calls = option_map fst (run_serial net i calls).
Proof.
  induction calls as [|api rest IH]; intros i; [reflexivity|].
  cbn [collect run_serial].
  destruct (check_batch api (net i)) as [[[df|e] ev]|]; try reflexivity.
  rewrite IH. destruct (run_serial net (S i) rest) as [[r tr]|]; reflexivity.
Qed.

(** The serial loop makes at most ten requests a call. *)
Lemma run_serial_bounds (calls : list ApiCall) :
  forall i,
  exists r tr,
    run_serial net i calls = Some (r, tr)
    /\ List.length (posts tr) <= 10 * List.length calls
    /\ (0 <= slept tr <= 145 * Z.of_nat (List.length calls))%Z.
Proof.
  induction calls as [|api rest IH]; intros i.
  - exists (Ok []), []. cbn. repeat split; lia.
  - destruct (check_batch_bounds api (net i)) as (r & tr & Hcb & B1 & B2 & _).
    destruct (IH (S i)) as (r' & tr' & Hrun & B1' & B2').
    cbn [run_serial]. rewrite Hcb.
    destruct r as [df|e].
    + rewrite Hrun. cbn [option_map fst snd].
      eexists. eexists. split; [reflexivity|].
      rewrite posts_app, length_app, slept_app. cbn [List.length]. lia.
    + exists (Raise e), tr. split; [reflexivity|]. cbn [List.length]. lia.
Qed.

End Runs.

(** X11.  With one endpoint, asking for threads changes how the batches
    are run, not what comes back: for a list of at least one batch,
    [process_chunk] returns the same table, or raises the same exception,
    with and without [multi_thread_mode]. *)
Theorem X11_one_endpoint_same_outcome
  (net : nat -> nat -> post_outcome) (s : ApiServer) (fields : list string)
  (batches : list batch_data) :
  batches <> [] ->
  option_map fst (process_chunk net true [s] batches fields)
  = option_map fst (process_chunk net false [s] batches fields).
Proof.
  intros Hne. unfold process_chunk, dispatch. cbn [List.length Nat.ltb Nat.leb orb].
  rewrite (assign_outer_round [s] fields _ batches 0)
    by (cbn [List.length]; lia || reflexivity).
  cbn [option_map List.length].
  replace (map (fun p : nat * batch_data =>
                  ApiCall_init [s] (fst p mod 1) fields (snd p))
               (combine (seq 0 (List.length batches)) batches))
    with (map (ApiCall_init [s] 0 fields) batches).
  2:{ rewrite <- (map_snd_combine_seq batches 0) at 1. rewrite map_map.
      apply map_ext. intros p. now rewrite Nat.mod_1_r. }
  cbn [execute].
  replace (Nat.eqb (Nat.min (List.length batches) MAX_THREADS) 0) with false.
  2:{ symmetry. apply Nat.eqb_neq. unfold MAX_THREADS.
      destruct batches; [congruence | cbn [List.length]; lia]. }
  rewrite collect_run_serial.
  destruct (run_serial net 0 (map (ApiCall_init [s] 0 fields) batches))
    as [[r tr]|]; reflexivity.
Qed.

Lemma X11_one_endpoint_same_outcome_witness :
  option_map fst (process_chunk net_up true [server_A] three_batches ["Town"])
  = option_map fst (process_chunk net_up false [server_A] three_batches ["Town"]).
Proof.
  apply (X11_one_endpoint_same_outcome net_up server_A ["Town"] three_batches).
  discriminate.
Defined.

(** X12.  With an empty pool and at least one batch: without threads
    [process_chunk] raises [IndexError] at the first batch, before any
    request; with [multi_thread_mode] the loop that assigns batches to
    endpoints takes no batch off the list and never ends. *)
Theorem X12_empty_pool
  (net : nat -> nat -> post_outcome) (fields : list string)
  (b : batch_data) (rest : list batch_data) :
  (exists msg,
     process_chunk net false [] (b :: rest) fields
     = Some (Raise (IndexError msg), [EvLog [VStr "Multi-thread disabled"]]))
  /\ (forall fuel, assign_outer fuel [] fields (b :: rest) = None)
  /\ process_chunk net true [] (b :: rest) fields = None.
Proof.
  split; [|split].
  - eexists. reflexivity.
  - intros fuel. now apply assign_outer_empty_pool.
  - unfold process_chunk, dispatch. cbn [List.length Nat.ltb Nat.leb orb].
    now rewrite assign_outer_empty_pool.
Qed.

(** X13.  Without threads, a run over [n] batches ends, whatever the
    network does, after at most [10 * n] requests and at most [145 * n]
    seconds of sleep. *)
Theorem X13_serial_run_bounded
  (net : nat -> nat -> post_outcome) (s : ApiServer) (fields : list string)
  (batches : list batch_data) :
  exists r tr,
    process_chunk net false [s] batches fields = Some (r, tr)
    /\ List.length (posts tr) <= 10 * List.length batches
    /\ (0 <= slept tr <= 145 * Z.of_nat (List.length batches))%Z.
Proof.
  unfold process_chunk, dispatch. cbn [List.length Nat.ltb Nat.leb orb execute].
  destruct (run_serial_bounds net (map (ApiCall_init [s] 0 fields) batches) 0)
    as (r & tr & Hrun & B1 & B2).
  rewrite length_map in B1, B2. rewrite Hrun. cbn [option_map fst snd].
  eexists. eexists. split; [reflexivity|].
  change (posts (EvLog ?x :: tr)) with (posts tr).
  change (slept (EvLog ?x :: tr)) with (slept tr).
  split; assumption.
Qed.

(** X14.  Two ways in which planning fails on a table with rows: without
    an ['api'] column the first slice raises [KeyError], whatever the
    batch size; with a batch size of 0 the loop stays at row 0 and never
    ends, so that [check_df] does not return. *)
Theorem X14_planning_failures (in_df : DataFrame) :
  0 < nrows in_df ->
  (lookup "api" (df_columns in_df) = None ->
   forall B, plan in_df B = Some (Raise (KeyError "api")))
  /\ (forall lines, lookup "api" (df_columns in_df) = Some lines ->
        (forall fuel api_data batch_count,
           plan_loop fuel in_df 0 0 (nrows in_df) api_data batch_count = None)
        /\ forall net ini,
             api_batch_size ini = 0 -> check_df net ini in_df = None).
Proof.
  intros HN. split.
  - intros Hno B. unfold plan. cbn [plan_loop].
    replace (Nat.ltb 0 (nrows in_df)) with true
      by (symmetry; now apply Nat.ltb_lt).
    unfold get_col, iloc. cbn [df_columns]. now rewrite lookup_iloc, Hno.
  - intros lines Hapi.
    assert (Hloop : forall fuel api_data batch_count,
              plan_loop fuel in_df 0 0 (nrows in_df) api_data batch_count = None).
    { induction fuel as [|fuel IH]; intros api_data batch_count; [reflexivity|].
      cbn [plan_loop].
      replace (Nat.ltb 0 (nrows in_df)) with true
        by (symmetry; now apply Nat.ltb_lt).
      unfold get_col, iloc. cbn [df_columns]. rewrite lookup_iloc, Hapi.
      cbn [option_map Nat.add]. apply IH. }
    split; [exact Hloop|].
    intros net ini HB. unfold check_df, plan. now rewrite HB, Hloop.
Qed.

Lemma X14_planning_failures_witness :
  check_df net_up (mkSettings 0 false [server_A] ["Town"]) input_two = None.
Proof.
  destruct (X14_planning_failures input_two) as (_ & H).
  - cbn. lia.
  - destruct (H ["x"; "y"] eq_refl) as (_ & Hdf). now apply Hdf.
Defined.

Lemma split_head_join (c : ascii) (line : string) (lines : list string) :
  has_char c line = false ->
  split_head c (join (String c EmptyString) (line :: lines)) = line.
Proof.
  intros H. unfold join. destruct lines as [|l2 ls]; cbn [String.concat].
  - now apply split_head_no_sep.
  - change (String c "" ++ ?x)%string with (String c x).
    now apply split_head_append.
Qed.

(** X15.  A call built from a planned batch remembers its first request
    line: if the first line contains no newline, [first_row] of the call
    is that line, whatever the lines after it. *)
Theorem X15_first_row_is_first_line
  (servers : list ApiServer) (sid : nat) (fields : list string)
  (line : string) (lines : list string) (labels : list Z) :
  has_char (ascii_of_nat 10) line = false ->
  first_row (ApiCall_init servers sid fields
               (join Errors.nl (line :: lines), labels)) = line.
Proof.
  intros H. unfold ApiCall_init. cbn [first_row fst].
  now apply split_head_join.
Qed.

Lemma X15_first_row_is_first_line_witness :
  first_row call_two_rows = "x".
Proof.
  apply (X15_first_row_is_first_line [server_A] 0 ["Town"] "x" ["y"] [5; 6]%Z).
  reflexivity.
Defined.

End DispatchExtras.

(** ** [strip] and [prep_row] *)

Module TextFacts.

Import Text.

Lemma lstrip_blank_append (ws s : string) :
  blank ws = true -> lstrip (ws ++ s) = lstrip s.
Proof.
  induction ws as [|c ws IH]; cbn [blank append lstrip]; [reflexivity|].
  intros H. apply andb_true_iff in H as [Hc Hw]. rewrite Hc. now apply IH.
Qed.

Lemma rstrip_blank (ws : string) : blank ws = true -> rstrip ws = "".
Proof.
  induction ws as [|c ws IH]; cbn [blank rstrip]; [reflexivity|].
  intros H. apply andb_true_iff in H as [Hc Hw]. now rewrite IH, Hc.
Qed.

Lemma rstrip_append_blank (s ws : string) :
  blank ws = true -> rstrip (s ++ ws) = rstrip s.
Proof.
  intros H. induction s as [|c s IH]; cbn [append rstrip].
  - now apply rstrip_blank.
  - now rewrite IH.
Qed.

Lemma rstrip_empty (s : string) : rstrip s = "" -> blank s = true.
Proof.
  induction s as [|c s IH]; cbn [rstrip blank]; [reflexivity|].
  destruct (rstrip s) as [|d t]; [|discriminate].
  destruct (isspace c); [|discriminate].
  intros _. now rewrite IH.
Qed.

Lemma lstrip_empty (s : string) : lstrip s = "" -> blank s = true.
Proof.
  induction s as [|c s IH]; cbn [lstrip blank]; [reflexivity|].
  destruct (isspace c); [exact IH | discriminate].
Qed.

Lemma lstrip_blank (s : string) : blank s = true -> lstrip s = "".
Proof.
  induction s as [|c s IH]; cbn [blank lstrip]; [reflexivity|].
  intros H. apply andb_true_iff in H as [Hc Hs]. now rewrite Hc, IH.
Qed.

(** What is left by [lstrip] does not start with whitespace. *)
Lemma lstrip_head (s : string) :
  match lstrip s with
  | EmptyString => True
  | String c _ => isspace c = false
  end.
Proof.
  induction s as [|c s IH]; cbn [lstrip]; [exact I|].
  destruct (isspace c) eqn:E; [exact IH | exact E].
Qed.

Lemma lstrip_fixed (s : string) :
  match s with
  | EmptyString => True
  | String c _ => isspace c = false
  end ->
  lstrip s = s.
Proof. destruct s as [|c s]; cbn [lstrip]; [reflexivity | now intros ->]. Qed.

Lemma rstrip_head (c : ascii) (s : string) :
  isspace c = false -> exists t, rstrip (String c s) = String c t.
Proof.
  intros H. cbn [rstrip]. destruct (rstrip s); rewrite ?H; eauto.
Qed.

Lemma strip_commute (s : string) : rstrip (lstrip s) = lstrip (rstrip s).
Proof.
  induction s as [|c s IH]; [reflexivity|].
  cbn [lstrip]. destruct (isspace c) eqn:E.
  - rewrite IH. cbn [rstrip]. destruct (rstrip s) as [|d t]; rewrite ?E.
    + reflexivity.
    + cbn [lstrip]. now rewrite E.
  - destruct (rstrip_head c s E) as (t & Ht). rewrite Ht.
    cbn [lstrip]. now rewrite E.
Qed.

Lemma lstrip_idempotent (s : string) : lstrip (lstrip s) = lstrip s.
Proof. apply lstrip_fixed, lstrip_head. Qed.

Lemma rstrip_idempotent (s : string) : rstrip (rstrip s) = rstrip s.
Proof.
  induction s as [|c s IH]; [reflexivity|].
  cbn [rstrip]. destruct (rstrip s) as [|d t] eqn:E.
  - destruct (isspace c) eqn:Ec; [reflexivity|]. cbn [rstrip]. now rewrite Ec.
  - cbn [rstrip] in IH |- *. cbn [rstrip]. fold (rstrip (String d t)).
    now rewrite IH.
Qed.

Lemma strip_pad (ws1 ws2 s : string) :
  blank ws1 = true -> blank ws2 = true ->
  strip (ws1 ++ s ++ ws2) = strip s.
Proof.
  intros H1 H2. unfold strip.
  rewrite lstrip_blank_append by exact H1.
  rewrite strip_commute, rstrip_append_blank by exact H2.
  symmetry. apply strip_commute.
Qed.

Lemma strip_idempotent (s : string) : strip (strip s) = strip s.
Proof.
  unfold strip. rewrite <- (strip_commute (lstrip s)).
  now rewrite lstrip_idempotent, rstrip_idempotent.
Qed.

Lemma strip_empty_iff (s : string) : strip s = "" <-> blank s = true.
Proof.
  unfold strip. split.
  - intros H. apply rstrip_empty in H.
    pose proof (lstrip_head s) as Hh.
    destruct (lstrip s) as [|c t] eqn:E; [now apply lstrip_empty|].
    cbn [blank] in H. rewrite Hh in H. discriminate.
  - intros H. now rewrite lstrip_blank.
Qed.

End TextFacts.

Module PrepFacts.

Import Text Prep TextFacts.

Lemma row_get_raise (f : string) (row : row_t) (e : exn) :
  row_get f row = Raise e -> e = KeyError f.
Proof.
  induction row as [|[k v] row IH]; cbn [row_get].
  - now intros [= <-].
  - destruct (String.eqb k f); [discriminate | exact IH].
Qed.

Lemma row_get_map (g : string -> string) (f : string) (row : row_t) :
  row_get f (map (fun kv => (fst kv, g (snd kv))) row)
  = (v <- row_get f row ;; Ok (g v)).
Proof.
  induction row as [|[k v] row IH]; cbn [map row_get fst snd]; [reflexivity|].
  destruct (String.eqb k f); [reflexivity | exact IH].
Qed.

Lemma length_zero (s : string) : Nat.ltb 0 (String.length s) = false <-> s = "".
Proof.
  destruct s as [|c s]; cbn; split; intros H; try reflexivity; discriminate.
Qed.

Lemma prep_loop_append (row : row_t) (fs1 fs2 : list string) :
  forall acc,
    prep_loop row (fs1 ++ fs2) acc
    = (l <- prep_loop row fs1 acc ;; prep_loop row fs2 l).
Proof.
  induction fs1 as [|f fs1 IH]; intros acc; [reflexivity|].
  cbn [app prep_loop]. destruct (row_get f row) as [v|e]; cbn [bind];
    [|reflexivity].
  destruct (Nat.ltb 0 (String.length (strip v))); apply IH.
Qed.

(** What the loop adds to the list: no empty piece, and nothing exactly
    when every listed field is blank. *)
Lemma prep_loop_pieces (row : row_t) (fields : list string) :
  forall acc l,
    prep_loop row fields acc = Ok l ->
    exists more,
      l = (acc ++ more)%list
      /\ Forall (fun p => p <> "") more
      /\ (forall f, In f fields -> exists v, row_get f row = Ok v)
      /\ (more = [] <->
          forall f, In f fields ->
                    exists v, row_get f row = Ok v /\ blank v = true).
Proof.
  induction fields as [|f fields IH]; intros acc l H.
  - injection H as <-. exists []. rewrite app_nil_r.
    repeat split; try constructor; intros; contradiction.
  - cbn [prep_loop] in H.
    destruct (row_get f row) as [v|e] eqn:Ev; cbn [bind] in H; [|discriminate].
    destruct (Nat.ltb 0 (String.length (strip v))) eqn:El.
    + destruct (IH _ _ H) as (more & -> & Hne & Hall & Hiff).
      exists (strip v :: more). rewrite <- app_assoc.
      split; [reflexivity|]. split.
      { constructor; [|exact Hne]. intros E. rewrite E in El. discriminate. }
      split.
      { intros f' [<- | Hin]; eauto. }
      split; [discriminate|].
      intros Hb. destruct (Hb f (or_introl eq_refl)) as (v' & Hv' & Hbl).
      rewrite Ev in Hv'. injection Hv' as <-.
      apply strip_empty_iff in Hbl. rewrite Hbl in El. discriminate.
    + destruct (IH _ _ H) as (more & -> & Hne & Hall & Hiff).
      exists more. split; [reflexivity|]. split; [exact Hne|]. split.
      { intros f' [<- | Hin]; eauto. }
      split.
      * intros Hm f' [<- | Hin].
        -- exists v. split; [exact Ev|].
           apply strip_empty_iff. now apply length_zero.
        -- now apply Hiff.
      * intros Hb. apply Hiff. intros f' Hin. apply Hb. now right.
Qed.

Lemma prep_loop_present (row : row_t) (fields : list string) :
  forall acc,
    (forall f, In f fields -> exists v, row_get f row = Ok v) ->
    exists l, prep_loop row fields acc = Ok l.
Proof.
  induction fields as [|f fields IH]; intros acc H; [eexists; reflexivity|].
  cbn [prep_loop]. destruct (H f (or_introl eq_refl)) as (v & ->). cbn [bind].
  destruct (Nat.ltb 0 (String.length (strip v)));
    apply IH; intros f' Hin; apply H; now right.
Qed.

Lemma prep_loop_raise (row : row_t) (fields : list string) :
  forall acc e,
    prep_loop row fields acc = Raise e ->
    exists f, In f fields /\ e = KeyError f
              /\ row_get f row = Raise (KeyError f).
Proof.
  induction fields as [|f fields IH]; intros acc e H; [discriminate|].
  cbn [prep_loop] in H. destruct (row_get f row) as [v|e'] eqn:Ev; cbn [bind] in H.
  - destruct (Nat.ltb 0 (String.length (strip v)));
      destruct (IH _ _ H) as (f' & Hin & He & Hr);
      exists f'; (split; [now right | auto]).
  - injection H as <-. pose proof (row_get_raise _ _ _ Ev) as ->.
    exists f. split; [now left | auto].
Qed.

Lemma join_empty (sep : string) (l : list string) :
  Forall (fun p => p <> "") l -> Py.join sep l = "" -> l = [].
Proof.
  unfold Py.join. destruct l as [|p ps]; [reflexivity|].
  intros Hne H. inversion Hne as [|? ? Hp _]; subst.
  destruct p as [|c p]; [contradiction|].
  destruct ps; discriminate.
Qed.

End PrepFacts.

Module PrepExtras.

Import Text Prep TextFacts PrepFacts MoreFixtures.

(** X16.  The request line of a row does not show whitespace around the
    values nor blank fields: [prep_row] gives the same result when every
    value of the row is wrapped in whitespace, and when a listed field
    whose value is blank is taken off the list. *)
Theorem X16_prep_row_ignores_blanks
  (row : row_t) (fields : list string) (ws1 ws2 : string) :
  blank ws1 = true -> blank ws2 = true ->
  prep_row (map (fun kv => (fst kv, ws1 ++ snd kv ++ ws2)) row) fields
  = prep_row row fields
  /\ (forall before f after v,
        fields = (before ++ f :: after)%list ->
        row_get f row = Ok v -> blank v = true ->
        prep_row row fields = prep_row row (before ++ after)).
Proof.
  intros H1 H2. split.
  - unfold prep_row. f_equal. generalize (@nil string) as acc.
    induction fields as [|f fields IH]; intros acc; [reflexivity|].
    cbn [prep_loop].
    rewrite (row_get_map (fun v => ws1 ++ v ++ ws2)%string).
    destruct (row_get f row) as [v|e]; cbn [bind]; [|reflexivity].
    rewrite (strip_pad ws1 ws2 v H1 H2).
    destruct (Nat.ltb 0 (String.length (strip v))); apply IH.
  - intros before f after v -> Hv Hb. unfold prep_row. f_equal.
    rewrite !prep_loop_append.
    destruct (prep_loop row before []) as [l|e]; cbn [bind]; [|reflexivity].
    cbn [prep_loop]. rewrite Hv. cbn [bind].
    apply strip_empty_iff in Hb. now rewrite Hb.
Qed.

Lemma X16_prep_row_ignores_blanks_witness :
  prep_row address_row ["Line1"; "Line2"; "Town"]
  = prep_row address_row ["Line1"; "Town"].
Proof.
  destruct (X16_prep_row_ignores_blanks address_row
              ["Line1"; "Line2"; "Town"] "" "" eq_refl eq_refl) as (_ & H).
  apply (H ["Line1"] "Line2" ["Town"] "   "); reflexivity.
Defined.

(** X17.  [prep_row] returns a request line exactly when the row has
    every listed field; otherwise it raises the [KeyError] of a listed
    field that the row lacks.  The request line is empty exactly when
    every listed field is blank. *)
Theorem X17_prep_row_outcomes (row : row_t) (fields : list string) :
  ((exists text, prep_row row fields = Ok text)
   <-> forall f, In f fields -> exists v, row_get f row = Ok v)
  /\ (prep_row row fields = Ok ""
      <-> forall f, In f fields ->
                    exists v, row_get f row = Ok v /\ blank v = true)
  /\ (forall e,
        prep_row row fields = Raise e ->
        exists f, In f fields /\ e = KeyError f
                  /\ row_get f row = Raise (KeyError f)).
Proof.
  unfold prep_row. split; [split|split; [split|]].
  - intros (text & H).
    destruct (prep_loop row fields []) as [l|e] eqn:E; [|discriminate].
    now destruct (prep_loop_pieces _ _ _ _ E) as (more & _ & _ & Hall & _).
  - intros Hall. destruct (prep_loop_present row fields [] Hall) as (l & ->).
    eexists. reflexivity.
  - intros H.
    destruct (prep_loop row fields []) as [l|e] eqn:E; [|discriminate].
    destruct (prep_loop_pieces _ _ _ _ E) as (more & -> & Hne & _ & Hiff).
    cbn [bind app] in H. injection H as H.
    apply Hiff. now apply (join_empty "~").
  - intros Hb.
    destruct (prep_loop_present row fields []) as (l & E).
    { intros f Hin. destruct (Hb f Hin) as (v & Hv & _). eauto. }
    rewrite E.
    destruct (prep_loop_pieces _ _ _ _ E) as (more & -> & _ & _ & Hiff).
    apply Hiff in Hb. now subst more.
  - intros e H.
    destruct (prep_loop row fields []) as [l|e'] eqn:E; [discriminate|].
    injection H as <-. eapply prep_loop_raise. exact E.
Qed.

Lemma X17_prep_row_outcomes_witness :
  prep_row address_row ["Line2"] = Ok "".
Proof.
  destruct (X17_prep_row_outcomes address_row ["Line2"]) as (_ & H & _).
  apply H. intros f [<- | []]. exists "   ". split; reflexivity.
Defined.

End PrepExtras.

(** ** [ApiResponse] *)

Module ResponseExtras.

Import Errors Server Response MoreFixtures.

Lemma strings_some (l : list jval) (parts : list string) :
  strings l = Some parts <-> l = map JStr parts.
Proof.
  revert parts. induction l as [|v l IH]; intros parts; cbn [strings].
  - split.
    + now intros [= <-].
    + destruct parts; [reflexivity | discriminate].
  - destruct v as [| z | s]; try (split; [discriminate|];
                                 destruct parts; discriminate).
    destruct (strings l) as [ps|] eqn:E; cbn [option_map].
    + split.
      * intros [= <-]. cbn [map]. f_equal. now apply IH.
      * destruct parts as [|p parts]; [discriminate|].
        intros [= -> H]. apply IH in H. now injection H as ->.
    + split; [discriminate|].
      destruct parts as [|p parts]; [discriminate|].
      intros [= -> H]. apply IH in H. discriminate.
Qed.

(** The keys whose values [__repr__] joins. *)
Lemma repr_parts (in_dict : list (string * jval)) (delimiter : string) :
  repr (ApiResponse_init in_dict) delimiter
  = match strings (map (fun key => dict_get key in_dict)
                       ["Property"; "Street"; "Locality"; "Town";
                        "PostalCounty"; "UDPRN"; "Postcode"]) with
    | None => Raise (TypeError "sequence item: expected str instance")
    | Some parts =>
        Ok (Py.join delimiter parts ++ nl ++ "Result: "
            ++ py_str (dict_get "ResultCode" in_dict)
            ++ nl ++ "Score: " ++ py_str (dict_get "Closeness" in_dict))
    end.
Proof. reflexivity. Qed.

(** X18.  The text of an [ApiResponse] exists exactly when each of the
    seven address fields (Property, Street, Locality, Town, PostalCounty,
    UDPRN, Postcode) is in the response and is a string: the text is then
    these values joined by the delimiter, followed by the result code and
    the score; if one of them is absent, null or a number, [__repr__]
    raises [TypeError]. *)
Theorem X18_repr_needs_all_address_fields
  (in_dict : list (string * jval)) (delimiter : string) :
  let keys := ["Property"; "Street"; "Locality"; "Town"; "PostalCounty";
               "UDPRN"; "Postcode"] in
  (forall parts,
     map (fun key => dict_get key in_dict) keys = map JStr parts ->
     repr (ApiResponse_init in_dict) delimiter
     = Ok (Py.join delimiter parts ++ nl ++ "Result: "
           ++ py_str (dict_get "ResultCode" in_dict)
           ++ nl ++ "Score: " ++ py_str (dict_get "Closeness" in_dict)))
  /\ ((exists key, In key keys /\ forall s, dict_get key in_dict <> JStr s) ->
      exists msg, repr (ApiResponse_init in_dict) delimiter = Raise (TypeError msg))
  /\ (forall text,
        repr (ApiResponse_init in_dict) delimiter = Ok text ->
        forall key, In key keys -> exists s, dict_get key in_dict = JStr s).
Proof.
  cbv zeta. rewrite repr_parts. split; [|split].
  - intros parts H. apply strings_some in H. now rewrite H.
  - intros (key & Hin & Hno).
    destruct (strings _) as [parts|] eqn:E; [|eauto].
    apply strings_some in E. exfalso.
    apply (in_map (fun key => dict_get key in_dict)) in Hin.
    rewrite E in Hin. apply in_map_iff in Hin as (s & Hs & _).
    now apply (Hno s).
  - intros text H key Hin.
    destruct (strings _) as [parts|] eqn:E; [|discriminate].
    apply strings_some in E.
    apply (in_map (fun key => dict_get key in_dict)) in Hin.
    rewrite E in Hin. apply in_map_iff in Hin as (s & Hs & _). eauto.
Qed.

Lemma X18_repr_needs_all_address_fields_witness :
  exists text, repr (ApiResponse_init full_response) ", " = Ok text.
Proof.
  destruct (X18_repr_needs_all_address_fields full_response ", ") as (H & _).
  eexists.
  apply (H ["1"; "High St"; ""; "Ramsey"; ""; "123"; "IM7 2DZ"]).
  reflexivity.
Defined.

End ResponseExtras.
